(** * asn-memo: the SM-2 scheduler, its session selection and its persistence

    A shallow embedding of [spaced_repetition.py], [progress.py], the
    catalog functions of [data.py] and, from [app.py], the session of the
    study screen, the saving and the reset of the progress, with the
    properties of the design document stated and settled against it, and
    further properties of the code after them.

    Modelling conventions.
    - A Python [float] is an IEEE-754 binary64 value: [spec_float] with
      precision 53 and [emax] 1024, computed with the reference operations
      of the Standard Library ([SFadd], [SFmul], ...).
    - A Python [int] is a [Z].
    - A naive [datetime] is its number of microseconds since
      0001-01-01T00:00:00; the range of the type (years 1 to 9999) is kept,
      so that [datetime + timedelta] raises [OverflowError] as it does in
      Python.
    - [datetime.now()] reads a clock; the readings to come are a function
      [nat -> datetime] that every read advances.
    - Exceptions are the [Raise] results of an error monad.
    - A [dict] is an association list in insertion order, with the keys
      pairwise distinct ([dict_wf]).
    - Every timestamp is naive, as those that the program writes are; a
      timestamp with an offset, which Python refuses to compare with
      [datetime.now()], has no value here.
    - The text of the progress file and the file system are left out: a
      file is what [json.load] makes of it, and a write is described
      when it goes through. *)

From Stdlib Require Import ZArith Lia SpecFloat Zpower.
From Stdlib Require Import Sorting.Sorted Sorting.Permutation.
From Stdlib Require Import DecimalString DecimalPos DecimalZ.
From stdpp Require Import base tactics option list strings pretty gmap.

Local Open Scope Z_scope.

(** ** Exceptions and the two monads *)

Inductive exn : Type :=
  | OverflowError
  | ValueError
  | KeyError
  | TypeError
  | AttributeError.

Inductive result (A : Type) : Type :=
  | Ok (a : A)
  | Raise (e : exn).
Arguments Ok {A} a.
Arguments Raise {A} e.

#[global] Instance result_ret : MRet result := fun A a => Ok a.
#[global] Instance result_bind : MBind result := fun A B f m =>
  match m with
  | Ok a => f a
  | Raise e => Raise e
  end.

(** A naive datetime, in microseconds since 0001-01-01T00:00:00. *)
Definition datetime : Type := Z.

(** The clock readings still to come. *)
Definition Clock : Type := nat -> datetime.

Definition M (A : Type) : Type := Clock -> result (A * Clock).

#[global] Instance M_ret : MRet M := fun A a w => Ok (a, w).
#[global] Instance M_bind : MBind M := fun A B f m w =>
  match m w with
  | Ok (a, w') => f a w'
  | Raise e => Raise e
  end.

(** A computation that only can raise runs without touching the clock. *)
Definition lift {A : Type} (r : result A) : M A := fun w =>
  match r with
  | Ok a => Ok (a, w)
  | Raise e => Raise e
  end.

(** [datetime.now()] *)
Definition now : M datetime := fun w => Ok (w 0%nat, fun n => w (S n)).

(** ** Python floats *)

Module Float64.
Definition prec : Z := 53.
Definition emax : Z := 1024.

Definition float : Type := spec_float.

Definition add : float -> float -> float := SFadd prec emax.
Definition sub : float -> float -> float := SFsub prec emax.
Definition mul : float -> float -> float := SFmul prec emax.
Definition ltb : float -> float -> bool := SFltb.
Definition leb : float -> float -> bool := SFleb.

(** Every Python float is a valid binary64 value. *)
Definition is_binary64 (x : float) : Prop := valid_binary prec emax x = true.

(** The integer [z], rounded to nearest even. *)
Definition of_Z (z : Z) : float := binary_normalize prec emax z 0 false.

(** The literals of [spaced_repetition.py]. *)
Definition c0_1 : float := S754_finite false 7205759403792794 (-56).
Definition c0_08 : float := S754_finite false 5764607523034235 (-56).
Definition c0_02 : float := S754_finite false 5764607523034235 (-58).
Definition c1_3 : float := S754_finite false 5854679515581645 (-52).
Definition c2_5 : float := S754_finite false 5629499534213120 (-51).
End Float64.
Import Float64.

(** [float(i)]: CPython rounds to nearest even and refuses an integer
    beyond the largest finite double. *)
Definition int_to_float (i : Z) : result float :=
  match of_Z i with
  | S754_infinity _ => Raise OverflowError
  | x => Ok x
  end.

(** [i * x] for an int [i] and a float [x]: the int is converted first. *)
Definition int_mul_float (i : Z) (x : float) : result float :=
  f ← int_to_float i; Ok (mul f x).

(** [max(a, b)]: the later argument wins only when it is strictly greater. *)
Definition py_max (a b : float) : float := if ltb a b then b else a.

(** The integer nearest to [m * 2^e], ties to even. *)
Definition round_half_even (m : positive) (e : Z) : Z :=
  match e with
  | Zneg p =>
      let d := 2 ^ Zpos p in
      let q := Zpos m / d in
      match Z.compare (2 * (Zpos m mod d)) d with
      | Lt => q
      | Gt => q + 1
      | Eq => if Z.even q then q else q + 1
      end
  | _ => Zpos m * 2 ^ e
  end.

(** [round(x)] with one argument: an int, ties to even. *)
Definition py_round (x : float) : result Z :=
  match x with
  | S754_zero _ => Ok 0
  | S754_nan => Raise ValueError
  | S754_infinity _ => Raise OverflowError
  | S754_finite s m e => Ok (cond_Zopp s (round_half_even m e))
  end.

(** ** Datetimes *)

Definition day_us : Z := 86400000000.
(** One past [datetime.max]: 3652059 days from 0001-01-01 to 9999-12-31. *)
Definition datetime_end : Z := 3652059 * day_us.

(** [t + timedelta(days=d)] *)
Definition datetime_add_days (t : datetime) (d : Z) : result datetime :=
  if (d <? -999999999) || (999999999 <? d) then Raise OverflowError
  else
    let t' := t + d * day_us in
    if (0 <=? t') && (t' <? datetime_end) then Ok t' else Raise OverflowError.

(** ** [spaced_repetition.py] *)

Inductive Rating : Type := AGAIN | HARD | GOOD | EASY.

(** [int(rating)] *)
Definition Rating_value (r : Rating) : Z :=
  match r with
  | AGAIN => 0
  | HARD => 2
  | GOOD => 3
  | EASY => 5
  end.

Record CardState : Type := mkCardState {
  card_id : string;
  ease_factor : float;
  interval : Z;
  repetitions : Z;
  next_review : datetime;
  last_reviewed : option datetime
}.

(** [CardState(card_id=cid)]: the default factory of [next_review] reads
    the clock. *)
Definition CardState_new (cid : string) : M CardState :=
  t ← now;
  mret (mkCardState cid c2_5 0 0 t None).

(** [CardState.is_due] *)
Definition is_due (self : CardState) : M bool :=
  t ← now;
  mret (next_review self <=? t).

Definition sm2_algorithm (state : CardState) (rating : Rating) : M CardState :=
  let rating_value := Rating_value rating in
  a ← lift (int_mul_float (5 - rating_value) c0_02);
  b ← lift (int_mul_float (5 - rating_value) (add c0_08 a));
  let new_ease := add (ease_factor state) (sub c0_1 b) in
  let new_ease := py_max c1_3 new_ease in
  '(new_interval, new_repetitions) ← lift (
    if Rating_value GOOD <=? rating_value then
      new_interval ←
        (if repetitions state =? 0 then Ok 1
         else if repetitions state =? 1 then Ok 6
         else p ← int_mul_float (interval state) (ease_factor state);
              py_round p);
      Ok (new_interval, repetitions state + 1)
    else Ok (1, 0));
  t ← now;
  new_next_review ← lift (datetime_add_days t new_interval);
  t' ← now;
  mret (mkCardState (card_id state) new_ease new_interval new_repetitions
          new_next_review (Some t')).

(** ** Dictionaries *)

(** A [dict] with [str] keys: the items, in insertion order. *)
Abbreviation dict V := (list (string * V)) (only parsing).

Section Dict.
Context {V : Type}.

(** [d.get(k)] *)
Fixpoint dict_get (k : string) (d : dict V) : option V :=
  match d with
  | [] => None
  | (k', v) :: d' => if String.eqb k k' then Some v else dict_get k d'
  end.

(** [d[k] = v]: an existing key keeps its place, a new one goes last. *)
Fixpoint dict_set (k : string) (v : V) (d : dict V) : dict V :=
  match d with
  | [] => [(k, v)]
  | (k', v') :: d' =>
      if String.eqb k k' then (k', v) :: d' else (k', v') :: dict_set k v d'
  end.

(** [del d[k]] *)
Fixpoint dict_del (k : string) (d : dict V) : result (dict V) :=
  match d with
  | [] => Raise KeyError
  | (k', v) :: d' =>
      if String.eqb k k' then Ok d'
      else d'' ← dict_del k d'; Ok ((k', v) :: d'')
  end.

(** [d[k]] *)
Definition dict_getitem (k : string) (d : dict V) : result V :=
  match dict_get k d with
  | Some v => Ok v
  | None => Raise KeyError
  end.

Definition dict_keys (d : dict V) : list string := d.*1.

Definition dict_wf (d : dict V) : Prop := NoDup (dict_keys d).
End Dict.

(** ** Lists *)

Section PyList.
Context {A : Type}.

(** [l.sort(key=key)] is stable: an element goes before the first one
    whose key is not smaller. *)
Fixpoint insert_by_key (key : A -> Z) (x : A) (l : list A) : list A :=
  match l with
  | [] => [x]
  | y :: l' =>
      if key x <=? key y then x :: y :: l' else y :: insert_by_key key x l'
  end.

Definition list_sort (key : A -> Z) (l : list A) : list A :=
  foldr (insert_by_key key) [] l.

(** [l[:stop]] *)
Definition slice_to (l : list A) (stop : Z) : list A :=
  if 0 <=? stop then take (Z.to_nat stop) l
  else take (Z.to_nat (Z.of_nat (length l) + stop)) l.
End PyList.

(** ** The scheduler *)

Record Scheduler : Type := mkScheduler {
  card_states : dict CardState
}.

Fixpoint due_items (items : list (string * CardState))
  : M (list (string * CardState)) :=
  match items with
  | [] => mret []
  | (cid, state) :: rest =>
      b ← is_due state;
      tl ← due_items rest;
      mret (if b : bool then (cid, state) :: tl else tl)
  end.

Definition get_due_cards (self : Scheduler) : M (list string) :=
  due ← due_items (card_states self);
  let due := list_sort (fun x => next_review x.2) due in
  mret (due.*1).

Definition get_new_cards (self : Scheduler) (all_card_ids : list string)
    (limit : Z) : list string :=
  let studied : gset string := list_to_set (dict_keys (card_states self)) in
  let new_cards := filter (fun cid => cid ∉ studied) all_card_ids in
  slice_to new_cards limit.

Definition review_card (self : Scheduler) (cid : string) (rating : Rating)
  : M (CardState * Scheduler) :=
  fresh ← CardState_new cid;
  let current_state := default fresh (dict_get cid (card_states self)) in
  new_state ← sm2_algorithm current_state rating;
  mret (new_state, mkScheduler (dict_set cid new_state (card_states self))).

Definition get_state (self : Scheduler) (cid : string) : option CardState :=
  dict_get cid (card_states self).

(** The states a card goes through under a sequence of ratings, up to the
    first review that raises. *)
Fixpoint sm2_trace (state : CardState) (ratings : list Rating) (w : Clock)
  : list CardState :=
  match ratings with
  | [] => []
  | r :: rest =>
      match sm2_algorithm state r w with
      | Ok (state', w') => state' :: sm2_trace state' rest w'
      | Raise _ => []
      end
  end.

(** [n] reviews of one card in a row, with the same rating. *)
Fixpoint review_n (n : nat) (self : Scheduler) (cid : string) (rating : Rating)
  : M Scheduler :=
  match n with
  | O => mret self
  | S n' =>
      '(_, self') ← review_card self cid rating;
      review_n n' self' cid rating
  end.

(** ** The catalog, [data.py] *)

Inductive Tier : Type := TIER_1 | TIER_2 | TIER_3 | CDN | CLOUD | IXP.

(** The display fields [headquarters], [specialization] and [facts] play no
    part in scheduling and are left out. *)
Record Network : Type := mkNetwork {
  asn : Z;
  name : string;
  tier : Tier
}.

Definition NETWORKS : list Network := [
    mkNetwork 3356 "Lumen Technologies" TIER_1;
    mkNetwork 174 "Cogent Communications" TIER_1;
    mkNetwork 2914 "NTT Communications" TIER_1;
    mkNetwork 1299 "Arelion (formerly Telia Carrier)" TIER_1;
    mkNetwork 3257 "GTT Communications" TIER_1;
    mkNetwork 6762 "Telecom Italia Sparkle" TIER_1;
    mkNetwork 6453 "TATA Communications" TIER_1;
    mkNetwork 701 "Verizon Business" TIER_1;
    mkNetwork 7018 "AT&T" TIER_1;
    mkNetwork 3491 "PCCW Global" TIER_1;
    mkNetwork 5511 "Orange S.A." TIER_1;
    mkNetwork 6830 "Liberty Global" TIER_1;
    mkNetwork 1239 "Sprint (T-Mobile)" TIER_1;
    mkNetwork 12956 "Telefonica" TIER_1;
    mkNetwork 6939 "Hurricane Electric" TIER_2;
    mkNetwork 7922 "Comcast" TIER_2;
    mkNetwork 4134 "China Telecom" TIER_2;
    mkNetwork 4837 "China Unicom" TIER_2;
    mkNetwork 9002 "RETN" TIER_2;
    mkNetwork 3320 "Deutsche Telekom" TIER_2;
    mkNetwork 2516 "KDDI Corporation" TIER_2;
    mkNetwork 4766 "Korea Telecom" TIER_2;
    mkNetwork 9498 "Bharti Airtel" TIER_2;
    mkNetwork 4323 "TW Telecom (Lumen)" TIER_2;
    mkNetwork 7843 "Charter Communications" TIER_3;
    mkNetwork 22773 "Cox Communications" TIER_3;
    mkNetwork 5650 "Frontier Communications" TIER_3;
    mkNetwork 20115 "Charter Communications" TIER_3;
    mkNetwork 11351 "Road Runner (Spectrum)" TIER_3;
    mkNetwork 11426 "Verizon FiOS" TIER_3;
    mkNetwork 13335 "Cloudflare" CDN;
    mkNetwork 20940 "Akamai Technologies" CDN;
    mkNetwork 54113 "Fastly" CDN;
    mkNetwork 15133 "Edgecast (Edgio)" CDN;
    mkNetwork 22822 "Limelight Networks (Edgio)" CDN;
    mkNetwork 2906 "Netflix" CDN;
    mkNetwork 46489 "Twitch" CDN;
    mkNetwork 16509 "Amazon Web Services" CLOUD;
    mkNetwork 14618 "Amazon.com" CLOUD;
    mkNetwork 15169 "Google" CLOUD;
    mkNetwork 8075 "Microsoft Azure" CLOUD;
    mkNetwork 36351 "IBM Cloud (SoftLayer)" CLOUD;
    mkNetwork 45102 "Alibaba Cloud" CLOUD;
    mkNetwork 13414 "Twitter (X)" CLOUD;
    mkNetwork 32934 "Meta (Facebook)" CLOUD;
    mkNetwork 714 "Apple" CLOUD;
    mkNetwork 396982 "Google Cloud" CLOUD;
    mkNetwork 19679 "Dropbox" CLOUD;
    mkNetwork 6695 "DE-CIX Frankfurt" IXP;
    mkNetwork 1200 "AMS-IX" IXP;
    mkNetwork 24115 "LINX" IXP;
    mkNetwork 8674 "Netnod" IXP;
    mkNetwork 2914 "Japan Network Access Point (JPNAP)" IXP;
    mkNetwork 24940 "Hetzner" CLOUD;
    mkNetwork 13238 "Yandex" CLOUD;
    mkNetwork 14061 "DigitalOcean" CLOUD;
    mkNetwork 63949 "Linode (Akamai)" CLOUD;
    mkNetwork 20473 "Vultr" CLOUD;
    mkNetwork 132203 "Tencent Cloud" CLOUD;
    mkNetwork 398324 "Starlink" TIER_3
  ].

(** [str(i)] for an int *)
Definition str (i : Z) : string := pretty i.

(** ** The study session, [app.py] *)

Definition load_study_session (networks : list Network) (scheduler : Scheduler)
  : M (list Network) :=
  due_ids ← get_due_cards scheduler;
  let due_networks := filter (fun n => str (asn n) ∈ due_ids) networks in
  let all_ids := (fun n => str (asn n)) <$> networks in
  let new_ids := get_new_cards scheduler all_ids 10 in
  let new_networks := filter (fun n => str (asn n) ∈ new_ids) networks in
  mret (due_networks ++ new_networks).

(** [StudyScreen._load_study_session], which reads the module's catalog. *)
Definition _load_study_session : Scheduler -> M (list Network) :=
  load_study_session NETWORKS.

(** ** Persistence, [progress.py] *)

(** What [json.load] returns and [json.dump] accepts. The text of the file
    is not modelled: a file that parses holds the value it parses to. *)
#[local] Unset Elimination Schemes.
Inductive json : Type :=
  | JNull
  | JBool (b : bool)
  | JInt (z : Z)
  | JFloat (x : float)
  | JStr (s : string)
  | JList (l : list json)
  | JDict (d : list (string * json)).
#[local] Set Elimination Schemes.

(** The progress file: missing; refused by [open] or by [json.load] with
    the [IOError] or the [JSONDecodeError] that [load] catches; or holding
    a value. A file whose bytes are no text, at which [json.load] raises
    another exception, is none of the three. *)
Inductive file : Type :=
  | Missing
  | Malformed
  | Holds (data : json).

(** Truth value of a JSON value, as [if data.get(...)] tests it. *)
Definition json_truthy (j : json) : bool :=
  match j with
  | JNull => false
  | JBool b => b
  | JInt z => negb (z =? 0)
  | JFloat (S754_zero _) => false
  | JFloat _ => true
  | JStr s => negb (String.eqb s "")
  | JList l => match l with [] => false | _ => true end
  | JDict d => match d with [] => false | _ => true end
  end.

Section Persistence.
(** [datetime.isoformat] and [datetime.fromisoformat], of the Python
    library; the latter raises [ValueError] on a string that is no date. *)
Variable isoformat : datetime -> string.
Variable fromisoformat : string -> result datetime.

(** [CardState.to_dict]; a datetime is always true. *)
Definition to_dict (self : CardState) : dict json :=
  [ ("card_id", JStr (card_id self));
    ("ease_factor", JFloat (ease_factor self));
    ("interval", JInt (interval self));
    ("repetitions", JInt (repetitions self));
    ("next_review", JStr (isoformat (next_review self)));
    ("last_reviewed",
      match last_reviewed self with
      | Some t => JStr (isoformat t)
      | None => JNull
      end) ]%string.

(** The record written for a state, its [card_id] removed. *)
Definition state_dict (s : CardState) : dict json :=
  [ ("ease_factor", JFloat (ease_factor s));
    ("interval", JInt (interval s));
    ("repetitions", JInt (repetitions s));
    ("next_review", JStr (isoformat (next_review s)));
    ("last_reviewed",
      match last_reviewed s with
      | Some t => JStr (isoformat t)
      | None => JNull
      end) ]%string.

(** [datetime.fromisoformat(j)]: only a [str] is accepted. *)
Definition json_fromisoformat (j : json) : result datetime :=
  match j with
  | JStr s => fromisoformat s
  | _ => Raise TypeError
  end.

(** The dataclass checks no type. A field of [CardState] only holds a
    value of its declared type here, and a JSON value of another type,
    which Python would store as it is, is reported as [TypeError]. *)
Definition as_str (j : json) : result string :=
  match j with JStr s => Ok s | _ => Raise TypeError end.
Definition as_float (j : json) : result float :=
  match j with JFloat x => Ok x | _ => Raise TypeError end.
Definition as_int (j : json) : result Z :=
  match j with JInt z => Ok z | _ => Raise TypeError end.

(** [CardState.from_dict] *)
Definition from_dict (data : dict json) : result CardState :=
  cid ← dict_getitem "card_id" data;
  ef ← dict_getitem "ease_factor" data;
  iv ← dict_getitem "interval" data;
  rp ← dict_getitem "repetitions" data;
  nr ← dict_getitem "next_review" data;
  nr ← json_fromisoformat nr;
  lr ← match dict_get "last_reviewed" data with
       | Some j =>
           if json_truthy j then t ← json_fromisoformat j; Ok (Some t)
           else Ok None
       | None => Ok None
       end;
  cid ← as_str cid;
  ef ← as_float ef;
  iv ← as_int iv;
  rp ← as_int rp;
  Ok (mkCardState cid ef iv rp nr lr).

(** The body of the loop of [ProgressManager.load], inside its [try]. *)
Definition load_entry (cid : string) (state_data : json) : result CardState :=
  match state_data with
  | JDict d => from_dict (dict_set "card_id" (JStr cid) d)
  | _ => Raise TypeError
  end.

(** The loop of [ProgressManager.load]: an entry that raises [KeyError] or
    [ValueError] is skipped, any other exception leaves the loop. *)
Fixpoint load_cards (items : list (string * json)) (card_states : dict CardState)
  : result (dict CardState) :=
  match items with
  | [] => Ok card_states
  | (cid, state_data) :: rest =>
      match load_entry cid state_data with
      | Ok state => load_cards rest (dict_set cid state card_states)
      | Raise KeyError | Raise ValueError => load_cards rest card_states
      | Raise e => Raise e
      end
  end.

(** [ProgressManager.load] *)
Definition load (f : file) : result (dict CardState) :=
  match f with
  | Missing => Ok []
  | Malformed => Ok []
  | Holds data =>
      match data with
      | JDict d =>
          match default (JDict []) (dict_get "cards" d) with
          | JDict items => load_cards items []
          | _ => Raise AttributeError
          end
      | _ => Raise AttributeError
      end
  end.

(** The loop of [ProgressManager.save], filling [data["cards"]]. *)
Fixpoint save_cards (items : list (string * CardState)) (cards : dict json)
  : result (dict json) :=
  match items with
  | [] => Ok cards
  | (cid, state) :: rest =>
      state_dict ← dict_del "card_id" (to_dict state);
      save_cards rest (dict_set cid (JDict state_dict) cards)
  end.

(** [ProgressManager.save]: the file written by the final rename. *)
Definition save (card_states : dict CardState) : M file :=
  t ← now;
  cards ← lift (save_cards card_states []);
  mret (Holds (JDict [ ("version", JInt 1);
                       ("last_saved", JStr (isoformat t));
                       ("cards", JDict cards) ]%string)).
End Persistence.

(** The branch of [sm2_algorithm] on the rating, on its own: the new
    interval and the new streak. *)
Definition schedule (state : CardState) (rating : Rating) : result (Z * Z) :=
  if Rating_value GOOD <=? Rating_value rating then
    new_interval ←
      (if repetitions state =? 0 then Ok 1
       else if repetitions state =? 1 then Ok 6
       else p ← int_mul_float (interval state) (ease_factor state);
            py_round p);
    Ok (new_interval, repetitions state + 1)
  else Ok (1, 0).

(** ** The update rule of the design document

    [ease' = ease + (0.1 - (5 - r) * (0.08 + (5 - r) * 0.02))], clamped
    to a minimum of 1.3, in the arithmetic of Python floats. *)
Definition ease_update (ease : float) (r : Z) : float :=
  py_max c1_3
    (add ease (sub c0_1 (mul (of_Z (5 - r)) (add c0_08 (mul (of_Z (5 - r)) c0_02))))).

(** [x >= 1.3] on floats; it fails on NaN. *)
Definition ease_ok (state : CardState) : Prop :=
  leb c1_3 (ease_factor state) = true.

(** ** Predicates of the properties, and sample data *)

(** [at_least_one x] holds of the positive floats [m * 2^e >= 1] and of
    [+inf]. *)
Definition at_least_one (x : float) : Prop :=
  match x with
  | S754_finite false m e => 2 ^ (- e) <= Zpos m
  | S754_infinity false => True
  | _ => False
  end.

(** What every state stored by a review satisfies: an ease factor that is
    a binary64 value of at least 1.3, and an interval of at least a day. *)
Definition card_inv (s : CardState) : Prop :=
  is_binary64 (ease_factor s) /\ ease_ok s /\ 1 <= interval s.

(** Every entry of the store carries its key as [card_id]. *)
Definition keyed (d : dict CardState) : Prop :=
  forall k s, dict_get k d = Some s -> card_id s = k.

(** The ids of a list of catalog cards. *)
Definition card_ids (networks : list Network) : list string :=
  (fun n => str (asn n)) <$> networks.

(** [s] with the [card_id] that [ProgressManager.load] writes into the
    record read under the key [k]. *)
Definition with_card_id (k : string) (s : CardState) : CardState :=
  mkCardState k (ease_factor s) (interval s) (repetitions s)
    (next_review s) (last_reviewed s).

(** Timestamps as decimal numbers of microseconds: a pair of functions
    that meets what is assumed of [isoformat] and [fromisoformat] below. *)
Definition decimal_isoformat (t : datetime) : string :=
  NilZero.string_of_int (Z.to_int t).
Definition decimal_fromisoformat (s : string) : result datetime :=
  match NilZero.int_of_string s with
  | Some d => Ok (Z.of_int d)
  | None => Raise ValueError
  end.

(** The card of the scenarios of the design document: "174" reviewed twice
    with GOOD, its ease at 2.36. *)
Definition c2_36 : float := S754_finite false 5314247560297185 (-51).
Definition c2_46 : float := S754_finite false 5539427541665710 (-51).
Definition card_174 : CardState := mkCardState "174" c2_36 6 2 0 None.
Definition noon : Clock := fun _ => 1000.
(** A clock standing at 2024-01-01T00:00:00. *)
Definition new_year_2024 : Clock := fun _ => 738885 * day_us.
(** A store of three cards, "174" and "3356" due at [noon] and "714" not
    yet, and four ids of the catalog. *)
Definition three_cards : Scheduler :=
  mkScheduler
    [ ("3356"%string, mkCardState "3356" c2_5 1 1 5 None);
      ("174"%string, mkCardState "174" c2_5 1 1 3 None);
      ("714"%string, mkCardState "714" c2_5 6 2 3000 None) ].
Definition four_ids : list string := ["3356"; "174"; "2914"; "1299"]%string.
(** A store of two cards, "174" due before "3356". *)
Definition two_due_cards : Scheduler :=
  mkScheduler
    [ ("174"%string, mkCardState "174" c2_5 1 1 1 None);
      ("3356"%string, mkCardState "3356" c2_5 1 1 2 None) ].

(** ** Sequences of reviews *)

(** Reviews made one after the other, as the ratings of a study session
    make them. *)
Fixpoint review_all (reviews : list (string * Rating)) (self : Scheduler)
  : M Scheduler :=
  match reviews with
  | [] => mret self
  | (cid, rating) :: rest =>
      '(_, self') ← review_card self cid rating;
      review_all rest self'
  end.

(** ** Statistics *)

(** [x / y] on floats, for a divisor other than zero. *)
Definition div : float -> float -> float := SFdiv prec emax.

(** [x / n] for a float [x] and an int [n] of 1 or more, the only divisors
    that [get_statistics] has: the int is converted first. *)
Definition float_div_pos (x : float) (n : positive) : result float :=
  d ← int_to_float (Zpos n); Ok (div x d).

(** [round(x, 2)]: the decimal with two places nearest to [x], ties to
    even, and then the float nearest to that decimal. A NaN, an infinity
    and a zero are returned as they are. *)
Definition py_round_2 (x : float) : result float :=
  match x with
  | S754_finite s m e =>
      match round_half_even (m * 100) e with
      | Zpos n =>
          match div (S754_finite s n 0) (S754_finite false 100 0) with
          | S754_infinity _ => Raise OverflowError
          | y => Ok y
          end
      | _ => Ok (S754_zero s)
      end
  | _ => Ok x
  end.

(** The dict that [get_statistics] returns, its five keys as fields. *)
Record Statistics : Type := mkStatistics {
  total_studied : Z;
  due_today : Z;
  mastered : Z;
  learning : Z;
  average_ease : float
}.

(** [sum(1 for s in states if s.is_due())] *)
Fixpoint count_due (states : list CardState) : M Z :=
  match states with
  | [] => mret 0
  | s :: rest =>
      b ← is_due s;
      n ← count_due rest;
      mret (if b : bool then 1 + n else n)
  end.

(** [sum(1 for s in states if s.repetitions >= 3)] *)
Definition count_mastered (states : list CardState) : Z :=
  Z.of_nat (length (filter (fun s => 3 <= repetitions s) states)).

Section Stats.
(** The builtin [sum] on a sequence of floats, from the int 0. CPython adds
    them from left to right up to version 3.11 and keeps a compensation
    term from 3.12 on; the statistics are stated for either. *)
Variable float_sum : list float -> float.

Definition get_statistics (self : Scheduler) : M Statistics :=
  match card_states self with
  | [] => mret (mkStatistics 0 0 0 0 (S754_zero false))
  | _ :: rest =>
      let values := (card_states self).*2 in
      let len := Pos.of_succ_nat (length rest) in
      due_count ← count_due values;
      let mastered := count_mastered values in
      let learning := Zpos len - mastered in
      avg_ease ← lift (float_div_pos (float_sum (ease_factor <$> values)) len);
      rounded ← lift (py_round_2 avg_ease);
      mret (mkStatistics (Zpos len) due_count mastered learning rounded)
  end.
End Stats.

(** The sum of CPython 3.11 and before: [0 + x1] in int-and-float
    arithmetic, then float additions from left to right. *)
Definition float_sum_left (xs : list float) : float :=
  foldl add (S754_zero false) xs.

(** ** The catalog functions of [data.py] *)

#[global] Instance Tier_eq_dec : EqDecision Tier.
Proof. solve_decision. Defined.

#[global] Instance Network_eq_dec : EqDecision Network.
Proof. solve_decision. Defined.

Definition networks_by_tier (networks : list Network) (t : Tier)
  : list Network :=
  filter (fun n => tier n = t) networks.

Definition get_networks_by_tier : Tier -> list Network :=
  networks_by_tier NETWORKS.

Definition get_all_networks : list Network := NETWORKS.

Fixpoint network_by_asn (networks : list Network) (a : Z) : option Network :=
  match networks with
  | [] => None
  | network :: rest =>
      if asn network =? a then Some network else network_by_asn rest a
  end.

Definition get_network_by_asn : Z -> option Network :=
  network_by_asn NETWORKS.

(** ** The progress file *)

(** [ProgressManager.exists] *)
Definition exists_ (f : file) : bool :=
  match f with
  | Missing => false
  | _ => true
  end.

(** [ProgressManager.reset] *)
Definition reset (f : file) : file :=
  if exists_ f then Missing else f.

(** ** The application and its study screen, [app.py]

    What the methods do to the fields of the screen, to the scheduler and
    to the progress file; the widgets that they update hold no state of
    the session and are left out. *)

(** [ASNMemoApp]: its scheduler, and the file of its progress manager.
    Its attribute [card_states] is only read to build the scheduler, which
    holds the same dict. *)
Record ASNMemoApp : Type := mkASNMemoApp {
  scheduler : Scheduler;
  progress_file : file
}.

Record StudyScreen : Type := mkStudyScreen {
  current_card : option Network;
  cards_to_study : list Network;
  cards_completed : Z;
  total_cards : Z;
  revealed : bool
}.

(** [StudyScreen.__init__] *)
Definition StudyScreen_new : StudyScreen := mkStudyScreen None [] 0 0 false.

(** [StudyScreen._show_next_card]. At the end of the list it calls
    [_end_session], which changes the display and leaves the fields as
    they are; a session is followed up to that call, and what the display
    does when [_end_session] is called again is not described. *)
Definition _show_next_card (self : StudyScreen) : StudyScreen :=
  match cards_to_study self with
  | [] => self
  | card :: rest =>
      mkStudyScreen (Some card) rest (cards_completed self) (total_cards self)
        false
  end.

(** [StudyScreen.action_reveal] *)
Definition action_reveal (self : StudyScreen) : StudyScreen :=
  if revealed self || negb (bool_decide (is_Some (current_card self))) then self
  else mkStudyScreen (current_card self) (cards_to_study self)
         (cards_completed self) (total_cards self) true.

Section App.
Variable isoformat : datetime -> string.
Variable fromisoformat : string -> result datetime.

(** [ASNMemoApp.__init__], on the progress file that it finds. *)
Definition ASNMemoApp_new (f : file) : result ASNMemoApp :=
  card_states ← load fromisoformat f;
  Ok (mkASNMemoApp (mkScheduler card_states) f).

(** [ASNMemoApp.save_progress] *)
Definition save_progress (app : ASNMemoApp) : M ASNMemoApp :=
  f ← save isoformat (card_states (scheduler app));
  mret (mkASNMemoApp (scheduler app) f).

(** [ResetConfirmScreen.action_confirm] *)
Definition action_confirm (app : ASNMemoApp) : ASNMemoApp :=
  mkASNMemoApp (mkScheduler []) (reset (progress_file app)).

(** [StudyScreen.on_mount], over a catalog. *)
Definition mount_session (networks : list Network) (self : StudyScreen)
    (app : ASNMemoApp) : M StudyScreen :=
  cards ← load_study_session networks (scheduler app);
  mret (_show_next_card
          (mkStudyScreen (current_card self) cards (cards_completed self)
             (Z.of_nat (length cards)) (revealed self))).

Definition on_mount : StudyScreen -> ASNMemoApp -> M StudyScreen :=
  mount_session NETWORKS.

(** [StudyScreen._rate_card] *)
Definition _rate_card (rating : Rating) (self : StudyScreen) (app : ASNMemoApp)
  : M (StudyScreen * ASNMemoApp) :=
  match current_card self with
  | Some card =>
      if revealed self then
        '(_, scheduler') ← review_card (scheduler app) (str (asn card)) rating;
        app' ← save_progress (mkASNMemoApp scheduler' (progress_file app));
        mret (_show_next_card
                (mkStudyScreen (current_card self) (cards_to_study self)
                   (cards_completed self + 1) (total_cards self)
                   (revealed self)),
              app')
      else mret (self, app)
  | None => mret (self, app)
  end.

(** [action_rate_again], [action_rate_hard], [action_rate_good] and
    [action_rate_easy], for their rating. *)
Definition action_rate (rating : Rating) (self : StudyScreen) (app : ASNMemoApp)
  : M (StudyScreen * ASNMemoApp) :=
  if revealed self then _rate_card rating self app else mret (self, app).

Definition action_rate_again := action_rate AGAIN.
Definition action_rate_hard := action_rate HARD.
Definition action_rate_good := action_rate GOOD.
Definition action_rate_easy := action_rate EASY.

(** A user who reveals each card and rates it, one rating after the
    other. *)
Fixpoint study (ratings : list Rating) (self : StudyScreen) (app : ASNMemoApp)
  : M (StudyScreen * ASNMemoApp) :=
  match ratings with
  | [] => mret (self, app)
  | rating :: rest =>
      '(self', app') ← action_rate rating (action_reveal self) app;
      study rest self' app'
  end.

(** The reviews and the saves of a session, without its screen. *)
Fixpoint rate_all (reviews : list (string * Rating)) (app : ASNMemoApp)
  : M ASNMemoApp :=
  match reviews with
  | [] => mret app
  | (cid, rating) :: rest =>
      '(_, scheduler') ← review_card (scheduler app) cid rating;
      app' ← save_progress (mkASNMemoApp scheduler' (progress_file app));
      rate_all rest app'
  end.
End App.

(** ** More predicates and sample data *)

(** What holds of the store of a running application: distinct keys, each
    entry carrying its key, and on every entry [card_inv] and a streak
    that is not negative. *)
Definition store_inv (d : dict CardState) : Prop :=
  dict_wf d /\ keyed d /\
  Forall (fun x => card_inv x.2 /\ 0 <= repetitions x.2) d.

(** The keys that [CardState.from_dict] reads with [data[...]]. *)
Definition required_keys : list string :=
  ["card_id"; "ease_factor"; "interval"; "repetitions"; "next_review"]%string.

(** A JSON object, which [json.load] gives as a [dict]. *)
Definition is_object (j : json) : bool :=
  match j with
  | JDict _ => true
  | _ => false
  end.

(** The fields of an entry of the progress file that [load] does not
    write itself. *)
Definition saved_keys : list string :=
  ["ease_factor"; "interval"; "repetitions"; "next_review"]%string.

(** The screen after [k] ratings, each given after a reveal, when it shows
    [c] and has [rest] to come, for [k] no more than these cards. *)
Fixpoint screen_after (c : Network) (rest : list Network) (completed total : Z)
    (shown : bool) (k : nat) {struct k} : StudyScreen :=
  match k with
  | O => mkStudyScreen (Some c) rest completed total shown
  | S k' =>
      match rest with
      | [] => mkStudyScreen (Some c) [] (completed + 1) total true
      | c' :: rest' => screen_after c' rest' (completed + 1) total false k'
      end
  end.

(** A catalog of two cards, an application that has no progress yet, and a
    progress file with one card. *)
Definition two_networks : list Network :=
  [ mkNetwork 3356 "Lumen Technologies" TIER_1;
    mkNetwork 174 "Cogent Communications" TIER_1 ].
Definition fresh_app : ASNMemoApp := mkASNMemoApp (mkScheduler []) Missing.

(** The cards of a session on the catalog of [data.py] when nothing has
    been studied: its first ten entries and the second entry with the
    number 2914. *)
Definition first_session : list Network :=
  [ mkNetwork 3356 "Lumen Technologies" TIER_1;
    mkNetwork 174 "Cogent Communications" TIER_1;
    mkNetwork 2914 "NTT Communications" TIER_1;
    mkNetwork 1299 "Arelion (formerly Telia Carrier)" TIER_1;
    mkNetwork 3257 "GTT Communications" TIER_1;
    mkNetwork 6762 "Telecom Italia Sparkle" TIER_1;
    mkNetwork 6453 "TATA Communications" TIER_1;
    mkNetwork 701 "Verizon Business" TIER_1;
    mkNetwork 7018 "AT&T" TIER_1;
    mkNetwork 3491 "PCCW Global" TIER_1;
    mkNetwork 2914 "Japan Network Access Point (JPNAP)" IXP ].
Definition one_card_file : file :=
  Holds (JDict
    [ ("version", JInt 1);
      ("cards",
        JDict [("174",
                JDict [ ("ease_factor", JFloat c2_5); ("interval", JInt 1);
                        ("repetitions", JInt 1); ("next_review", JStr "5");
                        ("last_reviewed", JNull) ])]) ]%string).

(** A store of three cards, "3356" and "714" due at the same instant and
    "174" before them. *)
Definition tied_cards : Scheduler :=
  mkScheduler
    [ ("3356"%string, mkCardState "3356" c2_5 1 1 5 None);
      ("174"%string, mkCardState "174" c2_5 1 1 3 None);
      ("714"%string, mkCardState "714" c2_5 6 2 5 None) ].

(** * Properties *)

(** ** Running the error monad *)

Lemma result_bind_Ok {A B} (m : result A) (f : A -> result B) b :
  m ≫= f = Ok b <-> exists a, m = Ok a /\ f a = Ok b.
Proof.
  unfold mbind, result_bind. destruct m as [a|e]; split.
  - intros H. exists a. auto.
  - intros (a' & Ha & Hf). congruence.
  - discriminate.
  - intros (a' & Ha & _). discriminate.
Qed.

(** ** Float facts that need no arithmetic *)

Lemma int_to_float_rating (r : Rating) :
  int_to_float (5 - Rating_value r) = Ok (of_Z (5 - Rating_value r)).
Proof. destruct r; reflexivity. Qed.

Lemma int_mul_float_rating (r : Rating) (x : float) :
  int_mul_float (5 - Rating_value r) x = Ok (mul (of_Z (5 - Rating_value r)) x).
Proof. unfold int_mul_float. rewrite int_to_float_rating. reflexivity. Qed.

Lemma py_max_floor (x : float) : leb c1_3 (py_max c1_3 x) = true.
Proof.
  unfold py_max, ltb, leb, SFltb, SFleb.
  destruct (SFcompare c1_3 x) as [[]|] eqn:E; try reflexivity.
  rewrite E. reflexivity.
Qed.

(** ** What a review returns *)

Lemma sm2_algorithm_Ok (s : CardState) (r : Rating) w s' w' :
  sm2_algorithm s r w = Ok (s', w') <->
  exists ni nr t,
    schedule s r = Ok (ni, nr) /\
    datetime_add_days (w 0%nat) ni = Ok t /\
    s' = mkCardState (card_id s)
           (ease_update (ease_factor s) (Rating_value r)) ni nr t (Some (w 1%nat)) /\
    w' = (fun n => w (S (S n))).
Proof.
  unfold sm2_algorithm. fold (schedule s r).
  unfold mbind, M_bind, lift, now, mret, M_ret.
  rewrite int_mul_float_rating. cbv beta iota.
  rewrite int_mul_float_rating. cbv beta iota.
  fold (ease_update (ease_factor s) (Rating_value r)). split.
  - destruct (schedule s r) as [[ni nr]|e]; [|discriminate].
    destruct (datetime_add_days (w 0%nat) ni) as [t|e] eqn:Et; [|discriminate].
    intros [= <- <-]. exists ni, nr, t. auto.
  - intros (ni & nr & t & -> & -> & -> & ->). reflexivity.
Qed.

(** C1. A qualifying rating (3 or more) gives the interval 1 on a streak
    of 0, 6 on a streak of 1 and, beyond, [round(interval * ease_factor)]
    with the ease factor the state had before this review, and it extends
    the streak by one; a failing rating gives the streak 0 and the
    interval 1 whatever the state was. *)
Theorem sm2_interval_repetitions (s : CardState) (r : Rating) w s' w' :
  sm2_algorithm s r w = Ok (s', w') ->
  (3 <= Rating_value r ->
     repetitions s' = repetitions s + 1 /\
     (repetitions s = 0 -> interval s' = 1) /\
     (repetitions s = 1 -> interval s' = 6) /\
     (1 < repetitions s ->
        int_mul_float (interval s) (ease_factor s) ≫= py_round
        = Ok (interval s'))) /\
  (Rating_value r < 3 -> repetitions s' = 0 /\ interval s' = 1).
Proof.
  intros H. apply sm2_algorithm_Ok in H.
  destruct H as (ni & nr & t & Hs & _ & -> & _). simpl.
  unfold schedule in Hs. change (Rating_value GOOD) with 3 in Hs.
  split; intros Hr.
  - apply Z.leb_le in Hr. rewrite Hr in Hs.
    apply result_bind_Ok in Hs. destruct Hs as (i & Hi & [= <- <-]).
    split; [reflexivity|]. repeat split.
    + intros E. rewrite E in Hi. simpl in Hi. congruence.
    + intros E. rewrite E in Hi. simpl in Hi. congruence.
    + intros E.
      destruct (repetitions s =? 0) eqn:E0; [apply Z.eqb_eq in E0; lia|].
      destruct (repetitions s =? 1) eqn:E1; [apply Z.eqb_eq in E1; lia|].
      exact Hi.
  - apply Z.leb_gt in Hr. rewrite Hr in Hs. injection Hs as <- <-. auto.
Qed.

Lemma sm2_interval_repetitions_witness :
  sm2_algorithm card_174 EASY noon
    = Ok (mkCardState "174" c2_46 14 3 1209600001000 (Some 1000), noon) /\
  ((3 <= 5 ->
      3 = 2 + 1 /\ (2 = 0 -> 14 = 1) /\ (2 = 1 -> 14 = 6) /\
      (1 < 2 -> int_mul_float 6 c2_36 ≫= py_round = Ok 14)) /\
   (5 < 3 -> 3 = 0 /\ 14 = 1)).
Proof.
  split; [vm_compute; reflexivity|].
  apply (sm2_interval_repetitions card_174 EASY noon
           (mkCardState "174" c2_46 14 3 1209600001000 (Some 1000)) noon).
  vm_compute. reflexivity.
Defined.

(** C2. Whatever the rating, failing ones included, the ease factor
    returned is [max(1.3, ease + (0.1 - (5 - v) * (0.08 + (5 - v) * 0.02)))]
    for the integer value [v] of the rating. *)
Theorem sm2_ease_factor (s : CardState) (r : Rating) w s' w' :
  sm2_algorithm s r w = Ok (s', w') ->
  ease_factor s' = ease_update (ease_factor s) (Rating_value r).
Proof.
  intros H. apply sm2_algorithm_Ok in H.
  destruct H as (ni & nr & t & _ & _ & -> & _). reflexivity.
Qed.

(** The change of ease for AGAIN, HARD, GOOD and EASY; to 17 digits,
    -0.79999999999999993, -0.32000000000000006, -0.13999999999999999 and
    0.10000000000000001. *)
Example ease_changes :
  (fun r => sub c0_1 (mul (of_Z (5 - Rating_value r))
                        (add c0_08 (mul (of_Z (5 - Rating_value r)) c0_02))))
    <$> [AGAIN; HARD; GOOD; EASY]
  = [ S754_finite true 7205759403792793 (-53);
      S754_finite true 5764607523034236 (-54);
      S754_finite true 5044031582654955 (-55);
      c0_1 ].
Proof. vm_compute. reflexivity. Qed.

Lemma sm2_ease_factor_witness :
  sm2_algorithm card_174 AGAIN noon
    = Ok (mkCardState "174" (S754_finite false 7025615418697974 (-52)) 1 0
            86400001000 (Some 1000), noon) /\
  S754_finite false 7025615418697974 (-52) = ease_update c2_36 0.
Proof.
  split; [vm_compute; reflexivity|].
  apply (sm2_ease_factor card_174 AGAIN noon
           (mkCardState "174" (S754_finite false 7025615418697974 (-52)) 1 0
              86400001000 (Some 1000)) noon).
  vm_compute. reflexivity.
Defined.

(** The ease factor of every state that a review returns is at least 1.3,
    whatever the state reviewed. *)
Lemma sm2_algorithm_ease_ok (s : CardState) (r : Rating) w s' w' :
  sm2_algorithm s r w = Ok (s', w') -> ease_ok s'.
Proof.
  intros H. apply sm2_algorithm_Ok in H.
  destruct H as (ni & nr & t & _ & _ & -> & _). apply py_max_floor.
Qed.

Lemma sm2_trace_ease_ok (rs : list Rating) :
  forall s w, Forall ease_ok (sm2_trace s rs w).
Proof.
  induction rs as [|r rs IH]; intros s w; simpl; [constructor|].
  destruct (sm2_algorithm s r w) as [[s' w']|e] eqn:E; [|constructor].
  constructor; [eapply sm2_algorithm_ease_ok; eassumption | apply IH].
Qed.

(** C3. From a state whose ease factor is at least 1.3, no sequence of
    ratings, repeated AGAIN included, leads through a state whose ease
    factor is below 1.3. *)
Theorem ease_factor_never_below_floor (s : CardState) (rs : list Rating) w :
  ease_ok s -> Forall ease_ok (s :: sm2_trace s rs w).
Proof. intros Hs. constructor; [exact Hs | apply sm2_trace_ease_ok]. Qed.

(** Rated AGAIN three times, a new card goes from 2.5 to 1.7 and then
    stays at the floor. *)
Example ease_under_repeated_again :
  ease_factor <$> sm2_trace (mkCardState "174" c2_5 0 0 1000 None)
                    [AGAIN; AGAIN; AGAIN] noon
  = [S754_finite false 7656119366529844 (-52); c1_3; c1_3].
Proof. vm_compute. reflexivity. Qed.

Lemma ease_factor_never_below_floor_witness :
  ease_ok (mkCardState "174" c2_5 0 0 1000 None) /\
  Forall ease_ok
    (mkCardState "174" c2_5 0 0 1000 None
       :: sm2_trace (mkCardState "174" c2_5 0 0 1000 None)
            [AGAIN; AGAIN; AGAIN; AGAIN] noon).
Proof.
  split; [reflexivity|].
  apply (ease_factor_never_below_floor _ [AGAIN; AGAIN; AGAIN; AGAIN] noon).
  reflexivity.
Defined.

(** ** Floats that are at least one *)

Lemma digits2_pos_bounds (p : positive) :
  2 ^ (Zpos (digits2_pos p) - 1) <= Zpos p < 2 ^ Zpos (digits2_pos p).
Proof.
  induction p as [p IH|p IH|]; simpl digits2_pos.
  - rewrite Pos2Z.inj_succ, Z.pow_succ_r by lia.
    replace (Z.succ (Zpos (digits2_pos p)) - 1) with (Z.succ (Zpos (digits2_pos p) - 1)) by lia.
    rewrite Z.pow_succ_r by lia. lia.
  - rewrite Pos2Z.inj_succ, Z.pow_succ_r by lia.
    replace (Z.succ (Zpos (digits2_pos p)) - 1) with (Z.succ (Zpos (digits2_pos p) - 1)) by lia.
    rewrite Z.pow_succ_r by lia. lia.
  - simpl. lia.
Qed.

Lemma shr_1_m (mrs : shr_record) :
  0 <= shr_m mrs -> shr_m (shr_1 mrs) = shr_m mrs / 2.
Proof.
  destruct mrs as [m r s]. simpl. intros Hm.
  destruct m as [|[p|p|]|p]; simpl; try lia; try reflexivity.
  - apply Z.div_unique with 1; lia.
  - apply Z.div_unique with 0; lia.
Qed.

Lemma iter_shr_1_m (p : positive) :
  forall mrs, 0 <= shr_m mrs ->
  shr_m (SpecFloat.iter_pos shr_1 p mrs) = shr_m mrs / 2 ^ Zpos p.
Proof.
  induction p as [p IH|p IH|]; intros mrs Hm; simpl SpecFloat.iter_pos.
  - assert (H1 : 0 <= shr_m (shr_1 mrs)) by (rewrite shr_1_m by lia; apply Z.div_pos; lia).
    assert (H2 : 0 <= shr_m (SpecFloat.iter_pos shr_1 p (shr_1 mrs))).
    { rewrite IH by lia. apply Z.div_pos; [lia|]. apply Z.pow_pos_nonneg; lia. }
    rewrite IH, IH, shr_1_m by lia.
    rewrite !Z.div_div by (try apply Z.pow_pos_nonneg; lia).
    f_equal. replace (Z.pos p~1) with (1 + Z.pos p + Z.pos p) by lia.
    rewrite !Z.pow_add_r by lia. ring.
  - assert (H2 : 0 <= shr_m (SpecFloat.iter_pos shr_1 p mrs)).
    { rewrite IH by lia. apply Z.div_pos; [lia|]. apply Z.pow_pos_nonneg; lia. }
    rewrite IH, IH by lia.
    rewrite !Z.div_div by (try apply Z.pow_pos_nonneg; lia).
    f_equal. replace (Z.pos p~0) with (Z.pos p + Z.pos p) by lia.
    rewrite Z.pow_add_r by lia. ring.
  - rewrite shr_1_m by lia. reflexivity.
Qed.

Lemma round_nearest_even_ge (m : Z) (l : location) :
  m <= round_nearest_even m l.
Proof.
  destruct l as [|[]]; simpl; try lia. destruct (Z.even m); lia.
Qed.

(** Rounding a value that is at least one to 53 bits. *)
Lemma shr_fexp_at_least_one (m e : Z) (l : location) :
  0 < m -> 2 ^ (- e) <= m ->
  0 < shr_m (shr_fexp prec emax m e l).1 /\
  2 ^ (- (shr_fexp prec emax m e l).2) <= shr_m (shr_fexp prec emax m e l).1.
Proof.
  intros Hm He. unfold shr_fexp, shr.
  assert (Hrec : shr_m (shr_record_of_loc m l) = m) by (destruct l as [|[]]; reflexivity).
  destruct (fexp prec emax (Zdigits2 m + e) - e) as [|n|n] eqn:En; simpl;
    rewrite ?Hrec; try (split; assumption).
  rewrite iter_shr_1_m by lia. rewrite Hrec.
  destruct m as [|p|p]; try lia. simpl Zdigits2 in En.
  pose proof (digits2_pos_bounds p) as [Hlo Hhi].
  set (d := Z.pos (digits2_pos p)) in *.
  assert (Hd : 1 <= d + e).
  { destruct (Z.le_gt_cases e 0) as [Hle|Hgt]; [|lia].
    assert (- e < d); [|lia].
    apply (Z.pow_lt_mono_r_iff 2); lia. }
  unfold fexp, emin, prec, emax in En.
  assert (Hn : Z.pos n = d - 53) by lia.
  assert (H52 : 2 ^ 52 <= Z.pos p / 2 ^ Z.pos n).
  { apply Z.div_le_lower_bound; [apply Z.pow_pos_nonneg; lia|].
    rewrite <- Z.pow_add_r by lia. rewrite Hn.
    replace (d - 53 + 52) with (d - 1) by lia. exact Hlo. }
  split; [lia|].
  transitivity (2 ^ 52); [|exact H52].
  apply Z.pow_le_mono_r; lia.
Qed.

Lemma binary_round_aux_at_least_one (m e : Z) :
  0 < m -> 2 ^ (- e) <= m ->
  at_least_one (binary_round_aux prec emax false m e loc_Exact).
Proof.
  intros Hm He. unfold binary_round_aux.
  pose proof (shr_fexp_at_least_one m e loc_Exact Hm He) as [H1 H2].
  destruct (shr_fexp prec emax m e loc_Exact) as [mrs' e'] eqn:E1.
  simpl in H1, H2.
  pose proof (round_nearest_even_ge (shr_m mrs') (loc_of_shr_record mrs')) as Hr.
  set (m1 := round_nearest_even (shr_m mrs') (loc_of_shr_record mrs')) in *.
  assert (Hm1 : 0 < m1) by lia.
  assert (He1 : 2 ^ (- e') <= m1) by lia.
  pose proof (shr_fexp_at_least_one m1 e' loc_Exact Hm1 He1) as [H3 H4].
  destruct (shr_fexp prec emax m1 e' loc_Exact) as [mrs'' e''] eqn:E2.
  simpl in H3, H4.
  destruct (shr_m mrs'') as [|q|q]; try lia.
  destruct (e'' <=? emax - prec); simpl; [exact H4 | exact I].
Qed.

Lemma shl_align_at_least_one (p : positive) (e' : Z) :
  2 ^ (- (shl_align p 0 e').2) <= Z.pos (shl_align p 0 e').1.
Proof.
  unfold shl_align. destruct (e' - 0) as [|d|d] eqn:E; simpl; try lia.
  fold (shift_pos d p). rewrite shift_pos_correct.
  assert (e' = Z.neg d) as -> by lia. change (- Z.neg d) with (Z.pos d).
  change (Z.pow_pos 2 d) with (2 ^ Z.pos d).
  assert (0 < 2 ^ Z.pos d) by (apply Z.pow_pos_nonneg; lia). nia.
Qed.

Lemma of_Z_at_least_one (i : Z) : 1 <= i -> at_least_one (of_Z i).
Proof.
  intros Hi. destruct i as [|p|p]; try lia.
  unfold of_Z, binary_normalize, binary_round.
  pose proof (shl_align_at_least_one p (fexp prec emax (Z.pos (digits2_pos p) + 0))) as H.
  destruct (shl_align p 0 (fexp prec emax (Z.pos (digits2_pos p) + 0))) as [mz ez].
  apply binary_round_aux_at_least_one; [lia | exact H].
Qed.

Lemma pow2_neg_add_le (e1 e2 m1 m2 : Z) :
  0 < m1 -> 0 < m2 -> 2 ^ (- e1) <= m1 -> 2 ^ (- e2) <= m2 ->
  2 ^ (- (e1 + e2)) <= m1 * m2.
Proof.
  intros Hm1 Hm2 H1 H2.
  destruct (Z.le_gt_cases e1 0) as [L1|G1], (Z.le_gt_cases e2 0) as [L2|G2].
  - replace (- (e1 + e2)) with (- e1 + - e2) by lia.
    rewrite Z.pow_add_r by lia.
    apply Z.mul_le_mono_nonneg; try assumption; apply Z.pow_nonneg; lia.
  - transitivity (2 ^ (- e1)); [apply Z.pow_le_mono_r; lia | nia].
  - transitivity (2 ^ (- e2)); [apply Z.pow_le_mono_r; lia | nia].
  - rewrite Z.pow_neg_r by lia. nia.
Qed.

Lemma mul_at_least_one (x y : float) :
  at_least_one x -> at_least_one y -> at_least_one (mul x y).
Proof.
  destruct x as [sx|[]| |[] mx ex], y as [sy|[]| |[] my ey]; simpl;
    try contradiction; try (intros; exact I).
  intros Hx Hy. apply binary_round_aux_at_least_one; [lia|].
  rewrite Pos2Z.inj_mul. apply pow2_neg_add_le; lia.
Qed.

Lemma leb_c1_3_at_least_one (x : float) :
  is_binary64 x -> leb c1_3 x = true -> at_least_one x.
Proof.
  unfold is_binary64, leb, c1_3.
  destruct x as [sx|[]| |[] mx ex];
    cbv beta iota delta [SFleb SFcompare valid_binary at_least_one];
    try discriminate; try (intros; exact I).
  unfold bounded, canonical_mantissa, fexp, emin, prec, emax.
  intros Hv Hc. apply andb_prop in Hv. destruct Hv as [Hv _].
  apply Z.eqb_eq in Hv.
  pose proof (digits2_pos_bounds mx) as [Hlo _].
  destruct (Z.compare_spec (-52) ex) as [<-|Hlt|Hgt]; try discriminate.
  - change (- -52) with 52.
    change (Pos.compare_cont Eq 5854679515581645 mx)
      with (5854679515581645 ?= mx)%positive in Hc.
    destruct (Pos.compare_spec 5854679515581645 mx) as [Hm|Hm|Hm];
      try discriminate; lia.
  - assert (Hd : Z.pos (digits2_pos mx) = 53) by lia. rewrite Hd in Hlo.
    transitivity (2 ^ 52); [apply Z.pow_le_mono_r; lia | exact Hlo].
Qed.

Lemma round_half_even_at_least_one (m : positive) (e : Z) :
  2 ^ (- e) <= Z.pos m -> 1 <= round_half_even m e.
Proof.
  intros H. unfold round_half_even. destruct e as [|p|p].
  - simpl. lia.
  - assert (0 < 2 ^ Z.pos p) by (apply Z.pow_pos_nonneg; lia). nia.
  - change (- Z.neg p) with (Z.pos p) in H.
    assert (Hd : 0 < 2 ^ Z.pos p) by (apply Z.pow_pos_nonneg; lia).
    assert (Hq : 1 <= Z.pos m / 2 ^ Z.pos p)
      by (apply Z.div_le_lower_bound; lia).
    destruct (2 * (Z.pos m mod 2 ^ Z.pos p) ?= 2 ^ Z.pos p); try lia.
    destruct (Z.even _); lia.
Qed.

Lemma py_round_at_least_one (x : float) (k : Z) :
  at_least_one x -> py_round x = Ok k -> 1 <= k.
Proof.
  destruct x as [sx|[]| |[] m e]; simpl; try contradiction; try discriminate.
  intros H [= <-]. apply round_half_even_at_least_one, H.
Qed.

Lemma round_product_at_least_one (i : Z) (x : float) (k : Z) :
  1 <= i -> is_binary64 x -> leb c1_3 x = true ->
  int_mul_float i x ≫= py_round = Ok k -> 1 <= k.
Proof.
  intros Hi Hx Hc H. apply result_bind_Ok in H. destruct H as (p & Hp & Hk).
  unfold int_mul_float in Hp. apply result_bind_Ok in Hp.
  destruct Hp as (f & Hf & [= <-]).
  apply py_round_at_least_one with (mul f x); [|exact Hk].
  apply mul_at_least_one; [|apply leb_c1_3_at_least_one; assumption].
  unfold int_to_float in Hf. pose proof (of_Z_at_least_one i Hi) as Hone.
  destruct (of_Z i) as [s|s| |s m e]; try discriminate; congruence.
Qed.

(** ** Rounding yields binary64 values *)

Lemma digits2_pos_unique (p : positive) (j : Z) :
  2 ^ (j - 1) <= Z.pos p < 2 ^ j -> Z.pos (digits2_pos p) = j.
Proof.
  intros [Hlo Hhi]. pose proof (digits2_pos_bounds p) as [Dlo Dhi].
  set (d := Z.pos (digits2_pos p)) in *.
  assert (0 < j).
  { destruct (Z.lt_ge_cases 0 j) as [|Hj]; [assumption|].
    assert (2 ^ j <= 2 ^ 0) by (apply Z.pow_le_mono_r; lia).
    change (2 ^ 0) with 1 in *. lia. }
  destruct (Z.lt_trichotomy d j) as [Hlt|[Heq|Hgt]]; [|exact Heq|].
  - assert (2 ^ d <= 2 ^ (j - 1)) by (apply Z.pow_le_mono_r; lia). lia.
  - assert (2 ^ j <= 2 ^ (d - 1)) by (apply Z.pow_le_mono_r; lia). lia.
Qed.

(** The last step of [binary_round_aux]: a mantissa that rounding may have
    brought from below [2^(k - e)] to [2^(k - e)] itself. *)
Lemma renormalize_valid (s : bool) (m e k : Z) :
  e = fexp prec emax k ->
  0 <= m ->
  (e < k /\ 2 ^ (k - e - 1) <= m <= 2 ^ (k - e)) \/ (k <= e /\ m <= 1) ->
  valid_binary prec emax
    (match shr_m (shr_fexp prec emax m e loc_Exact).1 with
     | Z0 => S754_zero s
     | Zpos q =>
         if (shr_fexp prec emax m e loc_Exact).2 <=? emax - prec
         then S754_finite s q (shr_fexp prec emax m e loc_Exact).2
         else S754_infinity s
     | Zneg _ => S754_nan
     end) = true.
Proof.
  intros He Hm Hk. unfold shr_fexp, shr.
  destruct m as [|p|p]; [|clear Hm|lia].
  { simpl Zdigits2. simpl shr_record_of_loc.
    destruct (fexp prec emax (0 + e) - e) as [|n|n]; simpl; try reflexivity.
    rewrite iter_shr_1_m by (simpl; lia). reflexivity. }
  simpl Zdigits2. simpl shr_record_of_loc.
  unfold fexp, emin, prec, emax in *.
  destruct Hk as [[Hek [Hlo Hhi]]|[Hke H1]].
  - assert (Hcase : Z.pos p < 2 ^ (k - e) \/ Z.pos p = 2 ^ (k - e)) by lia.
    destruct Hcase as [Hlt|Heq].
    + rewrite (digits2_pos_unique p (k - e)) by lia.
      replace (k - e + e) with k by lia. rewrite <- He, Z.sub_diag. simpl.
      destruct (e <=? 1024 - 53) eqn:Eb; [|reflexivity].
      simpl. unfold bounded, canonical_mantissa, fexp, emin.
      rewrite (digits2_pos_unique p (k - e)) by lia.
      replace (k - e + e) with k by lia. rewrite <- He, Eb, Z.eqb_refl. reflexivity.
    + assert (Hd : Z.pos (digits2_pos p) = k - e + 1).
      { apply digits2_pos_unique. replace (k - e + 1 - 1) with (k - e) by lia.
        rewrite Z.pow_add_r by lia. change (2 ^ 1) with 2.
        assert (0 < 2 ^ (k - e)) by (apply Z.pow_pos_nonneg; lia). lia. }
      rewrite Hd. replace (k - e + 1 + e) with (k + 1) by lia.
      destruct (Z.max (k + 1 - 53) (3 - 1024 - 53) - e) as [|n|n] eqn:En.
      * simpl. destruct (e <=? 1024 - 53) eqn:Eb; [|reflexivity].
        simpl. unfold bounded, canonical_mantissa, fexp, emin.
        rewrite Hd, Eb. replace (k - e + 1 + e) with (k + 1) by lia.
        replace (Z.max (k + 1 - 53) (3 - 1024 - 53)) with e by lia.
        rewrite Z.eqb_refl. reflexivity.
      * assert (Hn : n = 1%positive) by lia. subst n.
        cbn [fst snd].
        rewrite iter_shr_1_m by (simpl; lia). simpl shr_m.
        change (2 ^ 1) with 2. rewrite Heq.
        assert (Hhalf : 2 ^ (k - e) / 2 = 2 ^ (k - e - 1)).
        { replace (k - e) with (k - e - 1 + 1) at 1 by lia.
          rewrite Z.pow_add_r by lia. change (2 ^ 1) with 2.
          apply Z.div_mul. lia. }
        rewrite Hhalf.
        assert (Hpos : 0 < 2 ^ (k - e - 1)) by (apply Z.pow_pos_nonneg; lia).
        destruct (2 ^ (k - e - 1)) as [|q|q] eqn:Eq; try lia.
        destruct (e + 1 <=? 1024 - 53) eqn:Eb; [|reflexivity].
        simpl. unfold bounded, canonical_mantissa, fexp, emin.
        rewrite (digits2_pos_unique q (k - e)).
        2:{ rewrite <- Eq. split; [lia|]. apply Z.pow_lt_mono_r; lia. }
        rewrite Eb. replace (k - e + (e + 1)) with (k + 1) by lia.
        replace (Z.max (k + 1 - 53) (3 - 1024 - 53)) with (e + 1) by lia.
        rewrite Z.eqb_refl. reflexivity.
      * lia.
  - assert (p = 1%positive) by lia. subst p. simpl digits2_pos.
    assert (He' : e = -1074) by lia. clear He. subst e. reflexivity.
Qed.

Lemma binary_round_aux_valid (s : bool) (p : positive) (e : Z) :
  e <= fexp prec emax (Z.pos (digits2_pos p) + e) ->
  valid_binary prec emax (binary_round_aux prec emax s (Z.pos p) e loc_Exact) = true.
Proof.
  intros Hn. unfold binary_round_aux.
  pose proof (digits2_pos_bounds p) as [Dlo Dhi].
  set (k := Z.pos (digits2_pos p) + e) in *.
  destruct (shr_fexp prec emax (Z.pos p) e loc_Exact) as [mrs' e'] eqn:E1.
  unfold shr_fexp, shr in E1. simpl Zdigits2 in E1. fold k in E1.
  simpl shr_record_of_loc in E1.
  destruct (fexp prec emax k - e) as [|n|n] eqn:En; [| |lia].
  - injection E1 as <- <-. simpl loc_of_shr_record. simpl round_nearest_even.
    pose proof (renormalize_valid s (Z.pos p) e k) as H.
    destruct (shr_fexp prec emax (Z.pos p) e loc_Exact) as [mrs'' e''].
    apply H; [lia|lia|].
    destruct (Z.lt_ge_cases e k) as [Hek|Hke].
    + left. split; [exact Hek|]. unfold k.
      replace (Z.pos (digits2_pos p) + e - e - 1) with (Z.pos (digits2_pos p) - 1) by lia.
      replace (Z.pos (digits2_pos p) + e - e) with (Z.pos (digits2_pos p)) by lia. lia.
    + unfold k in Hke. lia.
  - injection E1 as <- <-.
    assert (Hm1 : shr_m (SpecFloat.iter_pos shr_1 n
                    {| shr_m := Z.pos p; shr_r := false; shr_s := false |})
                  = Z.pos p / 2 ^ Z.pos n)
      by (rewrite iter_shr_1_m by (simpl; lia); reflexivity).
    set (mrs' := SpecFloat.iter_pos shr_1 n _) in *.
    pose proof (round_nearest_even_ge (shr_m mrs') (loc_of_shr_record mrs')) as Hge.
    assert (Hle : round_nearest_even (shr_m mrs') (loc_of_shr_record mrs') <= shr_m mrs' + 1).
    { destruct (loc_of_shr_record mrs') as [|[]]; simpl; try lia.
      destruct (Z.even _); lia. }
    set (m1 := round_nearest_even (shr_m mrs') (loc_of_shr_record mrs')) in *.
    assert (H2n : 0 < 2 ^ Z.pos n) by (apply Z.pow_pos_nonneg; lia).
    assert (Hq0 : 0 <= Z.pos p / 2 ^ Z.pos n) by (apply Z.div_pos; lia).
    pose proof (renormalize_valid s m1 (e + Z.pos n) k) as H.
    destruct (shr_fexp prec emax m1 (e + Z.pos n) loc_Exact) as [mrs'' e''].
    apply H; [lia|lia|].
    destruct (Z.lt_ge_cases (e + Z.pos n) k) as [Hek|Hke].
    + left. split; [exact Hek|].
      assert (Hd : Z.pos (digits2_pos p) = (k - (e + Z.pos n)) + Z.pos n) by (unfold k; lia).
      rewrite Hd in Dlo, Dhi.
      replace (k - (e + Z.pos n) + Z.pos n - 1) with ((k - (e + Z.pos n) - 1) + Z.pos n) in Dlo by lia.
      rewrite Z.pow_add_r in Dlo, Dhi by lia.
      assert (2 ^ (k - (e + Z.pos n) - 1) <= Z.pos p / 2 ^ Z.pos n)
        by (apply Z.div_le_lower_bound; lia).
      assert (Z.pos p / 2 ^ Z.pos n < 2 ^ (k - (e + Z.pos n)))
        by (apply Z.div_lt_upper_bound; lia).
      lia.
    + right. split; [exact Hke|].
      assert (Z.pos p / 2 ^ Z.pos n = 0); [|lia].
      apply Z.div_small. split; [lia|].
      apply Z.lt_le_trans with (1 := Dhi). apply Z.pow_le_mono_r; unfold k in Hke; lia.
Qed.

Lemma binary_normalize_valid (m e : Z) (s : bool) :
  valid_binary prec emax (binary_normalize prec emax m e s) = true.
Proof.
  assert (H : forall sx p, valid_binary prec emax (binary_round prec emax sx p e) = true).
  { intros sx p. unfold binary_round, shl_align.
    set (k := Z.pos (digits2_pos p) + e).
    destruct (fexp prec emax k - e) as [|d|d] eqn:Ed.
    - apply binary_round_aux_valid. fold k. lia.
    - apply binary_round_aux_valid. fold k. lia.
    - apply binary_round_aux_valid.
      assert (Hdig : Z.pos (digits2_pos (Pos.iter xO p d)) = Z.pos (digits2_pos p) + Z.pos d).
      { apply digits2_pos_unique. fold (shift_pos d p). rewrite shift_pos_correct.
        change (Z.pow_pos 2 d) with (2 ^ Z.pos d).
        pose proof (digits2_pos_bounds p) as [Dlo Dhi].
        replace (Z.pos (digits2_pos p) + Z.pos d - 1) with (Z.pos d + (Z.pos (digits2_pos p) - 1)) by lia.
        rewrite (Z.add_comm (Z.pos (digits2_pos p))).
        rewrite !Z.pow_add_r by lia.
        assert (0 < 2 ^ Z.pos d) by (apply Z.pow_pos_nonneg; lia).
        split; [apply Z.mul_le_mono_nonneg_l; [apply Z.lt_le_incl; assumption | exact Dlo]
               | apply Z.mul_lt_mono_pos_l; [assumption | exact Dhi]]. }
      rewrite Hdig. unfold k in *.
      replace (Z.pos (digits2_pos p) + Z.pos d + fexp prec emax (Z.pos (digits2_pos p) + e))
        with (Z.pos (digits2_pos p) + e) by lia. lia. }
  destruct m as [|p|p]; simpl; [reflexivity | apply H | apply H].
Qed.

Lemma add_valid (x y : float) :
  is_binary64 x -> is_binary64 y -> is_binary64 (add x y).
Proof.
  unfold is_binary64, add. intros Hx Hy.
  destruct x as [sx|sx| |sx mx ex], y as [sy|sy| |sy my ey];
    try exact Hx; try exact Hy; try reflexivity;
    try (destruct sx, sy; reflexivity).
  unfold SFadd. apply binary_normalize_valid.
Qed.

(** ** The interval after a review *)

Lemma ease_update_is_binary64 (e : float) (r : Rating) :
  is_binary64 e -> is_binary64 (ease_update e (Rating_value r)).
Proof.
  intros He. unfold ease_update, py_max.
  destruct (ltb c1_3 _); [|reflexivity].
  apply add_valid; [exact He|]. destruct r; reflexivity.
Qed.

Lemma schedule_at_least_one (s : CardState) (r : Rating) (ni nr : Z) :
  schedule s r = Ok (ni, nr) ->
  Rating_value r < 3 \/ repetitions s = 0 \/ repetitions s = 1 \/ card_inv s ->
  1 <= ni.
Proof.
  unfold schedule. change (Rating_value GOOD) with 3.
  destruct (3 <=? Rating_value r) eqn:Er.
  - intros H Hc. apply result_bind_Ok in H. destruct H as (i & Hi & [= <- <-]).
    destruct (repetitions s =? 0) eqn:E0; [injection Hi as <-; lia|].
    destruct (repetitions s =? 1) eqn:E1; [injection Hi as <-; lia|].
    apply Z.leb_le in Er. apply Z.eqb_neq in E0, E1.
    destruct Hc as [Hc|[Hc|[Hc|(Hv & He & Hi1)]]]; try lia.
    eapply round_product_at_least_one; eassumption.
  - intros [= <- <-] _. lia.
Qed.

(** C4, amended. When the rating is failing, or the streak is 0 or 1, or
    the state has an interval of at least 1 and a binary64 ease factor of
    at least 1.3, the interval returned by the review is at least 1. *)
Theorem sm2_interval_at_least_one (s : CardState) (r : Rating) w s' w' :
  sm2_algorithm s r w = Ok (s', w') ->
  Rating_value r < 3 \/ repetitions s = 0 \/ repetitions s = 1 \/ card_inv s ->
  1 <= interval s'.
Proof.
  intros H Hc. apply sm2_algorithm_Ok in H.
  destruct H as (ni & nr & t & Hs & _ & -> & _). simpl.
  eapply schedule_at_least_one; eassumption.
Qed.

Lemma sm2_interval_at_least_one_witness :
  sm2_algorithm card_174 EASY noon
    = Ok (mkCardState "174" c2_46 14 3 1209600001000 (Some 1000), noon) /\
  (5 < 3 \/ 2 = 0 \/ 2 = 1 \/ card_inv card_174) /\
  1 <= 14.
Proof.
  assert (Hc : card_inv card_174) by (repeat split; vm_compute; congruence).
  split; [vm_compute; reflexivity|]. split; [auto|].
  apply (sm2_interval_at_least_one card_174 EASY noon
           (mkCardState "174" c2_46 14 3 1209600001000 (Some 1000)) noon).
  - vm_compute. reflexivity.
  - auto.
Defined.

(** C4 as stated fails: a streak of 2 with the interval 0 is reviewed to
    the interval [round(0 * 2.5) = 0]. *)
Lemma sm2_interval_zero :
  ~ (forall (s : CardState) (r : Rating) w s' w',
       sm2_algorithm s r w = Ok (s', w') -> 1 <= interval s').
Proof.
  intros H.
  specialize (H (mkCardState "174" c2_5 0 2 0 None) GOOD noon
                (mkCardState "174" c2_36 0 3 1000 (Some 1000)) noon).
  assert (Hrun : sm2_algorithm (mkCardState "174" c2_5 0 2 0 None) GOOD noon
                 = Ok (mkCardState "174" c2_36 0 3 1000 (Some 1000), noon))
    by (vm_compute; reflexivity).
  apply H in Hrun. simpl in Hrun. lia.
Qed.

(** A review keeps [card_inv], and establishes it on a new card. *)
Lemma sm2_algorithm_card_inv (s : CardState) (r : Rating) w s' w' :
  sm2_algorithm s r w = Ok (s', w') ->
  is_binary64 (ease_factor s) ->
  repetitions s = 0 \/ repetitions s = 1 \/ card_inv s ->
  card_inv s'.
Proof.
  intros H Hv Hc. split; [|split].
  - apply sm2_algorithm_Ok in H. destruct H as (ni & nr & t & _ & _ & -> & _).
    apply ease_update_is_binary64, Hv.
  - eapply sm2_algorithm_ease_ok, H.
  - apply sm2_algorithm_Ok in H. destruct H as (ni & nr & t & Hs & _ & -> & _).
    simpl. eapply schedule_at_least_one; [exact Hs|tauto].
Qed.

(** ** Dictionaries *)

Section DictFacts.
Context {V : Type}.
Implicit Types (d : dict V) (k : string) (v : V).

Lemma dict_get_set_eq k v d : dict_get k (dict_set k v d) = Some v.
Proof.
  induction d as [|[k' v'] d IH]; simpl.
  - rewrite String.eqb_refl. reflexivity.
  - destruct (String.eqb_spec k k') as [->|Hne]; simpl.
    + rewrite String.eqb_refl. reflexivity.
    + destruct (String.eqb_spec k k'); [contradiction|exact IH].
Qed.

Lemma dict_get_set_ne k k' v d :
  k <> k' -> dict_get k' (dict_set k v d) = dict_get k' d.
Proof.
  intros Hne. induction d as [|[k0 v0] d IH]; simpl.
  - destruct (String.eqb_spec k' k); [congruence|reflexivity].
  - destruct (String.eqb_spec k k0) as [->|Hk]; simpl.
    + destruct (String.eqb_spec k' k0); [congruence|reflexivity].
    + destruct (String.eqb_spec k' k0); [reflexivity|exact IH].
Qed.

Lemma dict_get_None k d : dict_get k d = None <-> k ∉ dict_keys d.
Proof.
  unfold dict_keys. induction d as [|[k' v'] d IH]; simpl.
  - split; [intros _; apply not_elem_of_nil | reflexivity].
  - rewrite not_elem_of_cons. destruct (String.eqb_spec k k') as [->|Hne].
    + split; [discriminate | intros [? _]; contradiction].
    + rewrite IH. tauto.
Qed.

Lemma dict_get_Some k v d : dict_get k d = Some v -> (k, v) ∈ d.
Proof.
  induction d as [|[k' v'] d IH]; simpl; [discriminate|].
  destruct (String.eqb_spec k k') as [->|Hne].
  - intros [= ->]. apply list_elem_of_here.
  - intros H. apply list_elem_of_further, IH, H.
Qed.

(** A new key goes last. *)
Lemma dict_set_fresh k v d : k ∉ dict_keys d -> dict_set k v d = d ++ [(k, v)].
Proof.
  unfold dict_keys. induction d as [|[k' v'] d IH]; simpl; [reflexivity|].
  rewrite not_elem_of_cons. intros [Hne Hk].
  destruct (String.eqb_spec k k'); [contradiction|]. rewrite IH by exact Hk.
  reflexivity.
Qed.

Lemma dict_set_Forall (P : V -> Prop) k v d :
  P v -> Forall (fun x => P x.2) d -> Forall (fun x => P x.2) (dict_set k v d).
Proof.
  intros Hv. induction 1 as [|[k' v'] d Hx Hd IH]; simpl.
  - repeat constructor. exact Hv.
  - destruct (String.eqb k k'); constructor; auto.
Qed.
End DictFacts.

(** ** Reviewing a card *)

Lemma review_card_Ok (self : Scheduler) (cid : string) (r : Rating) w st self' w' :
  review_card self cid r w = Ok (st, self', w') <->
  sm2_algorithm
    (default (mkCardState cid c2_5 0 0 (w 0%nat) None)
             (dict_get cid (card_states self)))
    r (fun n => w (S n)) = Ok (st, w') /\
  self' = mkScheduler (dict_set cid st (card_states self)).
Proof.
  unfold review_card, CardState_new, mbind, M_bind, now, mret, M_ret.
  destruct (sm2_algorithm _ r _) as [[s1 w1]|e]; split.
  - intros [= <- <- <-]. auto.
  - intros [[= -> ->] ->]. reflexivity.
  - discriminate.
  - intros [[=] _].
Qed.

(** A review of a new card returns if the clock is read a day or more
    before [datetime.max]. *)
Lemma sm2_algorithm_new_card (cid : string) (t : datetime) (r : Rating) w :
  0 <= w 0%nat /\ w 0%nat + day_us < datetime_end ->
  sm2_algorithm (mkCardState cid c2_5 0 0 t None) r w
  = Ok (mkCardState cid (ease_update c2_5 (Rating_value r)) 1
          (if 3 <=? Rating_value r then 1 else 0)
          (w 0%nat + day_us) (Some (w 1%nat)),
        fun n => w (S (S n))).
Proof.
  intros [H0 H1]. apply sm2_algorithm_Ok.
  exists 1, (if 3 <=? Rating_value r then 1 else 0), (w 0%nat + day_us).
  repeat split.
  - unfold schedule. simpl. destruct r; reflexivity.
  - unfold datetime_add_days. simpl. rewrite Z.mul_1_l.
    destruct (Z.leb_spec 0 (w 0%nat + day_us)); [|unfold day_us in *; lia].
    destruct (Z.ltb_spec (w 0%nat + day_us) datetime_end); [reflexivity|lia].
Qed.

(** Reviews keep [card_inv] on the whole store, whatever the card. *)
Lemma review_card_card_inv (self : Scheduler) (cid : string) (r : Rating)
    w st self' w' :
  Forall (fun x => card_inv x.2) (card_states self) ->
  review_card self cid r w = Ok (st, self', w') ->
  card_inv st /\ Forall (fun x => card_inv x.2) (card_states self').
Proof.
  intros Hinv H. apply review_card_Ok in H. destruct H as [Hrun ->].
  assert (Hst : card_inv st).
  { destruct (dict_get cid (card_states self)) as [s|] eqn:E; simpl in Hrun.
    - apply dict_get_Some in E. rewrite Forall_forall in Hinv.
      pose proof (Hinv _ E) as Hs. simpl in Hs.
      eapply sm2_algorithm_card_inv; [exact Hrun|apply Hs|auto].
    - eapply sm2_algorithm_card_inv; [exact Hrun|reflexivity|auto]. }
  split; [exact Hst|]. simpl. apply dict_set_Forall; assumption.
Qed.

(** A review can raise: from the empty store, the fourteenth EASY review
    of a card in a row asks for a next review after year 9999. *)
Example fourteen_easy_reviews :
  (exists self' w',
     review_n 13 (mkScheduler []) "174" EASY new_year_2024 = Ok (self', w') /\
     interval <$> get_state self' "174" = Some 2038878) /\
  review_n 14 (mkScheduler []) "174" EASY new_year_2024 = Raise OverflowError.
Proof.
  split; [eexists _, _; split|]; vm_compute; reflexivity.
Qed.

Lemma sm2_algorithm_run (s : CardState) (r : Rating) w :
  sm2_algorithm s r w =
  match schedule s r with
  | Ok (ni, nr) =>
      match datetime_add_days (w 0%nat) ni with
      | Ok t =>
          Ok (mkCardState (card_id s)
                (ease_update (ease_factor s) (Rating_value r)) ni nr t
                (Some (w 1%nat)),
              fun n => w (S (S n)))
      | Raise e => Raise e
      end
  | Raise e => Raise e
  end.
Proof.
  unfold sm2_algorithm. fold (schedule s r).
  unfold mbind, M_bind, lift, now, mret, M_ret.
  rewrite int_mul_float_rating. cbv beta iota.
  rewrite int_mul_float_rating. cbv beta iota.
  fold (ease_update (ease_factor s) (Rating_value r)).
  destruct (schedule s r) as [[ni nr]|e]; [|reflexivity].
  destruct (datetime_add_days (w 0%nat) ni); reflexivity.
Qed.

Lemma review_card_run (self : Scheduler) (cid : string) (r : Rating) w :
  review_card self cid r w =
  match sm2_algorithm
          (default (mkCardState cid c2_5 0 0 (w 0%nat) None)
                   (dict_get cid (card_states self)))
          r (fun n => w (S n)) with
  | Ok (st, w') => Ok (st, mkScheduler (dict_set cid st (card_states self)), w')
  | Raise e => Raise e
  end.
Proof.
  unfold review_card, CardState_new, mbind, M_bind, now, mret, M_ret.
  destruct (sm2_algorithm _ r _) as [[st w']|e]; reflexivity.
Qed.

Lemma datetime_add_days_raises (t : datetime) (d : Z) (e : exn) :
  datetime_add_days t d = Raise e -> e = OverflowError.
Proof.
  unfold datetime_add_days.
  destruct ((d <? -999999999) || (999999999 <? d)); [congruence|].
  destruct ((0 <=? t + d * day_us) && (t + d * day_us <? datetime_end));
    congruence.
Qed.

(** The update raises [OverflowError] for an interval beyond the floats, a
    product that rounds to no int or a date out of range, and [ValueError]
    for a product that is not a number. *)
Lemma sm2_algorithm_raises (s : CardState) (r : Rating) w (e : exn) :
  sm2_algorithm s r w = Raise e -> e = OverflowError \/ e = ValueError.
Proof.
  rewrite sm2_algorithm_run.
  destruct (schedule s r) as [[ni nr]|e0] eqn:Es.
  - destruct (datetime_add_days (w 0%nat) ni) as [t|e1] eqn:Et; [discriminate|].
    intros [= <-]. left. eapply datetime_add_days_raises, Et.
  - intros [= <-]. revert Es. unfold schedule.
    destruct (Rating_value GOOD <=? Rating_value r); [|discriminate].
    destruct (repetitions s =? 0); [discriminate|].
    destruct (repetitions s =? 1); [discriminate|].
    unfold int_mul_float, mbind, result_bind.
    destruct (int_to_float (interval s)) as [x|e1] eqn:Ex.
    + destruct (py_round (mul x (ease_factor s))) as [k|e2] eqn:Ek;
        [discriminate|].
      intros [= <-]. destruct (mul x (ease_factor s)); simpl in Ek;
        try discriminate; injection Ek as <-; auto.
    + intros [= <-]. left. unfold int_to_float in Ex.
      destruct (of_Z (interval s)); congruence.
Qed.

(** C9, amended. Any card id is accepted: whatever the id, the only
    exceptions of a review are the [OverflowError] and the [ValueError]
    of the update, none about the id. When the store has no state for
    the id, the review starts from the default state (ease 2.5, interval
    0, streak 0, next review now, never reviewed), applies the update to
    it, stores the result under the id and returns it, without raising
    when the clock is read a day or more before [datetime.max]. The clock
    is read three times: for the default state, then twice by the
    update. *)
Theorem review_card_unknown_id (self : Scheduler) (cid : string) (r : Rating) w :
  (forall e, review_card self cid r w = Raise e ->
     e = OverflowError \/ e = ValueError) /\
  (get_state self cid = None ->
   0 <= w 1%nat /\ w 1%nat + day_us < datetime_end ->
   exists st self' w',
     review_card self cid r w = Ok (st, self', w') /\
     sm2_algorithm (mkCardState cid c2_5 0 0 (w 0%nat) None) r (fun n => w (S n))
       = Ok (st, w') /\
     get_state self' cid = Some st /\
     card_id st = cid).
Proof.
  split.
  - intros e. rewrite review_card_run.
    destruct (sm2_algorithm _ r _) as [[st w']|e0] eqn:E; [discriminate|].
    intros [= <-]. eapply sm2_algorithm_raises, E.
  - intros Hnone Hclock. unfold get_state in Hnone.
    pose proof (sm2_algorithm_new_card cid (w 0%nat) r (fun n => w (S n)) Hclock)
      as Hrun.
    eexists _, _, _. split; [|split; [exact Hrun|split]].
    + apply review_card_Ok. rewrite Hnone. simpl. split; [exact Hrun|reflexivity].
    + unfold get_state. simpl. apply dict_get_set_eq.
    + reflexivity.
Qed.

Lemma review_card_unknown_id_witness :
  get_state (mkScheduler []) "174" = None /\
  (0 <= noon 1%nat /\ noon 1%nat + day_us < datetime_end) /\
  exists st self' w',
    review_card (mkScheduler []) "174" GOOD noon = Ok (st, self', w') /\
    sm2_algorithm (mkCardState "174" c2_5 0 0 (noon 0%nat) None) GOOD
      (fun n => noon (S n)) = Ok (st, w') /\
    get_state self' "174" = Some st /\
    card_id st = "174"%string.
Proof.
  split; [reflexivity|]. split; [vm_compute; split; [discriminate|reflexivity]|].
  apply (proj2 (review_card_unknown_id (mkScheduler []) "174" GOOD noon)).
  - reflexivity.
  - vm_compute. split; [discriminate|reflexivity].
Defined.

(** C9 as stated fails: with the clock at the last microsecond of year
    9999, the review of a card that has no state raises [OverflowError],
    its next review being a day past [datetime.max]. *)
Lemma review_card_at_datetime_max :
  ~ (forall (self : Scheduler) (cid : string) (r : Rating) w,
       get_state self cid = None ->
       exists st self' w', review_card self cid r w = Ok (st, self', w')).
Proof.
  intros H.
  destruct (H (mkScheduler []) "174" GOOD (fun _ => datetime_end - 1) eq_refl)
    as (st & self' & w' & Hrun).
  vm_compute in Hrun. discriminate Hrun.
Qed.

(** C10, amended. A review changes the entry of its card only: every other
    key maps to the state it mapped to, the entry of the card is the state
    returned, and the [card_id] of that state is the one of the state that
    was stored under the key, or the key itself when there was none; so it
    is the key in a store where every entry carries its key. *)
Theorem review_card_frame (self : Scheduler) (cid : string) (r : Rating)
    w st self' w' :
  review_card self cid r w = Ok (st, self', w') ->
  (forall k, k <> cid -> get_state self' k = get_state self k) /\
  get_state self' cid = Some st /\
  card_id st = match get_state self cid with
               | Some s => card_id s
               | None => cid
               end /\
  (keyed (card_states self) -> card_id st = cid /\ keyed (card_states self')).
Proof.
  intros H. apply review_card_Ok in H. destruct H as [Hrun ->].
  unfold get_state. simpl.
  assert (Hid : card_id st = match dict_get cid (card_states self) with
                             | Some s => card_id s
                             | None => cid
                             end).
  { apply sm2_algorithm_Ok in Hrun. destruct Hrun as (ni & nr & t & _ & _ & -> & _).
    simpl. destruct (dict_get cid (card_states self)); reflexivity. }
  split; [|split; [|split]].
  - intros k Hk. apply dict_get_set_ne. congruence.
  - apply dict_get_set_eq.
  - exact Hid.
  - intros Hkeyed.
    assert (Hcid : card_id st = cid).
    { rewrite Hid. destruct (dict_get cid (card_states self)) eqn:E; [|reflexivity].
      apply Hkeyed, E. }
    split; [exact Hcid|]. intros k s.
    destruct (String.eqb_spec cid k) as [<-|Hne].
    + rewrite dict_get_set_eq. intros [= <-]. exact Hcid.
    + rewrite dict_get_set_ne by exact Hne. apply Hkeyed.
Qed.

Lemma review_card_frame_witness :
  review_card (mkScheduler [("174"%string, card_174)]) "174" EASY noon
    = Ok (mkCardState "174" c2_46 14 3 1209600001000 (Some 1000),
          mkScheduler
            [("174"%string,
              mkCardState "174" c2_46 14 3 1209600001000 (Some 1000))],
          noon) /\
  ((forall k, k <> "174"%string ->
      get_state
        (mkScheduler
           [("174"%string,
             mkCardState "174" c2_46 14 3 1209600001000 (Some 1000))]) k
      = get_state (mkScheduler [("174"%string, card_174)]) k) /\
   get_state
     (mkScheduler
        [("174"%string, mkCardState "174" c2_46 14 3 1209600001000 (Some 1000))])
     "174"
   = Some (mkCardState "174" c2_46 14 3 1209600001000 (Some 1000)) /\
   "174"%string = "174"%string /\
   (keyed [("174"%string, card_174)] ->
    "174"%string = "174"%string /\
    keyed [("174"%string,
            mkCardState "174" c2_46 14 3 1209600001000 (Some 1000))])).
Proof.
  split; [vm_compute; reflexivity|].
  apply (review_card_frame (mkScheduler [("174"%string, card_174)]) "174" EASY noon
           (mkCardState "174" c2_46 14 3 1209600001000 (Some 1000))
           (mkScheduler
              [("174"%string,
                mkCardState "174" c2_46 14 3 1209600001000 (Some 1000))])
           noon).
  vm_compute. reflexivity.
Defined.

(** C10 as stated fails on a store that holds, under the key "a", a state
    whose [card_id] is "b": the state returned for "a" keeps "b". *)
Lemma review_card_keeps_stored_id :
  ~ (forall (self : Scheduler) (cid : string) (r : Rating) w st self' w',
       review_card self cid r w = Ok (st, self', w') ->
       (forall k, k <> cid -> get_state self' k = get_state self k) /\
       get_state self' cid = Some st /\
       card_id st = cid).
Proof.
  intros H.
  assert (Hrun :
    review_card (mkScheduler [("a"%string, mkCardState "b" c2_5 1 1 0 None)])
      "a" GOOD noon
    = Ok (mkCardState "b" c2_36 6 2 518400001000 (Some 1000),
          mkScheduler
            [("a"%string, mkCardState "b" c2_36 6 2 518400001000 (Some 1000))],
          noon))
    by (vm_compute; reflexivity).
  apply H in Hrun. destruct Hrun as (_ & _ & Hid). discriminate Hid.
Qed.

(** ** Sorting *)

Section SortFacts.
Context {A : Type} (key : A -> Z).

Lemma insert_by_key_perm (x : A) (l : list A) : insert_by_key key x l ≡ₚ x :: l.
Proof.
  induction l as [|y l IH]; simpl; [reflexivity|].
  destruct (key x <=? key y); [reflexivity|].
  rewrite IH. apply perm_swap.
Qed.

Lemma list_sort_perm (l : list A) : list_sort key l ≡ₚ l.
Proof.
  induction l as [|x l IH]; simpl; [reflexivity|].
  rewrite insert_by_key_perm. apply perm_skip, IH.
Qed.

Lemma insert_by_key_HdRel (y x : A) (l : list A) :
  key y <= key x ->
  HdRel (fun a b => key a <= key b) y l ->
  HdRel (fun a b => key a <= key b) y (insert_by_key key x l).
Proof.
  intros Hyx Hl. destruct l as [|z l]; simpl; [constructor; exact Hyx|].
  destruct (key x <=? key z); constructor; [exact Hyx|].
  inversion Hl; assumption.
Qed.

Lemma insert_by_key_sorted (x : A) (l : list A) :
  Sorted (fun a b => key a <= key b) l ->
  Sorted (fun a b => key a <= key b) (insert_by_key key x l).
Proof.
  induction 1 as [|y l Hs IH Hhd]; simpl; [repeat constructor|].
  destruct (Z.leb_spec (key x) (key y)) as [Hle|Hgt].
  - constructor; [constructor; assumption|]. constructor. exact Hle.
  - constructor; [exact IH|]. apply insert_by_key_HdRel; [lia|exact Hhd].
Qed.

Lemma list_sort_sorted (l : list A) :
  Sorted (fun a b => key a <= key b) (list_sort key l).
Proof.
  induction l as [|x l IH]; simpl; [constructor|].
  apply insert_by_key_sorted, IH.
Qed.
End SortFacts.

(** ** Due cards *)

Lemma is_due_run (s : CardState) w :
  is_due s w = Ok (next_review s <=? w 0%nat, fun n => w (S n)).
Proof. reflexivity. Qed.

(** On the timestamps of the embedding, all naive, the scan of the store
    reads the clock once per card and returns. *)
Lemma due_items_total (items : list (string * CardState)) :
  forall w, exists due w', due_items items w = Ok (due, w').
Proof.
  induction items as [|[cid s] items IH]; intros w; simpl.
  - eexists _, _. reflexivity.
  - unfold mbind at 1, M_bind at 1. rewrite is_due_run.
    unfold mbind, M_bind, mret, M_ret.
    destruct (IH (fun n => w (S n))) as (due & w' & ->).
    eexists _, _. reflexivity.
Qed.

(** While the clock stands at [t], the scan keeps the cards whose next
    review is at [t] or before. *)
Lemma due_items_frozen (items : list (string * CardState)) (t : datetime) :
  forall w, (forall n, w n = t) ->
  exists w',
    due_items items w
    = Ok (filter (fun x => next_review x.2 <= t) items, w') /\
    forall n, w' n = t.
Proof.
  induction items as [|[cid s] items IH]; intros w Hw; simpl.
  - exists w. split; [reflexivity|exact Hw].
  - unfold mbind at 1, M_bind at 1. rewrite is_due_run.
    unfold mbind, M_bind, mret, M_ret.
    destruct (IH (fun n => w (S n))) as (w' & -> & Hw'); [intros n; apply Hw|].
    exists w'. split; [|exact Hw']. rewrite Hw, filter_cons. simpl.
    destruct (Z.leb_spec (next_review s) t);
      destruct (decide (next_review s <= t)); try lia; reflexivity.
Qed.

(** With a clock that moves on during the scan, a card due at the first
    reading is returned, and a card returned is due at the last one. *)
Lemma due_items_moving (items : list (string * CardState)) :
  forall w due w',
  (forall i j : nat, (i <= j)%nat -> w i <= w j) ->
  due_items items w = Ok (due, w') ->
  (forall x, x ∈ items -> next_review x.2 <= w 0%nat -> x ∈ due) /\
  (forall x, x ∈ due ->
     x ∈ items /\ next_review x.2 <= w (Nat.pred (length items))).
Proof.
  induction items as [|[cid s] items IH]; intros w due w' Hmono; simpl.
  - intros [= <- _]. split; intros x Hx; [|apply elem_of_nil in Hx]; tauto.
  - unfold mbind at 1, M_bind at 1. rewrite is_due_run.
    unfold mbind, M_bind, mret, M_ret.
    destruct (due_items items (fun n => w (S n))) as [[tl w1]|e] eqn:Etl;
      [|discriminate].
    intros [= <- _].
    destruct (IH _ _ _ (fun i j Hij => Hmono (S i) (S j) (le_n_S _ _ Hij)) Etl)
      as [IH1 IH2].
    assert (Htl : forall x, x ∈ tl ->
              x ∈ (cid, s) :: items /\ next_review x.2 <= w (length items)).
    { intros x Hx. destruct (IH2 x Hx) as [Hin Hle].
      split; [apply list_elem_of_further, Hin|].
      destruct items as [|y items]; [apply elem_of_nil in Hin; contradiction|].
      exact Hle. }
    split.
    + intros x Hx Hdue. apply elem_of_cons in Hx. destruct Hx as [->|Hx].
      * simpl in Hdue. destruct (Z.leb_spec (next_review s) (w 0%nat)); [|lia].
        apply list_elem_of_here.
      * assert (x ∈ tl).
        { apply IH1; [exact Hx|]. pose proof (Hmono 0%nat 1%nat). lia. }
        destruct (next_review s <=? w 0%nat);
          [apply list_elem_of_further|]; assumption.
    + intros x Hx. destruct (Z.leb_spec (next_review s) (w 0%nat)) as [Hle|Hgt].
      * apply elem_of_cons in Hx. destruct Hx as [->|Hx]; [|apply Htl, Hx].
        split; [apply list_elem_of_here|]. simpl.
        pose proof (Hmono 0%nat (length items)). lia.
      * apply Htl, Hx.
Qed.




(** ** New cards *)

Lemma not_studied (self : Scheduler) (cid : string) :
  cid ∉ (list_to_set (dict_keys (card_states self)) : gset string) <->
  get_state self cid = None.
Proof. unfold get_state. rewrite elem_of_list_to_set, dict_get_None. tauto. Qed.

(** C6. For a limit of 0 or more, at most [limit] ids are returned, each
    one in [all_card_ids] and without a state in the store, in the order
    of [all_card_ids]; none for the limit 0. They are the first [limit]
    unseen ids. *)
Theorem get_new_cards_spec (self : Scheduler) (all_card_ids : list string)
    (limit : Z) :
  0 <= limit ->
  Z.of_nat (length (get_new_cards self all_card_ids limit)) <= limit /\
  (forall cid, cid ∈ get_new_cards self all_card_ids limit ->
     cid ∈ all_card_ids /\ get_state self cid = None) /\
  get_new_cards self all_card_ids limit `sublist_of` all_card_ids /\
  (limit = 0 -> get_new_cards self all_card_ids limit = []) /\
  get_new_cards self all_card_ids limit
  = take (Z.to_nat limit)
      (filter (fun cid => cid ∉ dict_keys (card_states self)) all_card_ids).
Proof.
  intros Hlimit. unfold get_new_cards, slice_to.
  destruct (Z.leb_spec 0 limit) as [_|]; [|lia].
  set (new_cards := filter _ all_card_ids).
  split; [|split; [|split; [|split]]].
  - rewrite length_take. lia.
  - intros cid Hin. apply subseteq_take in Hin.
    apply list_elem_of_filter in Hin. destruct Hin as [Hnew Hin].
    split; [exact Hin|]. apply not_studied, Hnew.
  - transitivity new_cards; [apply sublist_take|apply sublist_filter].
  - intros ->. reflexivity.
  - f_equal. apply list_filter_iff. intros cid.
    rewrite elem_of_list_to_set. tauto.
Qed.

Lemma get_new_cards_spec_witness :
  0 <= 2 /\
  Z.of_nat (length (get_new_cards three_cards four_ids 2)) <= 2 /\
  (forall cid, cid ∈ get_new_cards three_cards four_ids 2 ->
     cid ∈ four_ids /\ get_state three_cards cid = None) /\
  get_new_cards three_cards four_ids 2 `sublist_of` four_ids /\
  (2 = 0 -> get_new_cards three_cards four_ids 2 = []) /\
  get_new_cards three_cards four_ids 2
  = take (Z.to_nat 2)
      (filter (fun cid => cid ∉ dict_keys (card_states three_cards)) four_ids).
Proof.
  split; [lia|].
  apply (get_new_cards_spec three_cards four_ids 2). lia.
Defined.

(** ** The study session *)

(** C7. On the catalog of [data.py], with "174" due before "3356" and no
    other card in the store: the due ids come as "174", "3356" and the
    first 10 new ids hold "2914" once, while the session starts with
    "3356", "174", the order of the catalog, and goes on with 11 cards,
    the two of the catalog that carry the id "2914" among them. *)
Theorem session_of_two_due_cards :
  get_due_cards two_due_cards noon = Ok (["174"; "3356"]%string, noon) /\
  get_new_cards two_due_cards (card_ids NETWORKS) 10
  = ["2914"; "1299"; "3257"; "6762"; "6453"; "701"; "7018"; "3491"; "5511";
     "6830"]%string /\
  exists cards,
    _load_study_session two_due_cards noon = Ok (cards, noon) /\
    card_ids cards
    = ["3356"; "174"; "2914"; "1299"; "3257"; "6762"; "6453"; "701"; "7018";
       "3491"; "5511"; "6830"; "2914"]%string.
Proof.
  split; [vm_compute; reflexivity|]. split; [vm_compute; reflexivity|].
  eexists. split; vm_compute; reflexivity.
Qed.

(** The candidates are not the due ids followed by the new ids: with "174"
    due before "3356", the due ids come as "174", "3356" and the session
    starts with "3356", "174", the order of the catalog. *)
Lemma session_in_catalog_order :
  ~ (forall (scheduler : Scheduler) w cards w',
       _load_study_session scheduler w = Ok (cards, w') ->
       exists due_ids w'',
         get_due_cards scheduler w = Ok (due_ids, w'') /\
         card_ids cards
         = due_ids ++ get_new_cards scheduler (card_ids NETWORKS) 10).
Proof.
  intros H.
  set (self := mkScheduler
    [("174"%string, mkCardState "174" c2_5 1 1 1 None);
     ("3356"%string, mkCardState "3356" c2_5 1 1 2 None);
     ("2914"%string, mkCardState "2914" c2_5 1 1 1000000000000000 None)]).
  destruct (_load_study_session self noon) as [[cards w']|e] eqn:Hrun;
    [|vm_compute in Hrun; discriminate].
  destruct (H self noon cards w' Hrun) as (due_ids & w'' & Hdue & Hids).
  assert (Hd : get_due_cards self noon = Ok (["174"; "3356"]%string, noon))
    by (vm_compute; reflexivity).
  rewrite Hd in Hdue. injection Hdue as <- _.
  assert (Hc : card_ids cards !! 0%nat = Some "3356"%string).
  { vm_compute in Hrun. injection Hrun as <- _. reflexivity. }
  rewrite Hids in Hc. discriminate Hc.
Qed.

(** The catalog lists the id "2914" twice, so that a session on an empty
    store holds 11 cards for the 10 new ids. *)
Example NETWORKS_repeats_2914 :
  card_ids (filter (fun n => asn n =? 2914) NETWORKS) = ["2914"; "2914"]%string.
Proof. vm_compute. reflexivity. Qed.

Example session_of_empty_store :
  exists cards w',
    _load_study_session (mkScheduler []) noon = Ok (cards, w') /\
    length cards = 11%nat /\
    length (get_new_cards (mkScheduler []) (card_ids NETWORKS) 10) = 10%nat.
Proof. eexists _, _. vm_compute. repeat split. Qed.

(** ** Saving and loading *)

Lemma to_int_proper (t : Z) :
  Z.to_int t <> Decimal.Pos Decimal.Nil /\ Z.to_int t <> Decimal.Neg Decimal.Nil.
Proof.
  destruct t as [|p|p]; simpl; split; try discriminate;
    intros [= H]; exact (DecimalPos.Unsigned.to_uint_nonnil p H).
Qed.

Lemma decimal_fromisoformat_isoformat (t : datetime) :
  decimal_fromisoformat (decimal_isoformat t) = Ok t.
Proof.
  unfold decimal_fromisoformat, decimal_isoformat.
  destruct (to_int_proper t) as [H1 H2].
  rewrite (NilZero.isi _ H1 H2), DecimalZ.of_to. reflexivity.
Qed.

Lemma decimal_isoformat_nonempty (t : datetime) : decimal_isoformat t <> ""%string.
Proof.
  intros H. pose proof (decimal_fromisoformat_isoformat t) as Hr.
  rewrite H in Hr. discriminate Hr.
Qed.

Lemma dict_get_elem_of {V : Type} (k : string) (v : V) (d : dict V) :
  dict_wf d -> (k, v) ∈ d -> dict_get k d = Some v.
Proof.
  unfold dict_wf, dict_keys. induction d as [|[k' v'] d IH]; simpl; intros Hnd Hin.
  - apply elem_of_nil in Hin. contradiction.
  - apply NoDup_cons in Hnd. destruct Hnd as [Hk Hnd].
    apply elem_of_cons in Hin. destruct Hin as [[= -> ->]|Hin].
    + rewrite String.eqb_refl. reflexivity.
    + destruct (String.eqb_spec k k') as [->|_]; [|apply IH; assumption].
      exfalso. apply Hk. apply list_elem_of_fmap. exists (k', v). auto.
Qed.

Lemma with_card_id_keyed (d : dict CardState) :
  dict_wf d -> keyed d -> (fun x => (x.1, with_card_id x.1 x.2)) <$> d = d.
Proof.
  intros Hwf Hkeyed. rewrite <- (list_fmap_id d) at 2.
  apply list_fmap_ext. intros i [k s] Hi. simpl.
  assert (Hk : card_id s = k).
  { apply Hkeyed, dict_get_elem_of; [exact Hwf|].
    eapply list_elem_of_lookup_2, Hi. }
  destruct s. simpl in Hk. subst k. reflexivity.
Qed.

Section PersistenceFacts.
Variable isoformat : datetime -> string.
Variable fromisoformat : string -> result datetime.
(** What the Python library guarantees of a naive datetime. *)
Hypothesis fromisoformat_isoformat : forall t, fromisoformat (isoformat t) = Ok t.
Hypothesis isoformat_nonempty : forall t, isoformat t <> ""%string.

Lemma load_entry_saved (k : string) (s : CardState) :
  load_entry fromisoformat k (JDict (state_dict isoformat s)) = Ok (with_card_id k s).
Proof.
  unfold load_entry, from_dict, state_dict, with_card_id. simpl.
  rewrite fromisoformat_isoformat. simpl.
  destruct (last_reviewed s) as [t|]; simpl; [|reflexivity].
  destruct (String.eqb_spec (isoformat t) "") as [E|_];
    [exfalso; exact (isoformat_nonempty t E)|].
  simpl. rewrite fromisoformat_isoformat. reflexivity.
Qed.

Lemma save_cards_fresh (items : dict CardState) :
  forall cards : dict json,
  NoDup (dict_keys cards ++ dict_keys items) ->
  save_cards isoformat items cards
  = Ok (cards ++ ((fun x => (x.1, JDict (state_dict isoformat x.2))) <$> items)).
Proof.
  unfold dict_keys. induction items as [|[k s] items IH]; intros cards Hnd; simpl.
  - rewrite app_nil_r. reflexivity.
  - fold (state_dict isoformat s).
    apply NoDup_app in Hnd. destruct Hnd as (Hc & Hdisj & Hi).
    apply NoDup_cons in Hi. destruct Hi as [Hk Hi].
    rewrite dict_set_fresh.
    2:{ intros Hin. apply (Hdisj k Hin). apply list_elem_of_here. }
    rewrite IH.
    + rewrite <- app_assoc. reflexivity.
    + rewrite fmap_app. simpl. rewrite <- app_assoc. simpl.
      apply NoDup_app. split; [exact Hc|]. split.
      * intros x Hx Hin. apply elem_of_cons in Hin. destruct Hin as [->|Hin].
        -- apply (Hdisj k Hx). apply list_elem_of_here.
        -- apply (Hdisj x Hx). apply list_elem_of_further, Hin.
      * apply NoDup_cons. auto.
Qed.

Lemma load_cards_saved (items : dict CardState) :
  forall acc : dict CardState,
  NoDup (dict_keys acc ++ dict_keys items) ->
  load_cards fromisoformat ((fun x => (x.1, JDict (state_dict isoformat x.2))) <$> items) acc
  = Ok (acc ++ ((fun x => (x.1, with_card_id x.1 x.2)) <$> items)).
Proof.
  unfold dict_keys. induction items as [|[k s] items IH]; intros acc Hnd.
  - simpl. rewrite app_nil_r. reflexivity.
  - rewrite !fmap_cons in *. cbn [load_cards fst snd]. rewrite load_entry_saved.
    apply NoDup_app in Hnd. destruct Hnd as (Hc & Hdisj & Hi).
    apply NoDup_cons in Hi. destruct Hi as [Hk Hi].
    rewrite dict_set_fresh.
    2:{ intros Hin. apply (Hdisj k Hin). apply list_elem_of_here. }
    rewrite IH.
    + rewrite <- app_assoc. reflexivity.
    + rewrite fmap_app. simpl. rewrite <- app_assoc. simpl.
      apply NoDup_app. split; [exact Hc|]. split.
      * intros x Hx Hin. apply elem_of_cons in Hin. destruct Hin as [->|Hin].
        -- apply (Hdisj k Hx). apply list_elem_of_here.
        -- apply (Hdisj x Hx). apply list_elem_of_further, Hin.
      * apply NoDup_cons. auto.
Qed.

(** C8, amended. Saving a store and loading the file gives the same keys
    in the same order and, under each key, the state saved there with its
    ease factor, interval, streak and timestamps, and with the key as
    [card_id]; the store itself when every entry carries its key. *)
Theorem save_load_roundtrip (card_states : dict CardState) w :
  dict_wf card_states ->
  exists f w',
    save isoformat card_states w = Ok (f, w') /\
    load fromisoformat f
    = Ok ((fun x => (x.1, with_card_id x.1 x.2)) <$> card_states) /\
    (keyed card_states -> load fromisoformat f = Ok card_states).
Proof.
  intros Hwf. unfold save, mbind, M_bind, now, lift, mret, M_ret.
  rewrite save_cards_fresh by exact Hwf. simpl.
  eexists _, _. split; [reflexivity|].
  assert (Hload : load_cards fromisoformat
                    ((fun x => (x.1, JDict (state_dict isoformat x.2))) <$> card_states) []
                  = Ok ((fun x => (x.1, with_card_id x.1 x.2)) <$> card_states))
    by (apply load_cards_saved; exact Hwf).
  split; [exact Hload|].
  intros Hkeyed. simpl. rewrite Hload, with_card_id_keyed by assumption.
  reflexivity.
Qed.
End PersistenceFacts.

Lemma save_load_roundtrip_witness :
  (forall t, decimal_fromisoformat (decimal_isoformat t) = Ok t) /\
  (forall t, decimal_isoformat t <> ""%string) /\
  dict_wf [("174"%string, card_174)] /\
  exists f w',
    save decimal_isoformat [("174"%string, card_174)] noon = Ok (f, w') /\
    load decimal_fromisoformat f
    = Ok ((fun x => (x.1, with_card_id x.1 x.2)) <$> [("174"%string, card_174)]) /\
    (keyed [("174"%string, card_174)] ->
     load decimal_fromisoformat f = Ok [("174"%string, card_174)]).
Proof.
  assert (Hwf : dict_wf [("174"%string, card_174)]) by apply NoDup_singleton.
  split; [exact decimal_fromisoformat_isoformat|].
  split; [exact decimal_isoformat_nonempty|].
  split; [exact Hwf|].
  apply (save_load_roundtrip decimal_isoformat decimal_fromisoformat
           decimal_fromisoformat_isoformat decimal_isoformat_nonempty
           [("174"%string, card_174)] noon).
  exact Hwf.
Defined.

(** C8 as stated fails on a store that holds, under the key "a", a state
    whose [card_id] is "b": the state loaded under "a" has the [card_id]
    "a". *)
Lemma load_card_id_is_key :
  ~ (forall (card_states : dict CardState) w f w',
       dict_wf card_states ->
       save decimal_isoformat card_states w = Ok (f, w') ->
       exists loaded,
         load decimal_fromisoformat f = Ok loaded /\
         dict_keys loaded = dict_keys card_states /\
         forall k s, dict_get k card_states = Some s ->
           exists s', dict_get k loaded = Some s' /\
             card_id s' = card_id s /\
             ease_factor s' = ease_factor s /\
             interval s' = interval s /\
             repetitions s' = repetitions s).
Proof.
  intros H.
  set (s := mkCardState "b" c2_5 1 1 5 None).
  destruct (save decimal_isoformat [("a"%string, s)] noon) as [[f w']|e] eqn:Hsave;
    [|vm_compute in Hsave; discriminate].
  destruct (H [("a"%string, s)] noon f w' (NoDup_singleton _) Hsave)
    as (loaded & Hload & _ & Hget).
  destruct (Hget "a"%string s eq_refl) as (s' & Hs' & Hid & _).
  vm_compute in Hsave. injection Hsave as <- _.
  vm_compute in Hload. injection Hload as <-.
  vm_compute in Hs'. injection Hs' as <-.
  discriminate Hid.
Qed.

(** * Further properties *)

(** ** The timestamps of a review *)

Lemma datetime_add_days_Ok (t : datetime) (d : Z) (t' : datetime) :
  datetime_add_days t d = Ok t' <->
  t' = t + d * day_us /\ 0 <= t' < datetime_end /\ -999999999 <= d <= 999999999.
Proof.
  unfold datetime_add_days.
  destruct (Z.ltb_spec d (-999999999)); simpl.
  { split; [discriminate|lia]. }
  destruct (Z.ltb_spec 999999999 d); simpl.
  { split; [discriminate|lia]. }
  destruct (Z.leb_spec 0 (t + d * day_us)); simpl.
  2:{ split; [discriminate|lia]. }
  destruct (Z.ltb_spec (t + d * day_us) datetime_end).
  - split; [intros [= <-]; lia | intros (-> & _); reflexivity].
  - split; [discriminate|lia].
Qed.

(** X1. A review that returns keeps the [card_id], sets the next review to
    the first reading of the clock plus the new interval in days, a date
    within the range of [datetime], sets the last review to the second
    reading, and reads the clock no more. *)
Theorem sm2_timestamps (s : CardState) (r : Rating) w s' w' :
  sm2_algorithm s r w = Ok (s', w') ->
  card_id s' = card_id s /\
  next_review s' = w 0%nat + interval s' * day_us /\
  0 <= next_review s' < datetime_end /\
  last_reviewed s' = Some (w 1%nat) /\
  forall n, w' n = w (2 + n)%nat.
Proof.
  intros H. apply sm2_algorithm_Ok in H.
  destruct H as (ni & nr & t & _ & Ht & -> & ->). simpl.
  apply datetime_add_days_Ok in Ht. destruct Ht as (-> & Hrange & _).
  repeat split; try reflexivity; lia.
Qed.

Lemma sm2_timestamps_witness :
  sm2_algorithm card_174 EASY noon
    = Ok (mkCardState "174" c2_46 14 3 1209600001000 (Some 1000), noon) /\
  "174"%string = "174"%string /\
  1209600001000 = noon 0%nat + 14 * day_us /\
  0 <= 1209600001000 < datetime_end /\
  Some 1000 = Some (noon 1%nat) /\
  forall n, noon n = noon (2 + n)%nat.
Proof.
  split; [vm_compute; reflexivity|].
  apply (sm2_timestamps card_174 EASY noon
           (mkCardState "174" c2_46 14 3 1209600001000 (Some 1000)) noon).
  vm_compute. reflexivity.
Defined.

(** ** Reviews that cannot raise *)

(** X2. A review returns, whatever the state holds, when the rating is
    failing or the streak is 0 or 1 and the clock is read six days or more
    before [datetime.max]: only the product of the branch for longer
    streaks and the date can raise. *)
Theorem sm2_algorithm_returns (s : CardState) (r : Rating) w :
  Rating_value r < 3 \/ repetitions s = 0 \/ repetitions s = 1 ->
  0 <= w 0%nat /\ w 0%nat + 6 * day_us < datetime_end ->
  exists s',
    sm2_algorithm s r w = Ok (s', fun n => w (S (S n))) /\
    (interval s' = 1 \/ interval s' = 6).
Proof.
  intros Hc [H0 H6].
  assert (Hs : exists ni nr, schedule s r = Ok (ni, nr) /\ (ni = 1 \/ ni = 6)).
  { unfold schedule. change (Rating_value GOOD) with 3.
    destruct (Z.leb_spec 3 (Rating_value r)) as [Hr|Hr].
    - destruct (Z.eqb_spec (repetitions s) 0) as [E0|E0].
      + eexists _, _. split; [reflexivity|auto].
      + destruct (Z.eqb_spec (repetitions s) 1) as [E1|E1]; [|lia].
        eexists _, _. split; [reflexivity|auto].
    - eexists _, _. split; [reflexivity|auto]. }
  destruct Hs as (ni & nr & Hs & Hni).
  exists (mkCardState (card_id s) (ease_update (ease_factor s) (Rating_value r))
            ni nr (w 0%nat + ni * day_us) (Some (w 1%nat))).
  split; [|exact Hni].
  apply sm2_algorithm_Ok. exists ni, nr, (w 0%nat + ni * day_us).
  split; [exact Hs|]. split; [|split; reflexivity].
  apply datetime_add_days_Ok. unfold day_us in *. lia.
Qed.

Lemma sm2_algorithm_returns_witness :
  (0 < 3 \/ 2 = 0 \/ 2 = 1) /\
  (0 <= noon 0%nat /\ noon 0%nat + 6 * day_us < datetime_end) /\
  exists s',
    sm2_algorithm card_174 AGAIN noon = Ok (s', fun n => noon (S (S n))) /\
    (interval s' = 1 \/ interval s' = 6).
Proof.
  split; [lia|]. split; [vm_compute; split; [discriminate|reflexivity]|].
  apply (sm2_algorithm_returns card_174 AGAIN noon).
  - left. simpl. lia.
  - vm_compute. split; [discriminate|reflexivity].
Defined.

(** ** Reviews that raise *)

Lemma schedule_long_streak (s : CardState) (r : Rating) :
  3 <= Rating_value r -> repetitions s <> 0 -> repetitions s <> 1 ->
  schedule s r =
  (ni ← (int_mul_float (interval s) (ease_factor s) ≫= py_round);
   Ok (ni, repetitions s + 1)).
Proof.
  intros Hr H0 H1. unfold schedule. change (Rating_value GOOD) with 3.
  destruct (Z.leb_spec 3 (Rating_value r)); [|lia].
  destruct (Z.eqb_spec (repetitions s) 0); [contradiction|].
  destruct (Z.eqb_spec (repetitions s) 1); [contradiction|].
  reflexivity.
Qed.

Lemma mul_nan_r (x : float) : mul x S754_nan = S754_nan.
Proof. destruct x; reflexivity. Qed.

(** X3. Past a streak of 1, a qualifying review of a state whose ease
    factor is not a finite number raises: [ValueError] for a NaN, when the
    interval converts to a float, and for an infinity with the interval 0;
    [OverflowError] for an infinity with an interval of 1 or more. *)
Theorem sm2_nonfinite_ease (s : CardState) (r : Rating) w :
  3 <= Rating_value r -> repetitions s <> 0 -> repetitions s <> 1 ->
  (ease_factor s = S754_nan ->
   (exists x, int_to_float (interval s) = Ok x) ->
   sm2_algorithm s r w = Raise ValueError) /\
  (forall sg, ease_factor s = S754_infinity sg ->
     (interval s = 0 -> sm2_algorithm s r w = Raise ValueError) /\
     (1 <= interval s -> sm2_algorithm s r w = Raise OverflowError)).
Proof.
  intros Hr H0 H1. rewrite sm2_algorithm_run, schedule_long_streak by assumption.
  unfold int_mul_float. split.
  - intros -> [x ->]. simpl. rewrite mul_nan_r. reflexivity.
  - intros sg ->. split.
    + intros ->. reflexivity.
    + intros Hi. pose proof (of_Z_at_least_one _ Hi) as Hx.
      unfold int_to_float. destruct (of_Z (interval s)) as [| [] | | [] m e];
        simpl in Hx; try contradiction; reflexivity.
Qed.

Lemma sm2_nonfinite_ease_witness :
  3 <= 3 /\ 2 <> 0 /\ 2 <> 1 /\
  (S754_nan = S754_nan ->
   (exists x, int_to_float 6 = Ok x) ->
   sm2_algorithm (mkCardState "174" S754_nan 6 2 0 None) GOOD noon
   = Raise ValueError) /\
  (forall sg, S754_nan = S754_infinity sg ->
     (6 = 0 ->
      sm2_algorithm (mkCardState "174" S754_nan 6 2 0 None) GOOD noon
      = Raise ValueError) /\
     (1 <= 6 ->
      sm2_algorithm (mkCardState "174" S754_nan 6 2 0 None) GOOD noon
      = Raise OverflowError)).
Proof.
  split; [lia|]. split; [lia|]. split; [lia|].
  apply (sm2_nonfinite_ease (mkCardState "174" S754_nan 6 2 0 None) GOOD noon);
    simpl; lia.
Defined.

(** ** The keys of the store *)

Section DictSetFacts.
Context {V : Type}.
Implicit Types (d : dict V) (k : string) (v : V).

Lemma dict_set_present k v v0 d :
  dict_get k d = Some v0 -> dict_keys (dict_set k v d) = dict_keys d.
Proof.
  unfold dict_keys. induction d as [|[k' v'] d IH]; simpl; [discriminate|].
  destruct (String.eqb_spec k k') as [->|Hne]; [reflexivity|].
  intros H. simpl. f_equal. apply IH, H.
Qed.

Lemma dict_set_absent k v d :
  dict_get k d = None -> dict_keys (dict_set k v d) = dict_keys d ++ [k].
Proof.
  intros H. apply dict_get_None in H. rewrite dict_set_fresh by exact H.
  unfold dict_keys. rewrite fmap_app. reflexivity.
Qed.

Lemma dict_set_wf k v d : dict_wf d -> dict_wf (dict_set k v d).
Proof.
  unfold dict_wf. intros Hwf. destruct (dict_get k d) as [v0|] eqn:E.
  - rewrite (dict_set_present _ _ _ _ E). exact Hwf.
  - rewrite (dict_set_absent _ _ _ E). apply NoDup_app.
    split; [exact Hwf|]. split; [|apply NoDup_singleton].
    intros x Hx Hin. apply list_elem_of_singleton in Hin. subst x.
    apply dict_get_None in E. contradiction.
Qed.

Lemma dict_keys_elem_of k d :
  k ∈ dict_keys d <-> exists v, (k, v) ∈ d.
Proof.
  unfold dict_keys. rewrite list_elem_of_fmap. split.
  - intros ([k' v] & -> & Hin). exists v. exact Hin.
  - intros (v & Hin). exists (k, v). auto.
Qed.
End DictSetFacts.

Lemma dict_set_keyed (k : string) (s : CardState) (d : dict CardState) :
  card_id s = k -> keyed d -> keyed (dict_set k s d).
Proof.
  intros Hk Hd k' s'. destruct (String.eqb_spec k k') as [<-|Hne].
  - rewrite dict_get_set_eq. intros [= <-]. exact Hk.
  - rewrite dict_get_set_ne by exact Hne. apply Hd.
Qed.

(** X4. A review of a card that has a state keeps the keys of the store
    and their order; a review of a new card adds its key at the end. The
    keys stay pairwise distinct. *)
Theorem review_card_keys (self : Scheduler) (cid : string) (r : Rating)
    w st self' w' :
  review_card self cid r w = Ok (st, self', w') ->
  dict_keys (card_states self') =
    match get_state self cid with
    | Some _ => dict_keys (card_states self)
    | None => dict_keys (card_states self) ++ [cid]
    end /\
  (dict_wf (card_states self) -> dict_wf (card_states self')).
Proof.
  intros H. apply review_card_Ok in H. destruct H as [_ ->]. simpl.
  unfold get_state. split; [|apply dict_set_wf].
  destruct (dict_get cid (card_states self)) eqn:E.
  - eapply dict_set_present, E.
  - apply dict_set_absent, E.
Qed.

Lemma review_card_keys_witness :
  review_card three_cards "174" AGAIN noon
  = Ok (mkCardState "174" (S754_finite false 7656119366529844 (-52)) 1 0
          86400001000 (Some 1000),
        mkScheduler
          [ ("3356"%string, mkCardState "3356" c2_5 1 1 5 None);
            ("174"%string,
              mkCardState "174" (S754_finite false 7656119366529844 (-52)) 1 0
                86400001000 (Some 1000));
            ("714"%string, mkCardState "714" c2_5 6 2 3000 None) ],
        noon) /\
  ["3356"; "174"; "714"]%string =
    match get_state three_cards "174" with
    | Some _ => dict_keys (card_states three_cards)
    | None => dict_keys (card_states three_cards) ++ ["174"%string]
    end /\
  (dict_wf (card_states three_cards) ->
   dict_wf
     [ ("3356"%string, mkCardState "3356" c2_5 1 1 5 None);
       ("174"%string,
         mkCardState "174" (S754_finite false 7656119366529844 (-52)) 1 0
           86400001000 (Some 1000));
       ("714"%string, mkCardState "714" c2_5 6 2 3000 None) ]).
Proof.
  split; [vm_compute; reflexivity|].
  apply (review_card_keys three_cards "174" AGAIN noon
           (mkCardState "174" (S754_finite false 7656119366529844 (-52)) 1 0
              86400001000 (Some 1000))
           (mkScheduler
              [ ("3356"%string, mkCardState "3356" c2_5 1 1 5 None);
                ("174"%string,
                  mkCardState "174" (S754_finite false 7656119366529844 (-52))
                    1 0 86400001000 (Some 1000));
                ("714"%string, mkCardState "714" c2_5 6 2 3000 None) ])
           noon).
  vm_compute. reflexivity.
Defined.

(** ** The store of a running application *)

Lemma schedule_repetitions (s : CardState) (r : Rating) (ni nr : Z) :
  schedule s r = Ok (ni, nr) -> 0 <= repetitions s -> 0 <= nr.
Proof.
  unfold schedule. destruct (Rating_value GOOD <=? Rating_value r).
  - intros H. apply result_bind_Ok in H. destruct H as (i & _ & [= <- <-]). lia.
  - intros [= <- <-]. lia.
Qed.

Lemma review_card_store_inv (self : Scheduler) (cid : string) (r : Rating)
    w st self' w' :
  store_inv (card_states self) ->
  review_card self cid r w = Ok (st, self', w') ->
  store_inv (card_states self').
Proof.
  intros (Hwf & Hkeyed & Hall) H.
  pose proof H as H'. apply review_card_Ok in H'. destruct H' as [Hrun ->].
  simpl. split; [apply dict_set_wf, Hwf|].
  assert (Hcur : card_id st = cid /\ 0 <= repetitions st).
  { pose proof Hrun as Hrun'. apply sm2_algorithm_Ok in Hrun'.
    destruct Hrun' as (ni & nr & t & Hs & _ & -> & _). simpl.
    destruct (dict_get cid (card_states self)) as [s|] eqn:E; simpl in *.
    - split; [apply Hkeyed, E|]. eapply schedule_repetitions; [exact Hs|].
      apply dict_get_Some in E. rewrite Forall_forall in Hall.
      apply (Hall _ E).
    - split; [reflexivity|]. eapply schedule_repetitions; [exact Hs|]. simpl. lia. }
  destruct Hcur as [Hid Hrep].
  split; [apply dict_set_keyed; assumption|].
  assert (Hinv : Forall (fun x => card_inv x.2) (card_states self)).
  { eapply Forall_impl; [exact Hall|]. intros x [Hx _]. exact Hx. }
  destruct (review_card_card_inv _ _ _ _ _ _ _ Hinv H) as [Hst _].
  apply (dict_set_Forall (fun s => card_inv s /\ 0 <= repetitions s));
    [split|]; assumption.
Qed.

(** X5. Every sequence of reviews that returns keeps the store of the
    application well formed: distinct keys, each state carrying its key as
    [card_id], an ease factor that is a binary64 value of 1.3 or more, an
    interval of 1 or more and a streak of 0 or more. The empty store is
    well formed. *)
Theorem review_all_store_inv (reviews : list (string * Rating)) :
  forall (self : Scheduler) w self' w',
  store_inv (card_states self) ->
  review_all reviews self w = Ok (self', w') ->
  store_inv (card_states self').
Proof.
  induction reviews as [|[cid r] reviews IH]; intros self w self' w' Hinv; simpl.
  - intros [= <- _]. exact Hinv.
  - unfold mbind at 1, M_bind at 1.
    destruct (review_card self cid r w) as [[[st self1] w1]|e] eqn:E;
      [|discriminate].
    intros H. eapply IH; [|exact H].
    eapply review_card_store_inv; eassumption.
Qed.

Lemma store_inv_empty : store_inv [].
Proof.
  split; [apply NoDup_nil_2|]. split; [|constructor].
  intros k s. discriminate.
Qed.

Lemma review_all_store_inv_witness :
  store_inv (card_states (mkScheduler [])) /\
  exists self' w',
    review_all [("174"%string, GOOD); ("3356"%string, AGAIN); ("174"%string, EASY)]
      (mkScheduler []) noon = Ok (self', w') /\
    store_inv (card_states self').
Proof.
  split; [exact store_inv_empty|].
  eexists _, _. split; [vm_compute; reflexivity|].
  apply (review_all_store_inv
           [("174"%string, GOOD); ("3356"%string, AGAIN); ("174"%string, EASY)]
           (mkScheduler []) noon _ noon).
  - exact store_inv_empty.
  - vm_compute. reflexivity.
Defined.

(** ** What a review can raise *)

Lemma schedule_raises (s : CardState) (r : Rating) (e : exn) :
  repetitions s = 0 \/ repetitions s = 1 \/ card_inv s ->
  schedule s r = Raise e -> e = OverflowError.
Proof.
  intros Hc. unfold schedule.
  destruct (Rating_value GOOD <=? Rating_value r); [|discriminate].
  destruct (Z.eqb_spec (repetitions s) 0); [discriminate|].
  destruct (Z.eqb_spec (repetitions s) 1); [discriminate|].
  destruct Hc as [Hc|[Hc|(Hv & He & Hi)]]; try contradiction.
  unfold int_mul_float, int_to_float, mbind, result_bind.
  pose proof (of_Z_at_least_one _ Hi) as Hf.
  pose proof (leb_c1_3_at_least_one _ Hv He) as Hx.
  pose proof (mul_at_least_one _ _ Hf Hx) as Hm.
  destruct (of_Z (interval s)) as [|[]| |[] m e0];
    simpl in Hf; try contradiction; [congruence|].
  destruct (mul (S754_finite false m e0) (ease_factor s)) as [|[]| |[] m' e'];
    simpl in Hm; try contradiction; simpl; congruence.
Qed.

(** X6. On a store whose states have an ease factor that is a binary64
    value of 1.3 or more and an interval of 1 or more, as reviews leave
    it, [review_card] raises nothing but [OverflowError], for an interval
    or a date out of range: no [ValueError], whatever the card and the
    rating. *)
Theorem review_card_raises (self : Scheduler) (cid : string) (r : Rating) w
    (e : exn) :
  Forall (fun x => card_inv x.2) (card_states self) ->
  review_card self cid r w = Raise e ->
  e = OverflowError.
Proof.
  intros Hinv. rewrite review_card_run, sm2_algorithm_run.
  set (s := default (mkCardState cid c2_5 0 0 (w 0%nat) None)
                    (dict_get cid (card_states self))).
  assert (Hs : repetitions s = 0 \/ repetitions s = 1 \/ card_inv s).
  { unfold s. destruct (dict_get cid (card_states self)) as [s0|] eqn:E; simpl.
    - right. right. apply dict_get_Some in E. rewrite Forall_forall in Hinv.
      apply (Hinv _ E).
    - left. reflexivity. }
  destruct (schedule s r) as [[ni nr]|e0] eqn:Es.
  - destruct (datetime_add_days (w 1%nat) ni) as [t|e1] eqn:Et; [discriminate|].
    intros [= <-]. eapply datetime_add_days_raises, Et.
  - intros [= <-]. eapply schedule_raises; eassumption.
Qed.

Lemma review_card_raises_witness :
  Forall (fun x => card_inv x.2)
    [("174"%string, mkCardState "174" c2_5 2000000000 2 0 None)] /\
  review_card
    (mkScheduler [("174"%string, mkCardState "174" c2_5 2000000000 2 0 None)])
    "174" GOOD noon
  = Raise OverflowError /\
  OverflowError = OverflowError.
Proof.
  assert (Hinv : Forall (fun x => card_inv x.2)
                   [("174"%string, mkCardState "174" c2_5 2000000000 2 0 None)]).
  { repeat constructor; vm_compute; congruence. }
  split; [exact Hinv|]. split; [vm_compute; reflexivity|].
  apply (review_card_raises
           (mkScheduler
              [("174"%string, mkCardState "174" c2_5 2000000000 2 0 None)])
           "174" GOOD noon OverflowError Hinv).
  vm_compute. reflexivity.
Defined.

(** ** Due cards, whatever the clock *)

Lemma due_items_clock (items : list (string * CardState)) :
  forall w due w',
  due_items items w = Ok (due, w') ->
  due `sublist_of` items /\ forall n, w' n = w (length items + n)%nat.
Proof.
  induction items as [|[cid s] items IH]; intros w due w'; simpl.
  - intros [= <- <-]. split; [reflexivity|]. intros n. reflexivity.
  - unfold mbind at 1, M_bind at 1. rewrite is_due_run.
    unfold mbind, M_bind, mret, M_ret.
    destruct (due_items items (fun n => w (S n))) as [[tl w1]|e] eqn:Etl;
      [|discriminate].
    intros [= <- <-]. destruct (IH _ _ _ Etl) as [Hsub Hw].
    split.
    + destruct (next_review s <=? w 0%nat);
        [apply sublist_skip|apply sublist_cons]; exact Hsub.
    + intros n. rewrite Hw. reflexivity.
Qed.

Lemma get_due_cards_run (self : Scheduler) w :
  exists scanned w',
    due_items (card_states self) w = Ok (scanned, w') /\
    get_due_cards self w
    = Ok ((list_sort (fun x => next_review x.2) scanned).*1, w').
Proof.
  destruct (due_items_total (card_states self) w) as (scanned & w' & Hrun).
  exists scanned, w'. split; [exact Hrun|].
  unfold get_due_cards, mbind, M_bind. rewrite Hrun. reflexivity.
Qed.

Section StableSort.
Context {A : Type} (key : A -> Z).

Lemma insert_by_key_stable (k : Z) (x : A) (l : list A) :
  filter (fun y => key y = k) (insert_by_key key x l)
  = filter (fun y => key y = k) (x :: l).
Proof.
  induction l as [|y l IH]; simpl; [reflexivity|].
  destruct (Z.leb_spec (key x) (key y)) as [Hle|Hgt]; [reflexivity|].
  rewrite filter_cons, IH, !filter_cons.
  destruct (decide (key y = k)), (decide (key x = k)); try reflexivity. lia.
Qed.

Lemma list_sort_stable (k : Z) (l : list A) :
  filter (fun y => key y = k) (list_sort key l) = filter (fun y => key y = k) l.
Proof.
  induction l as [|x l IH]; simpl; [reflexivity|].
  rewrite insert_by_key_stable, !filter_cons, IH. reflexivity.
Qed.
End StableSort.

(** X7. The due cards come by next review and, among cards with the same
    next review, in the order of the store: a result of the call lists a
    rearrangement, sorted by next review, of the stored cards that the
    scan found due, and the cards of any one next review are in it as the
    scan met them. *)
Theorem get_due_cards_stable (self : Scheduler) w ids w' :
  get_due_cards self w = Ok (ids, w') ->
  exists scanned due,
    due_items (card_states self) w = Ok (scanned, w') /\
    scanned `sublist_of` card_states self /\
    ids = due.*1 /\
    due ≡ₚ scanned /\
    Sorted (fun a b => next_review a.2 <= next_review b.2) due /\
    forall t, filter (fun x => next_review x.2 = t) due
              = filter (fun x => next_review x.2 = t) scanned.
Proof.
  intros H.
  destruct (get_due_cards_run self w) as (scanned & w1 & Hscan & Hrun).
  rewrite Hrun in H. injection H as <- <-.
  exists scanned, (list_sort (fun x => next_review x.2) scanned).
  split; [exact Hscan|]. split; [eapply due_items_clock, Hscan|].
  split; [reflexivity|]. split; [apply list_sort_perm|].
  split; [apply (list_sort_sorted (fun x : string * CardState => next_review x.2))|].
  intros t. apply (list_sort_stable (fun x : string * CardState => next_review x.2)).
Qed.

(** Cards "3356" and "714" are due at the same instant and "174" before:
    "174" comes first, then the two in the order of the store. *)
Lemma get_due_cards_stable_witness :
  get_due_cards tied_cards noon = Ok (["174"; "3356"; "714"]%string, noon) /\
  exists scanned due,
    due_items (card_states tied_cards) noon = Ok (scanned, noon) /\
    scanned `sublist_of` card_states tied_cards /\
    ["174"; "3356"; "714"]%string = due.*1 /\
    due ≡ₚ scanned /\
    Sorted (fun a b => next_review a.2 <= next_review b.2) due /\
    forall t, filter (fun x => next_review x.2 = t) due
              = filter (fun x => next_review x.2 = t) scanned.
Proof.
  split; [vm_compute; reflexivity|].
  apply (get_due_cards_stable tied_cards noon ["174"; "3356"; "714"]%string noon).
  vm_compute. reflexivity.
Defined.

(** X8. With a clock that never goes back, the call reads the clock once
    per stored card, returns keys of the store only, among them every card
    that is due at the first reading, and no card that is not yet due at
    the last reading. *)
Theorem get_due_cards_moving (self : Scheduler) w :
  (forall i j : nat, (i <= j)%nat -> w i <= w j) ->
  exists ids w',
    get_due_cards self w = Ok (ids, w') /\
    (forall n, w' n = w (length (card_states self) + n)%nat) /\
    (forall cid s, (cid, s) ∈ card_states self ->
       next_review s <= w 0%nat -> cid ∈ ids) /\
    (forall cid, cid ∈ ids ->
       exists s, (cid, s) ∈ card_states self /\
         next_review s <= w (Nat.pred (length (card_states self)))).
Proof.
  intros Hmono.
  destruct (get_due_cards_run self w) as (scanned & w' & Hscan & Hrun).
  destruct (due_items_moving _ _ _ _ Hmono Hscan) as [Hin Hout].
  pose proof (list_sort_perm (fun x : string * CardState => next_review x.2) scanned)
    as Hperm.
  eexists _, w'. split; [exact Hrun|].
  split; [eapply due_items_clock, Hscan|]. split.
  - intros cid s Hs Hdue. apply list_elem_of_fmap. exists (cid, s).
    split; [reflexivity|]. rewrite Hperm. apply Hin; assumption.
  - intros cid Hcid. apply list_elem_of_fmap in Hcid.
    destruct Hcid as ([c s] & -> & Hx). rewrite Hperm in Hx.
    exists s. apply Hout in Hx. exact Hx.
Qed.

Lemma get_due_cards_moving_witness :
  (forall i j : nat, (i <= j)%nat -> noon i <= noon j) /\
  exists ids w',
    get_due_cards three_cards noon = Ok (ids, w') /\
    (forall n, w' n = noon (length (card_states three_cards) + n)%nat) /\
    (forall cid s, (cid, s) ∈ card_states three_cards ->
       next_review s <= noon 0%nat -> cid ∈ ids) /\
    (forall cid, cid ∈ ids ->
       exists s, (cid, s) ∈ card_states three_cards /\
         next_review s <= noon (Nat.pred (length (card_states three_cards)))).
Proof.
  split; [intros i j _; reflexivity|].
  apply (get_due_cards_moving three_cards noon). intros i j _. reflexivity.
Defined.

(** ** A card that has just been reviewed *)

Lemma get_due_cards_frozen (self : Scheduler) w (t : datetime) :
  (forall n, w n = t) ->
  exists ids w',
    get_due_cards self w = Ok (ids, w') /\
    forall cid, cid ∈ ids <->
      exists s, (cid, s) ∈ card_states self /\ next_review s <= t.
Proof.
  intros Hw. destruct (due_items_frozen (card_states self) t w Hw) as (w' & Hrun & _).
  pose proof (list_sort_perm (fun x : string * CardState => next_review x.2)
                (filter (fun x => next_review x.2 <= t) (card_states self)))
    as Hperm.
  eexists _, w'. split.
  - unfold get_due_cards, mbind, M_bind. rewrite Hrun. reflexivity.
  - intros cid. rewrite list_elem_of_fmap. split.
    + intros ([c s] & -> & Hin). rewrite Hperm in Hin.
      apply list_elem_of_filter in Hin. exists s. simpl in *. tauto.
    + intros (s & Hin & Hdue). exists (cid, s). split; [reflexivity|].
      rewrite Hperm. apply list_elem_of_filter. auto.
Qed.

(** X9. After a review the card is due from the second reading of the
    clock by [review_card] plus its new interval in days, and not before:
    with the clock standing at [t], [get_due_cards] on the store that
    the review leaves lists the card exactly when that date is at [t] or
    before; one day after the review for a failing rating. *)
Theorem reviewed_card_due (self : Scheduler) (cid : string) (r : Rating)
    w st self' w' (t : datetime) w2 :
  dict_wf (card_states self) ->
  review_card self cid r w = Ok (st, self', w') ->
  (forall n, w2 n = t) ->
  exists ids w3,
    get_due_cards self' w2 = Ok (ids, w3) /\
    (cid ∈ ids <-> w 1%nat + interval st * day_us <= t) /\
    (Rating_value r < 3 -> (cid ∈ ids <-> w 1%nat + day_us <= t)).
Proof.
  intros Hwf H Hw2.
  pose proof H as H'. apply review_card_Ok in H'. destruct H' as [Hrun ->].
  assert (Hnext : next_review st = w 1%nat + interval st * day_us).
  { apply sm2_algorithm_Ok in Hrun.
    destruct Hrun as (ni & nr & t0 & _ & Ht & -> & _). simpl.
    apply datetime_add_days_Ok in Ht. tauto. }
  assert (Hfail : Rating_value r < 3 -> interval st = 1).
  { intros Hr. apply sm2_algorithm_Ok in Hrun.
    destruct Hrun as (ni & nr & t0 & Hs & _ & -> & _). simpl.
    unfold schedule in Hs. change (Rating_value GOOD) with 3 in Hs.
    destruct (Z.leb_spec 3 (Rating_value r)); [lia|]. congruence. }
  set (store := dict_set cid st (card_states self)).
  assert (Hwf' : dict_wf store) by apply dict_set_wf, Hwf.
  destruct (get_due_cards_frozen (mkScheduler store) w2 t Hw2)
    as (ids & w3 & Hdue & Hids).
  assert (Hcid : cid ∈ ids <-> w 1%nat + interval st * day_us <= t).
  { rewrite Hids, <- Hnext. simpl. split.
    - intros (s & Hin & Hle). apply (dict_get_elem_of _ _ _ Hwf') in Hin.
      unfold store in Hin. rewrite dict_get_set_eq in Hin. congruence.
    - intros Hle. exists st. split; [|exact Hle].
      apply dict_get_Some. apply dict_get_set_eq. }
  exists ids, w3. split; [exact Hdue|]. split; [exact Hcid|].
  intros Hr. rewrite Hcid, (Hfail Hr). lia.
Qed.

Lemma reviewed_card_due_witness :
  dict_wf (card_states three_cards) /\
  review_card three_cards "174" AGAIN noon
  = Ok (mkCardState "174" (S754_finite false 7656119366529844 (-52)) 1 0
          86400001000 (Some 1000),
        mkScheduler
          [ ("3356"%string, mkCardState "3356" c2_5 1 1 5 None);
            ("174"%string,
              mkCardState "174" (S754_finite false 7656119366529844 (-52)) 1 0
                86400001000 (Some 1000));
            ("714"%string, mkCardState "714" c2_5 6 2 3000 None) ],
        noon) /\
  (forall n, noon n = 1000) /\
  exists ids w3,
    get_due_cards
      (mkScheduler
         [ ("3356"%string, mkCardState "3356" c2_5 1 1 5 None);
           ("174"%string,
             mkCardState "174" (S754_finite false 7656119366529844 (-52)) 1 0
               86400001000 (Some 1000));
           ("714"%string, mkCardState "714" c2_5 6 2 3000 None) ]) noon
    = Ok (ids, w3) /\
    ("174"%string ∈ ids <-> noon 1%nat + 1 * day_us <= 1000) /\
    (0 < 3 -> ("174"%string ∈ ids <-> noon 1%nat + day_us <= 1000)).
Proof.
  assert (Hwf : dict_wf (card_states three_cards)).
  { apply (bool_decide_unpack _). vm_compute. exact I. }
  split; [exact Hwf|]. split; [vm_compute; reflexivity|].
  split; [reflexivity|].
  apply (reviewed_card_due three_cards "174" AGAIN noon
           (mkCardState "174" (S754_finite false 7656119366529844 (-52)) 1 0
              86400001000 (Some 1000))
           (mkScheduler
              [ ("3356"%string, mkCardState "3356" c2_5 1 1 5 None);
                ("174"%string,
                  mkCardState "174" (S754_finite false 7656119366529844 (-52))
                    1 0 86400001000 (Some 1000));
                ("714"%string, mkCardState "714" c2_5 6 2 3000 None) ])
           noon 1000 noon).
  - exact Hwf.
  - vm_compute. reflexivity.
  - reflexivity.
Defined.

Lemma filter_filter_ne (cid : string) (P : string -> Prop)
    `{!forall x, Decision (P x)} (keys : list string) (ids : list string) :
  filter (fun c => c ∉ keys ++ [cid]) ids
  = filter (fun c => c <> cid) (filter (fun c => c ∉ keys) ids).
Proof.
  induction ids as [|c ids IH]; [reflexivity|].
  rewrite (filter_cons (fun c => c ∉ keys)), (filter_cons (fun c => c ∉ keys ++ [cid])).
  destruct (decide (c ∉ keys ++ [cid])) as [Hout|Hin];
    destruct (decide (c ∉ keys)) as [Hout'|Hin'].
  - rewrite filter_cons_True, IH; [reflexivity|].
    intros ->. apply Hout. apply elem_of_app. right. apply list_elem_of_here.
  - exfalso. apply Hin'. intros Hc. apply Hout, elem_of_app. auto.
  - rewrite filter_cons_False, IH; [reflexivity|].
    intros Hne. apply Hin. intros Hc. apply elem_of_app in Hc.
    destruct Hc as [Hc|Hc]; [contradiction|].
    apply list_elem_of_singleton in Hc. contradiction.
  - exact IH.
Qed.

Lemma get_new_cards_filter (self : Scheduler) (all_card_ids : list string)
    (limit : Z) :
  get_new_cards self all_card_ids limit
  = slice_to (filter (fun c => c ∉ dict_keys (card_states self)) all_card_ids)
      limit.
Proof.
  unfold get_new_cards. f_equal. apply list_filter_iff. intros c.
  rewrite elem_of_list_to_set. tauto.
Qed.

Lemma slice_to_subseteq {A : Type} (l : list A) (limit : Z) :
  slice_to l limit ⊆ l.
Proof. unfold slice_to. destruct (0 <=? limit); apply subseteq_take. Qed.

(** X10. A card that has been reviewed is new no more: whatever the limit,
    [get_new_cards] on the store that the review leaves does not return
    its id, and returns the slice of what were the unseen ids before the
    review, that id removed. *)
Theorem reviewed_card_not_new (self : Scheduler) (cid : string) (r : Rating)
    w st self' w' (all_card_ids : list string) (limit : Z) :
  review_card self cid r w = Ok (st, self', w') ->
  (cid ∉ get_new_cards self' all_card_ids limit) /\
  get_new_cards self' all_card_ids limit
  = slice_to
      (filter (fun c => c <> cid)
         (filter (fun c => c ∉ dict_keys (card_states self)) all_card_ids))
      limit.
Proof.
  intros H. apply review_card_Ok in H. destruct H as [_ ->].
  assert (E : get_new_cards
                (mkScheduler (dict_set cid st (card_states self)))
                all_card_ids limit
              = slice_to
                  (filter (fun c => c <> cid)
                     (filter (fun c => c ∉ dict_keys (card_states self))
                        all_card_ids)) limit).
  { rewrite get_new_cards_filter. simpl. f_equal.
    destruct (dict_get cid (card_states self)) as [s|] eqn:Eg.
    - rewrite (dict_set_present _ _ _ _ Eg).
      rewrite list_filter_filter. apply list_filter_iff. intros c.
      split; [|tauto]. intros Hc. split; [|exact Hc]. intros ->.
      apply Hc. apply dict_keys_elem_of. exists s. apply dict_get_Some, Eg.
    - rewrite (dict_set_absent _ _ _ Eg).
      apply (filter_filter_ne cid (fun _ => True)). }
  split; [|exact E]. rewrite E. intros Hin.
  apply slice_to_subseteq, list_elem_of_filter in Hin. tauto.
Qed.

Lemma reviewed_card_not_new_witness :
  exists st self' w',
    review_card (mkScheduler []) "174" GOOD noon = Ok (st, self', w') /\
    get_new_cards self' four_ids 2 = ["3356"; "2914"]%string /\
    ("174"%string ∉ get_new_cards self' four_ids 2) /\
    get_new_cards self' four_ids 2
    = slice_to
        (filter (fun c => c <> "174"%string)
           (filter (fun c => c ∉ dict_keys (card_states (mkScheduler [])))
              four_ids))
        2.
Proof.
  destruct (review_card (mkScheduler []) "174" GOOD noon)
    as [[[st self'] w']|e] eqn:Hrun; [|vm_compute in Hrun; discriminate].
  exists st, self', w'. split; [reflexivity|]. split.
  - vm_compute in Hrun. injection Hrun as <- <- <-. vm_compute. reflexivity.
  - apply (reviewed_card_not_new (mkScheduler []) "174" GOOD noon st self' w'
             four_ids 2 Hrun).
Defined.

(** ** Limits of [get_new_cards] outside the range of the design *)



Lemma filter_not_elem_of_nil (ids : list string) :
  filter (fun c => c ∉ @nil string) ids = ids.
Proof.
  induction ids as [|c ids IH]; [reflexivity|].
  rewrite filter_cons_True by apply not_elem_of_nil. f_equal. exact IH.
Qed.

(** X12. With a limit that is no less than the number of unseen ids, all
    of them are returned, an id as many times as [all_card_ids] lists it;
    on the empty store that is [all_card_ids] itself. *)
Theorem get_new_cards_all (self : Scheduler) (all_card_ids : list string)
    (limit : Z) :
  Z.of_nat (length (filter (fun c => c ∉ dict_keys (card_states self))
                      all_card_ids)) <= limit ->
  get_new_cards self all_card_ids limit
  = filter (fun c => c ∉ dict_keys (card_states self)) all_card_ids /\
  (card_states self = [] -> get_new_cards self all_card_ids limit = all_card_ids).
Proof.
  intros Hlimit.
  assert (E : get_new_cards self all_card_ids limit
              = filter (fun c => c ∉ dict_keys (card_states self)) all_card_ids).
  { rewrite get_new_cards_filter. unfold slice_to.
    destruct (Z.leb_spec 0 limit); [|lia]. apply take_ge. lia. }
  split; [exact E|]. intros Hempty. rewrite E, Hempty.
  apply filter_not_elem_of_nil.
Qed.

Lemma get_new_cards_all_witness :
  Z.of_nat (length (filter (fun c => c ∉ dict_keys (card_states three_cards))
                      ["2914"; "174"; "2914"]%string)) <= 10 /\
  get_new_cards three_cards ["2914"; "174"; "2914"]%string 10
  = filter (fun c => c ∉ dict_keys (card_states three_cards))
      ["2914"; "174"; "2914"]%string /\
  (card_states three_cards = [] ->
   get_new_cards three_cards ["2914"; "174"; "2914"]%string 10
   = ["2914"; "174"; "2914"]%string).
Proof.
  assert (H : Z.of_nat
                (length (filter (fun c => c ∉ dict_keys (card_states three_cards))
                           ["2914"; "174"; "2914"]%string)) <= 10)
    by (vm_compute; discriminate).
  split; [exact H|].
  apply (get_new_cards_all three_cards ["2914"; "174"; "2914"]%string 10 H).
Defined.

(** ** Statistics *)

Lemma count_due_due_items (items : list (string * CardState)) :
  forall w, exists due w',
    due_items items w = Ok (due, w') /\
    count_due (items.*2) w = Ok (Z.of_nat (length due), w').
Proof.
  induction items as [|[cid s] items IH]; intros w.
  - eexists _, _. split; reflexivity.
  - rewrite fmap_cons. cbn [due_items count_due snd].
    unfold mbind at 1 3, M_bind at 1 3. rewrite is_due_run.
    destruct (IH (fun n => w (S n))) as (due & w' & Hdue & Hcount).
    unfold mbind, M_bind, mret, M_ret. rewrite Hdue, Hcount.
    eexists _, _. split; [reflexivity|].
    destruct (next_review s <=? w 0%nat); [|reflexivity].
    f_equal. f_equal. simpl length. lia.
Qed.

Lemma count_mastered_values (d : dict CardState) :
  count_mastered (d.*2)
  = Z.of_nat (length (filter (fun x => 3 <= repetitions x.2) d)).
Proof.
  unfold count_mastered. f_equal. induction d as [|[k s] d IH]; [reflexivity|].
  rewrite fmap_cons, !filter_cons. simpl.
  destruct (decide (3 <= repetitions s)); simpl; rewrite IH; reflexivity.
Qed.

Lemma get_statistics_Ok (float_sum : list float -> float) (self : Scheduler)
    w st w' :
  get_statistics float_sum self w = Ok (st, w') ->
  exists due avg,
    due_items (card_states self) w = Ok (due, w') /\
    st = mkStatistics (Z.of_nat (length (card_states self)))
           (Z.of_nat (length due))
           (count_mastered (card_states self).*2)
           (Z.of_nat (length (card_states self))
            - count_mastered (card_states self).*2)
           avg.
Proof.
  unfold get_statistics. destruct (card_states self) as [|x rest] eqn:E.
  - intros [= <- <-]. exists [], (S754_zero false). split; reflexivity.
  - rewrite <- E. unfold mbind at 1, M_bind at 1.
    destruct (count_due_due_items (card_states self) w) as (due & w1 & Hdue & ->).
    unfold mbind, M_bind, lift, mret, M_ret.
    destruct (float_div_pos _ _) as [avg|e]; [|discriminate].
    destruct (py_round_2 avg) as [rounded|e]; [|discriminate].
    intros [= <- <-]. exists due, rounded. split; [exact Hdue|].
    rewrite E. simpl length. rewrite <- E.
    rewrite Znat.Zpos_P_of_succ_nat, <- Nat2Z.inj_succ. reflexivity.
Qed.

(** X13. On the empty store the statistics are all 0, the average 0.0,
    and the clock is not read. When the call returns, [total_studied] is
    the number of stored cards, [mastered] the number of those with a
    streak of 3 or more, [learning] the rest, so that
    [mastered + learning = total_studied]; [due_today] is between 0 and
    [total_studied]; the clock has been read once per card. This holds
    for any way of summing the ease factors. *)
Theorem get_statistics_counts (float_sum : list float -> float)
    (self : Scheduler) w :
  (card_states self = [] ->
   get_statistics float_sum self w
   = Ok (mkStatistics 0 0 0 0 (S754_zero false), w)) /\
  (forall st w',
     get_statistics float_sum self w = Ok (st, w') ->
     total_studied st = Z.of_nat (length (card_states self)) /\
     mastered st
     = Z.of_nat (length (filter (fun x => 3 <= repetitions x.2)
                           (card_states self))) /\
     mastered st + learning st = total_studied st /\
     0 <= mastered st <= total_studied st /\
     0 <= learning st /\
     0 <= due_today st <= total_studied st /\
     forall n, w' n = w (length (card_states self) + n)%nat).
Proof.
  split.
  - intros E. unfold get_statistics. rewrite E. reflexivity.
  - intros st w' H. apply get_statistics_Ok in H.
    destruct H as (due & avg & Hdue & ->). simpl.
    destruct (due_items_clock _ _ _ _ Hdue) as [Hsub Hw].
    apply sublist_length in Hsub.
    rewrite count_mastered_values.
    pose proof (length_filter (fun x : string * CardState => 3 <= repetitions x.2)
                  (card_states self)) as Hlen.
    repeat split; try lia. exact Hw.
Qed.

(** The statistics of a store of three cards, two of them due, none with
    a streak of 3, their ease factors summed from left to right. *)
Example statistics_of_three_cards :
  get_statistics float_sum_left three_cards noon
  = Ok (mkStatistics 3 2 0 3 c2_5, noon).
Proof. vm_compute. reflexivity. Qed.

(** X14. [due_today] counts what [get_due_cards] lists: called at the
    same readings of the clock, the statistics that are returned give as
    [due_today] the length of the list of due cards. *)
Theorem get_statistics_due_today (float_sum : list float -> float)
    (self : Scheduler) w st w' :
  get_statistics float_sum self w = Ok (st, w') ->
  exists ids,
    get_due_cards self w = Ok (ids, w') /\
    due_today st = Z.of_nat (length ids).
Proof.
  intros H. apply get_statistics_Ok in H.
  destruct H as (due & avg & Hdue & ->). simpl.
  eexists. split.
  - unfold get_due_cards, mbind, M_bind. rewrite Hdue. reflexivity.
  - rewrite length_fmap.
    rewrite (Permutation_length
               (list_sort_perm (fun x : string * CardState => next_review x.2) due)).
    reflexivity.
Qed.

Lemma get_statistics_due_today_witness :
  get_statistics float_sum_left three_cards noon
  = Ok (mkStatistics 3 2 0 3 c2_5, noon) /\
  exists ids,
    get_due_cards three_cards noon = Ok (ids, noon) /\
    2 = Z.of_nat (length ids).
Proof.
  split; [vm_compute; reflexivity|].
  apply (get_statistics_due_today float_sum_left three_cards noon
           (mkStatistics 3 2 0 3 c2_5) noon).
  vm_compute. reflexivity.
Defined.

(** [round(2.675, 2)] is 2.67, the float 2.675 being below the decimal,
    and [round(0.125, 2)] is 0.12, a tie that goes to the even digit. *)
Example round_to_two_places :
  py_round_2 (S754_finite false 6023564501608038 (-51))
  = Ok (S754_finite false 6012305502539612 (-51)) /\
  py_round_2 (S754_finite false 4503599627370496 (-55))
  = Ok (S754_finite false 8646911284551352 (-56)).
Proof. split; vm_compute; reflexivity. Qed.

(** ** Records and states *)

Section FromDictFacts.
Variable isoformat : datetime -> string.
Variable fromisoformat : string -> result datetime.

Lemma from_dict_Ok (data : dict json) (s : CardState) :
  from_dict fromisoformat data = Ok s ->
  dict_get "card_id" data = Some (JStr (card_id s)) /\
  dict_get "ease_factor" data = Some (JFloat (ease_factor s)) /\
  dict_get "interval" data = Some (JInt (interval s)) /\
  dict_get "repetitions" data = Some (JInt (repetitions s)) /\
  (exists j, dict_get "next_review" data = Some j /\
             json_fromisoformat fromisoformat j = Ok (next_review s)) /\
  (last_reviewed s = None <->
   match dict_get "last_reviewed" data with
   | Some j => json_truthy j = false
   | None => True
   end) /\
  (forall t, last_reviewed s = Some t ->
   exists j, dict_get "last_reviewed" data = Some j /\
             json_fromisoformat fromisoformat j = Ok t).
Proof.
  unfold from_dict, dict_getitem, mbind, result_bind.
  destruct (dict_get "card_id" data) as [cid|]; [|discriminate].
  destruct (dict_get "ease_factor" data) as [ef|]; [|discriminate].
  destruct (dict_get "interval" data) as [iv|]; [|discriminate].
  destruct (dict_get "repetitions" data) as [rp|]; [|discriminate].
  destruct (dict_get "next_review" data) as [nr|]; [|discriminate].
  destruct (json_fromisoformat fromisoformat nr) as [t|] eqn:Et; [|discriminate].
  intros H.
  assert (Hlr : forall lr,
            as_str cid ≫= (fun c => as_float ef ≫= (fun e => as_int iv ≫=
              (fun i => as_int rp ≫= (fun p => Ok (mkCardState c e i p t lr)))))
            = Ok s ->
            cid = JStr (card_id s) /\ ef = JFloat (ease_factor s) /\
            iv = JInt (interval s) /\ rp = JInt (repetitions s) /\
            t = next_review s /\ lr = last_reviewed s).
  { intros lr. destruct cid; try discriminate. destruct ef; try discriminate.
    destruct iv; try discriminate. destruct rp; try discriminate.
    intros [= <-]. simpl. auto 10. }
  unfold mbind, result_bind in Hlr.
  destruct (dict_get "last_reviewed" data) as [j|].
  - destruct (json_truthy j) eqn:Ej.
    + destruct (json_fromisoformat fromisoformat j) as [t'|] eqn:Et'; [|discriminate].
      apply Hlr in H. destruct H as (-> & -> & -> & -> & -> & <-).
      repeat split; try discriminate; eauto.
      intros t0 [= <-]. eauto.
    + apply Hlr in H. destruct H as (-> & -> & -> & -> & -> & <-).
      repeat split; try discriminate; eauto.
  - apply Hlr in H. destruct H as (-> & -> & -> & -> & -> & <-).
    repeat split; try discriminate; eauto.
Qed.

Lemma from_dict_missing (data : dict json) (k : string) :
  k ∈ required_keys -> dict_get k data = None ->
  from_dict fromisoformat data = Raise KeyError.
Proof.
  intros Hk Hnone. unfold from_dict, dict_getitem, mbind, result_bind.
  destruct (dict_get "card_id" data) eqn:E1; [|reflexivity].
  destruct (dict_get "ease_factor" data) eqn:E2; [|reflexivity].
  destruct (dict_get "interval" data) eqn:E3; [|reflexivity].
  destruct (dict_get "repetitions" data) eqn:E4; [|reflexivity].
  destruct (dict_get "next_review" data) eqn:E5; [|reflexivity].
  unfold required_keys in Hk.
  repeat (apply elem_of_cons in Hk; destruct Hk as [->|Hk]; [congruence|]).
  apply elem_of_nil in Hk. contradiction.
Qed.

(** X15. [last_reviewed] is optional, and read by its truth value: the
    state that [from_dict] returns has never been reviewed exactly when
    the dict has no [last_reviewed] or has one that is false in Python
    ([null], [false], 0, 0.0, an empty string, list or object); any other
    is parsed as a date. *)
Theorem from_dict_last_reviewed (data : dict json) (s : CardState) :
  from_dict fromisoformat data = Ok s ->
  (last_reviewed s = None <->
   match dict_get "last_reviewed" data with
   | Some j => json_truthy j = false
   | None => True
   end) /\
  (forall t, last_reviewed s = Some t ->
   exists j, dict_get "last_reviewed" data = Some j /\
             json_truthy j = true /\
             json_fromisoformat fromisoformat j = Ok t).
Proof.
  intros H. apply from_dict_Ok in H.
  destruct H as (_ & _ & _ & _ & _ & Hnone & Hsome).
  split; [exact Hnone|]. intros t Ht. destruct (Hsome t Ht) as (j & Hj & Hjt).
  exists j. split; [exact Hj|]. split; [|exact Hjt].
  rewrite Hj in Hnone. destruct (json_truthy j); [reflexivity|].
  destruct Hnone as [_ Hn]. rewrite Hn in Ht by reflexivity. discriminate.
Qed.

Hypothesis fromisoformat_isoformat : forall t, fromisoformat (isoformat t) = Ok t.
Hypothesis isoformat_nonempty : forall t, isoformat t <> ""%string.

(** X16. [from_dict] undoes [to_dict]: the dict of a state gives the
    state back, [card_id] and timestamps included. *)
Theorem from_dict_to_dict (s : CardState) :
  from_dict fromisoformat (to_dict isoformat s) = Ok s.
Proof.
  unfold from_dict, to_dict. simpl.
  rewrite fromisoformat_isoformat. simpl.
  destruct s as [cid ef iv rp nr [t|]]; simpl; [|reflexivity].
  destruct (String.eqb_spec (isoformat t) "") as [E|_];
    [exfalso; exact (isoformat_nonempty t E)|].
  simpl. rewrite fromisoformat_isoformat. reflexivity.
Qed.
End FromDictFacts.

Lemma from_dict_last_reviewed_witness :
  from_dict decimal_fromisoformat
    [ ("card_id"%string, JStr "174"); ("ease_factor"%string, JFloat c2_5);
      ("interval"%string, JInt 1); ("repetitions"%string, JInt 1);
      ("next_review"%string, JStr "5"); ("last_reviewed"%string, JStr "") ]
  = Ok (mkCardState "174" c2_5 1 1 5 None) /\
  ((@None datetime = None <->
    match dict_get "last_reviewed"
            [ ("card_id"%string, JStr "174"); ("ease_factor"%string, JFloat c2_5);
              ("interval"%string, JInt 1); ("repetitions"%string, JInt 1);
              ("next_review"%string, JStr "5");
              ("last_reviewed"%string, JStr "") ] with
    | Some j => json_truthy j = false
    | None => True
    end) /\
   (forall t, @None datetime = Some t ->
    exists j,
      dict_get "last_reviewed"
        [ ("card_id"%string, JStr "174"); ("ease_factor"%string, JFloat c2_5);
          ("interval"%string, JInt 1); ("repetitions"%string, JInt 1);
          ("next_review"%string, JStr "5"); ("last_reviewed"%string, JStr "") ]
      = Some j /\
      json_truthy j = true /\
      json_fromisoformat decimal_fromisoformat j = Ok t)).
Proof.
  split; [vm_compute; reflexivity|].
  apply (from_dict_last_reviewed decimal_fromisoformat
           [ ("card_id"%string, JStr "174"); ("ease_factor"%string, JFloat c2_5);
             ("interval"%string, JInt 1); ("repetitions"%string, JInt 1);
             ("next_review"%string, JStr "5"); ("last_reviewed"%string, JStr "") ]
           (mkCardState "174" c2_5 1 1 5 None)).
  vm_compute. reflexivity.
Defined.

Lemma from_dict_to_dict_witness :
  (forall t, decimal_fromisoformat (decimal_isoformat t) = Ok t) /\
  (forall t, decimal_isoformat t <> ""%string) /\
  from_dict decimal_fromisoformat (to_dict decimal_isoformat card_174)
  = Ok card_174.
Proof.
  split; [exact decimal_fromisoformat_isoformat|].
  split; [exact decimal_isoformat_nonempty|].
  apply (from_dict_to_dict decimal_isoformat decimal_fromisoformat
           decimal_fromisoformat_isoformat decimal_isoformat_nonempty card_174).
Defined.

(** ** What [load] accepts, skips and refuses *)

Section LoadFacts.
Variable fromisoformat : string -> result datetime.

Lemma load_entry_card_id (k : string) (j : json) (s : CardState) :
  load_entry fromisoformat k j = Ok s -> card_id s = k.
Proof.
  destruct j; try discriminate. simpl. intros H. apply from_dict_Ok in H.
  destruct H as (Hid & _). rewrite dict_get_set_eq in Hid. congruence.
Qed.

Lemma load_cards_inv (items : list (string * json)) :
  forall acc d,
  load_cards fromisoformat items acc = Ok d ->
  dict_wf acc -> keyed acc -> dict_wf d /\ keyed d.
Proof.
  induction items as [|[k j] items IH]; intros acc d; simpl.
  - intros [= <-]. auto.
  - destruct (load_entry fromisoformat k j) as [s|e] eqn:E.
    + intros H Hwf Hkeyed. apply (IH _ _ H).
      * apply dict_set_wf, Hwf.
      * apply dict_set_keyed; [|exact Hkeyed]. eapply load_entry_card_id, E.
    + destruct e; try discriminate; apply IH.
Qed.

(** X17. Whatever the progress file holds, a store that [load] returns has
    pairwise distinct keys and, under each key, a state whose [card_id]
    is that key. *)
Theorem load_keyed (f : file) (d : dict CardState) :
  load fromisoformat f = Ok d -> dict_wf d /\ keyed d.
Proof.
  assert (Hnil : dict_wf (@nil (string * CardState)) /\ keyed []).
  { split; [apply NoDup_nil_2|]. intros k s. discriminate. }
  destruct f as [| |data]; simpl; try (intros [= <-]; exact Hnil).
  destruct data; try discriminate.
  destruct (default (JDict []) (dict_get "cards" d0)); try discriminate.
  intros H. eapply load_cards_inv; [exact H| |]; apply Hnil.
Qed.

Lemma load_cards_app (l1 l2 : list (string * json)) :
  forall acc,
  load_cards fromisoformat (l1 ++ l2) acc
  = (acc' ← load_cards fromisoformat l1 acc; load_cards fromisoformat l2 acc').
Proof.
  induction l1 as [|[k j] l1 IH]; intros acc; simpl; [reflexivity|].
  destruct (load_entry fromisoformat k j) as [s|e]; [apply IH|].
  destruct e; try reflexivity; apply IH.
Qed.

Lemma load_cards_skip (l1 l2 : list (string * json)) (k : string) (j : json) :
  load_entry fromisoformat k j = Raise KeyError \/
  load_entry fromisoformat k j = Raise ValueError ->
  forall acc,
  load_cards fromisoformat (l1 ++ (k, j) :: l2) acc
  = load_cards fromisoformat (l1 ++ l2) acc.
Proof.
  intros Hj acc. rewrite !load_cards_app. unfold mbind, result_bind.
  destruct (load_cards fromisoformat l1 acc); [|reflexivity]. simpl.
  destruct Hj as [-> | ->]; reflexivity.
Qed.

(** X18. An entry of the file that lacks [ease_factor], [interval],
    [repetitions] or [next_review], or whose [next_review] is a string
    that [fromisoformat] refuses with [ValueError], is skipped: the file
    loads as it would without that entry. *)
Theorem load_skips_invalid (top : dict json) (l1 l2 : list (string * json))
    (k : string) (d : dict json) :
  dict_get "cards" top = Some (JDict (l1 ++ (k, JDict d) :: l2)) ->
  (exists key, key ∈ saved_keys /\ dict_get key d = None) \/
  (exists ef iv rp s,
     dict_get "ease_factor" d = Some ef /\ dict_get "interval" d = Some iv /\
     dict_get "repetitions" d = Some rp /\
     dict_get "next_review" d = Some (JStr s) /\
     fromisoformat s = Raise ValueError) ->
  load fromisoformat (Holds (JDict top))
  = load fromisoformat (Holds (JDict [("cards"%string, JDict (l1 ++ l2))])).
Proof.
  intros Hcards Hbad. simpl. rewrite Hcards. simpl.
  apply load_cards_skip. simpl. destruct Hbad as [(key & Hkey & Hnone)|Hbad].
  - left. apply (from_dict_missing _ _ key).
    + unfold saved_keys in Hkey. unfold required_keys.
      apply list_elem_of_further, Hkey.
    + rewrite dict_get_set_ne; [exact Hnone|].
      intros <-. unfold saved_keys in Hkey.
      repeat (apply elem_of_cons in Hkey; destruct Hkey as [?|Hkey];
              [discriminate|]).
      apply elem_of_nil in Hkey. contradiction.
  - right. destruct Hbad as (ef & iv & rp & s & H1 & H2 & H3 & H4 & H5).
    unfold from_dict, dict_getitem, mbind, result_bind.
    rewrite dict_get_set_eq.
    rewrite !dict_get_set_ne by discriminate.
    rewrite H1, H2, H3, H4. simpl. rewrite H5. reflexivity.
Qed.

(** X19. A file that holds JSON of another shape is not taken for an empty
    store: [load] raises [AttributeError] when the value of the file, or
    its [cards], is not an object, and [TypeError] at an entry that is
    not an object, when the entries before it have raised nothing. *)
Theorem load_wrong_shape :
  (forall data, is_object data = false ->
     load fromisoformat (Holds data) = Raise AttributeError) /\
  (forall top j, dict_get "cards" top = Some j -> is_object j = false ->
     load fromisoformat (Holds (JDict top)) = Raise AttributeError) /\
  (forall top l1 l2 k j acc,
     dict_get "cards" top = Some (JDict (l1 ++ (k, j) :: l2)) ->
     is_object j = false ->
     load_cards fromisoformat l1 [] = Ok acc ->
     load fromisoformat (Holds (JDict top)) = Raise TypeError).
Proof.
  split; [|split].
  - intros data H. destruct data; try reflexivity. discriminate.
  - intros top j Hj H. simpl. rewrite Hj. simpl.
    destruct j; try reflexivity. discriminate.
  - intros top l1 l2 k j acc Hcards H Hl1. simpl. rewrite Hcards. simpl.
    rewrite load_cards_app, Hl1. simpl.
    destruct j; try reflexivity. discriminate.
Qed.

Hypothesis fromisoformat_raises :
  forall s e, fromisoformat s = Raise e -> e = ValueError.

Lemma from_dict_raises (data : dict json) (e : exn) :
  from_dict fromisoformat data = Raise e ->
  e = KeyError \/ e = ValueError \/ e = TypeError.
Proof.
  assert (Hiso : forall j e', json_fromisoformat fromisoformat j = Raise e' ->
            e' = ValueError \/ e' = TypeError).
  { intros j e'. destruct j; simpl; try (intros [= <-]; auto).
    intros H. left. eapply fromisoformat_raises, H. }
  unfold from_dict, dict_getitem, mbind, result_bind.
  destruct (dict_get "card_id" data) as [cid|]; [|intros [= <-]; auto].
  destruct (dict_get "ease_factor" data) as [ef|]; [|intros [= <-]; auto].
  destruct (dict_get "interval" data) as [iv|]; [|intros [= <-]; auto].
  destruct (dict_get "repetitions" data) as [rp|]; [|intros [= <-]; auto].
  destruct (dict_get "next_review" data) as [nr|]; [|intros [= <-]; auto].
  destruct (json_fromisoformat fromisoformat nr) as [t|e0] eqn:Et.
  2:{ intros [= <-]. destruct (Hiso _ _ Et); auto. }
  assert (Hrest : forall lr,
            as_str cid ≫= (fun c => as_float ef ≫= (fun x => as_int iv ≫=
              (fun i => as_int rp ≫= (fun p => Ok (mkCardState c x i p t lr)))))
            = Raise e -> e = TypeError).
  { intros lr. unfold mbind, result_bind.
    destruct cid; simpl; try (intros [= <-]; reflexivity).
    destruct ef; simpl; try (intros [= <-]; reflexivity).
    destruct iv; simpl; try (intros [= <-]; reflexivity).
    destruct rp; simpl; intros [= <-]; reflexivity. }
  unfold mbind, result_bind in Hrest.
  destruct (dict_get "last_reviewed" data) as [j|].
  - destruct (json_truthy j).
    + destruct (json_fromisoformat fromisoformat j) as [t'|e1] eqn:Et'.
      * intros H. right. right. eapply Hrest, H.
      * intros [= <-]. destruct (Hiso _ _ Et'); auto.
    + intros H. right. right. eapply Hrest, H.
  - intros H. right. right. eapply Hrest, H.
Qed.

(** X20. [from_dict] raises [KeyError] exactly on the dicts that lack
    [card_id], [ease_factor], [interval], [repetitions] or [next_review],
    whatever else they hold. *)
Theorem from_dict_KeyError (data : dict json) :
  from_dict fromisoformat data = Raise KeyError <->
  exists k, k ∈ required_keys /\ dict_get k data = None.
Proof.
  split; [|intros (k & Hk & Hnone); eapply from_dict_missing; eassumption].
  assert (Hiso : forall j, json_fromisoformat fromisoformat j <> Raise KeyError).
  { intros j H. destruct j; simpl in H; try discriminate.
    apply fromisoformat_raises in H. discriminate. }
  assert (Hin : forall k, k ∈ required_keys <->
            k = "card_id"%string \/ k = "ease_factor"%string \/
            k = "interval"%string \/ k = "repetitions"%string \/
            k = "next_review"%string).
  { intros k. unfold required_keys. rewrite !elem_of_cons, elem_of_nil. tauto. }
  unfold from_dict, dict_getitem, mbind, result_bind.
  destruct (dict_get "card_id" data) as [cid|] eqn:E1;
    [|intros _; eexists; rewrite Hin; split; [|exact E1]; tauto].
  destruct (dict_get "ease_factor" data) as [ef|] eqn:E2;
    [|intros _; eexists; rewrite Hin; split; [|exact E2]; tauto].
  destruct (dict_get "interval" data) as [iv|] eqn:E3;
    [|intros _; eexists; rewrite Hin; split; [|exact E3]; tauto].
  destruct (dict_get "repetitions" data) as [rp|] eqn:E4;
    [|intros _; eexists; rewrite Hin; split; [|exact E4]; tauto].
  destruct (dict_get "next_review" data) as [nr|] eqn:E5;
    [|intros _; eexists; rewrite Hin; split; [|exact E5]; tauto].
  intros H. exfalso.
  destruct (json_fromisoformat fromisoformat nr) as [t|e0] eqn:Et;
    [|apply (Hiso nr); congruence].
  assert (Hrest : forall lr,
            as_str cid ≫= (fun c => as_float ef ≫= (fun x => as_int iv ≫=
              (fun i => as_int rp ≫= (fun p => Ok (mkCardState c x i p t lr)))))
            <> Raise KeyError).
  { intros lr. unfold mbind, result_bind.
    destruct cid; simpl; try discriminate. destruct ef; simpl; try discriminate.
    destruct iv; simpl; try discriminate. destruct rp; simpl; discriminate. }
  unfold mbind, result_bind in Hrest.
  destruct (dict_get "last_reviewed" data) as [j|]; [|exact (Hrest _ H)].
  destruct (json_truthy j); [|exact (Hrest _ H)].
  destruct (json_fromisoformat fromisoformat j) as [t'|e1] eqn:Et';
    [exact (Hrest _ H)|apply (Hiso j); congruence].
Qed.

Lemma load_cards_raises (items : list (string * json)) (e : exn) :
  forall acc, load_cards fromisoformat items acc = Raise e -> e = TypeError.
Proof.
  induction items as [|[k j] items IH]; intros acc; simpl; [discriminate|].
  destruct (load_entry fromisoformat k j) as [s|e0] eqn:E; [apply IH|].
  assert (He0 : e0 = KeyError \/ e0 = ValueError \/ e0 = TypeError).
  { destruct j; simpl in E; try (injection E as <-; auto).
    eapply from_dict_raises, E. }
  destruct He0 as [->|[->| ->]]; try apply IH. intros [= <-]. reflexivity.
Qed.

(** X21. Once the progress file has been read and parsed, [load] lets out
    no [KeyError] and no [ValueError], the exceptions of an invalid
    entry: when it raises on the value of the file, it is [TypeError] or
    [AttributeError]. *)
Theorem load_raises (data : json) (e : exn) :
  load fromisoformat (Holds data) = Raise e ->
  e = TypeError \/ e = AttributeError.
Proof.
  simpl. destruct data; try (intros [= <-]; auto).
  destruct (default (JDict []) (dict_get "cards" d)); try (intros [= <-]; auto).
  intros H. left. eapply load_cards_raises, H.
Qed.
End LoadFacts.

Lemma decimal_fromisoformat_raises (s : string) (e : exn) :
  decimal_fromisoformat s = Raise e -> e = ValueError.
Proof.
  unfold decimal_fromisoformat. destruct (NilZero.int_of_string s); [discriminate|].
  intros [= <-]. reflexivity.
Qed.

Lemma from_dict_KeyError_witness :
  (forall s e, decimal_fromisoformat s = Raise e -> e = ValueError) /\
  (from_dict decimal_fromisoformat
     [("card_id"%string, JStr "174"); ("ease_factor"%string, JFloat c2_5)]
   = Raise KeyError <->
   exists k, k ∈ required_keys /\
     dict_get k [("card_id"%string, JStr "174");
                 ("ease_factor"%string, JFloat c2_5)] = None).
Proof.
  split; [exact decimal_fromisoformat_raises|].
  apply (from_dict_KeyError decimal_fromisoformat decimal_fromisoformat_raises
           [("card_id"%string, JStr "174"); ("ease_factor"%string, JFloat c2_5)]).
Defined.

Lemma load_keyed_witness :
  load decimal_fromisoformat
    (Holds (JDict [("cards"%string,
       JDict [("174"%string,
         JDict [ ("card_id"%string, JStr "3356");
                 ("ease_factor"%string, JFloat c2_5);
                 ("interval"%string, JInt 1); ("repetitions"%string, JInt 1);
                 ("next_review"%string, JStr "5") ])])]))
  = Ok [("174"%string, mkCardState "174" c2_5 1 1 5 None)] /\
  dict_wf [("174"%string, mkCardState "174" c2_5 1 1 5 None)] /\
  keyed [("174"%string, mkCardState "174" c2_5 1 1 5 None)].
Proof.
  split; [vm_compute; reflexivity|].
  apply (load_keyed decimal_fromisoformat
    (Holds (JDict [("cards"%string,
       JDict [("174"%string,
         JDict [ ("card_id"%string, JStr "3356");
                 ("ease_factor"%string, JFloat c2_5);
                 ("interval"%string, JInt 1); ("repetitions"%string, JInt 1);
                 ("next_review"%string, JStr "5") ])])]))).
  vm_compute. reflexivity.
Defined.

Lemma load_skips_invalid_witness :
  dict_get "cards"
    [ ("version"%string, JInt 1);
      ("cards"%string,
        JDict ([] ++ ("174"%string, JDict [("interval"%string, JInt 1)])
                  :: [("3356"%string,
                       JDict [ ("ease_factor"%string, JFloat c2_5);
                               ("interval"%string, JInt 1);
                               ("repetitions"%string, JInt 1);
                               ("next_review"%string, JStr "5") ])])) ]
  = Some (JDict ([] ++ ("174"%string, JDict [("interval"%string, JInt 1)])
                  :: [("3356"%string,
                       JDict [ ("ease_factor"%string, JFloat c2_5);
                               ("interval"%string, JInt 1);
                               ("repetitions"%string, JInt 1);
                               ("next_review"%string, JStr "5") ])])) /\
  load decimal_fromisoformat
    (Holds (JDict
      [ ("version"%string, JInt 1);
        ("cards"%string,
          JDict ([] ++ ("174"%string, JDict [("interval"%string, JInt 1)])
                    :: [("3356"%string,
                         JDict [ ("ease_factor"%string, JFloat c2_5);
                                 ("interval"%string, JInt 1);
                                 ("repetitions"%string, JInt 1);
                                 ("next_review"%string, JStr "5") ])])) ]))
  = Ok [("3356"%string, mkCardState "3356" c2_5 1 1 5 None)] /\
  load decimal_fromisoformat
    (Holds (JDict
      [ ("version"%string, JInt 1);
        ("cards"%string,
          JDict ([] ++ ("174"%string, JDict [("interval"%string, JInt 1)])
                    :: [("3356"%string,
                         JDict [ ("ease_factor"%string, JFloat c2_5);
                                 ("interval"%string, JInt 1);
                                 ("repetitions"%string, JInt 1);
                                 ("next_review"%string, JStr "5") ])])) ]))
  = load decimal_fromisoformat
      (Holds (JDict
        [("cards"%string,
          JDict ([] ++ [("3356"%string,
                         JDict [ ("ease_factor"%string, JFloat c2_5);
                                 ("interval"%string, JInt 1);
                                 ("repetitions"%string, JInt 1);
                                 ("next_review"%string, JStr "5") ])]))])).
Proof.
  split; [reflexivity|]. split; [vm_compute; reflexivity|].
  apply (load_skips_invalid decimal_fromisoformat
           [ ("version"%string, JInt 1);
             ("cards"%string,
               JDict ([] ++ ("174"%string, JDict [("interval"%string, JInt 1)])
                         :: [("3356"%string,
                              JDict [ ("ease_factor"%string, JFloat c2_5);
                                      ("interval"%string, JInt 1);
                                      ("repetitions"%string, JInt 1);
                                      ("next_review"%string, JStr "5") ])])) ]
           [] _ "174" [("interval"%string, JInt 1)]).
  - reflexivity.
  - left. exists "ease_factor"%string. split; [|reflexivity].
    apply (bool_decide_unpack _). vm_compute. exact I.
Defined.

Lemma load_raises_witness :
  (forall s e, decimal_fromisoformat s = Raise e -> e = ValueError) /\
  load decimal_fromisoformat
    (Holds (JDict [("cards"%string, JDict [("174"%string, JInt 5)])]))
  = Raise TypeError /\
  (TypeError = TypeError \/ TypeError = AttributeError).
Proof.
  split; [exact decimal_fromisoformat_raises|].
  split; [vm_compute; reflexivity|].
  apply (load_raises decimal_fromisoformat decimal_fromisoformat_raises
           (JDict [("cards"%string, JDict [("174"%string, JInt 5)])])).
  vm_compute. reflexivity.
Defined.

(** ** What [save] writes *)

(** X22. A save that goes through has read the clock once and leaves a
    file that holds an object with [version] 1, [last_saved] the reading
    of the clock, and [cards]; for a store with distinct keys, [cards]
    has the keys of the store in their order, each with the record of its
    state: ease factor, interval, streak and the two timestamps, and no
    [card_id]. *)
Theorem save_writes (isoformat : datetime -> string)
    (card_states : dict CardState) w f w' :
  save isoformat card_states w = Ok (f, w') ->
  exists cards,
    f = Holds (JDict [ ("version", JInt 1);
                       ("last_saved", JStr (isoformat (w 0%nat)));
                       ("cards", JDict cards) ]%string) /\
    (forall n, w' n = w (S n)) /\
    (dict_wf card_states ->
     cards = (fun x => (x.1, JDict (state_dict isoformat x.2))) <$> card_states).
Proof.
  unfold save, mbind, M_bind, now, lift, mret, M_ret.
  destruct (save_cards isoformat card_states []) as [cards|e] eqn:Hcards;
    [|discriminate].
  intros [= <- <-]. exists cards. split; [reflexivity|].
  split; [intros n; reflexivity|].
  intros Hwf. rewrite save_cards_fresh in Hcards by exact Hwf.
  simpl in Hcards. congruence.
Qed.

Lemma save_writes_witness :
  exists f w',
    save decimal_isoformat [("174"%string, card_174)] noon = Ok (f, w') /\
    exists cards,
      f = Holds (JDict [ ("version", JInt 1);
                         ("last_saved", JStr (decimal_isoformat (noon 0%nat)));
                         ("cards", JDict cards) ]%string) /\
      (forall n, w' n = noon (S n)) /\
      (dict_wf [("174"%string, card_174)] ->
       cards = (fun x => (x.1, JDict (state_dict decimal_isoformat x.2)))
                 <$> [("174"%string, card_174)]).
Proof.
  destruct (save decimal_isoformat [("174"%string, card_174)] noon)
    as [[f w']|e] eqn:Hrun; [|vm_compute in Hrun; discriminate].
  exists f, w'. split; [reflexivity|].
  apply (save_writes decimal_isoformat [("174"%string, card_174)] noon f w' Hrun).
Defined.

(** ** The study screen *)

Section SessionFacts.
Variable isoformat : datetime -> string.
Variable fromisoformat : string -> result datetime.

Lemma action_reveal_shown (c : Network) (rest : list Network) (m n : Z)
    (b : bool) :
  action_reveal (mkStudyScreen (Some c) rest m n b)
  = mkStudyScreen (Some c) rest m n true.
Proof. destruct b; reflexivity. Qed.

Lemma action_rate_shown (r : Rating) (c : Network) (rest : list Network)
    (m n : Z) (app : ASNMemoApp) w :
  action_rate isoformat r (mkStudyScreen (Some c) rest m n true) app w =
  match review_card (scheduler app) (str (asn c)) r w with
  | Ok (_, scheduler', w1) =>
      match save_progress isoformat
              (mkASNMemoApp scheduler' (progress_file app)) w1 with
      | Ok (app', w2) =>
          Ok (_show_next_card (mkStudyScreen (Some c) rest (m + 1) n true),
              app', w2)
      | Raise e => Raise e
      end
  | Raise e => Raise e
  end.
Proof.
  unfold action_rate, _rate_card. simpl.
  unfold mbind at 1, M_bind at 1.
  destruct (review_card (scheduler app) (str (asn c)) r w) as [[[st sch] w1]|e];
    [|reflexivity].
  unfold mbind, M_bind, mret, M_ret.
  destruct (save_progress isoformat _ w1) as [[app' w2]|e]; reflexivity.
Qed.

Lemma rate_all_cons (cid : string) (r : Rating) (reviews : list (string * Rating))
    (app : ASNMemoApp) w :
  rate_all isoformat ((cid, r) :: reviews) app w =
  match review_card (scheduler app) cid r w with
  | Ok (_, scheduler', w1) =>
      match save_progress isoformat
              (mkASNMemoApp scheduler' (progress_file app)) w1 with
      | Ok (app', w2) => rate_all isoformat reviews app' w2
      | Raise e => Raise e
      end
  | Raise e => Raise e
  end.
Proof.
  simpl. unfold mbind at 1, M_bind at 1.
  destruct (review_card (scheduler app) cid r w) as [[[st sch] w1]|e];
    [|reflexivity].
  unfold mbind, M_bind.
  destruct (save_progress isoformat _ w1) as [[app' w2]|e]; reflexivity.
Qed.

(** The ratings of a session go to its cards in their order, as long as
    there are cards for them. *)
Lemma study_rated (ratings : list Rating) :
  forall c rest m n b app w,
  (length ratings <= S (length rest))%nat ->
  study isoformat ratings (mkStudyScreen (Some c) rest m n b) app w =
  match rate_all isoformat
          (zip (card_ids (take (length ratings) (c :: rest))) ratings) app w with
  | Ok (app', w') => Ok (screen_after c rest m n b (length ratings), app', w')
  | Raise e => Raise e
  end.
Proof.
  induction ratings as [|r ratings IH]; intros c rest m n b app w Hlen.
  - reflexivity.
  - cbn [study length screen_after take]. unfold card_ids. rewrite fmap_cons.
    fold (card_ids (take (length ratings) rest)).
    cbn [zip zip_with]. rewrite rate_all_cons.
    unfold mbind at 1, M_bind at 1.
    rewrite action_reveal_shown, action_rate_shown.
    destruct (review_card (scheduler app) (str (asn c)) r w)
      as [[[st sch] w1]|e]; [|reflexivity].
    destruct (save_progress isoformat _ w1) as [[app' w2]|e]; [|reflexivity].
    destruct rest as [|c' rest'].
    + destruct ratings; [reflexivity|]. simpl in Hlen. lia.
    + apply IH. simpl in Hlen. lia.
Qed.

Lemma screen_after_fields (k : nat) :
  forall c rest m n b,
  (k <= S (length rest))%nat ->
  cards_completed (screen_after c rest m n b k) = m + Z.of_nat k /\
  total_cards (screen_after c rest m n b k) = n /\
  cards_to_study (screen_after c rest m n b k) = drop k rest /\
  (k = S (length rest) ->
   current_card (screen_after c rest m n b k) = Some (default c (last rest)) /\
   revealed (screen_after c rest m n b k) = true).
Proof.
  induction k as [|k IH]; intros c rest m n b Hk.
  - simpl. rewrite drop_0. split; [lia|]. split; [reflexivity|].
    split; [reflexivity|]. discriminate.
  - cbn [screen_after]. destruct rest as [|c' rest'].
    + simpl in Hk. assert (k = 0%nat) as -> by lia. simpl.
      split; [lia|]. split; [reflexivity|]. split; [reflexivity|].
      intros _. split; reflexivity.
    + destruct (IH c' rest' (m + 1) n false) as (H1 & H2 & H3 & H4);
        [simpl in Hk; lia|].
      rewrite H1, H2, H3. split; [lia|]. split; [reflexivity|].
      split; [reflexivity|]. intros Hlast.
      destruct H4 as [Hc Hr]; [simpl in Hlast; lia|].
      rewrite Hc, Hr, last_cons. split; [|reflexivity].
      destruct (last rest'); reflexivity.
Qed.

Lemma mount_session_Ok (networks : list Network) (app : ASNMemoApp) w screen w' :
  mount_session networks StudyScreen_new app w = Ok (screen, w') ->
  exists cards,
    load_study_session networks (scheduler app) w = Ok (cards, w') /\
    screen = _show_next_card
               (mkStudyScreen None cards 0 (Z.of_nat (length cards)) false).
Proof.
  unfold mount_session, mbind, M_bind, mret, M_ret.
  destruct (load_study_session networks (scheduler app) w) as [[cards w1]|e];
    [|discriminate].
  intros [= <- <-]. exists cards. split; reflexivity.
Qed.

(** X23. A session goes through its cards in their order, one review and
    one save per rating: when the screen is mounted on the cards of
    [_load_study_session], as many ratings as there are cards, or fewer,
    each given after a reveal, review the first cards of the list with
    these ratings, count them in [cards_completed], and leave the cards
    after them to study. *)
Theorem study_in_order (networks : list Network) (app : ASNMemoApp) w0 screen w1
    (ratings : list Rating) :
  mount_session networks StudyScreen_new app w0 = Ok (screen, w1) ->
  exists cards,
    load_study_session networks (scheduler app) w0 = Ok (cards, w1) /\
    total_cards screen = Z.of_nat (length cards) /\
    ((length ratings <= length cards)%nat ->
     exists screen',
       (forall w,
          study isoformat ratings screen app w =
          match rate_all isoformat
                  (zip (card_ids (take (length ratings) cards)) ratings) app w
          with
          | Ok (app', w') => Ok (screen', app', w')
          | Raise e => Raise e
          end) /\
       cards_completed screen' = Z.of_nat (length ratings) /\
       total_cards screen' = Z.of_nat (length cards) /\
       cards_to_study screen' = drop (S (length ratings)) cards).
Proof.
  intros H. apply mount_session_Ok in H. destruct H as (cards & Hload & ->).
  exists cards. split; [exact Hload|]. destruct cards as [|c rest].
  - split; [reflexivity|]. intros Hlen. destruct ratings; [|simpl in Hlen; lia].
    eexists. split; [intros w; reflexivity|]. repeat split.
  - split; [reflexivity|]. intros Hlen. simpl in Hlen.
    exists (screen_after c rest 0 (Z.of_nat (length (c :: rest))) false
              (length ratings)).
    split.
    + intros w. cbn [_show_next_card cards_to_study cards_completed total_cards].
      apply study_rated. exact Hlen.
    + destruct (screen_after_fields (length ratings) c rest 0
                  (Z.of_nat (length (c :: rest))) false Hlen) as (H1 & H2 & H3 & _).
      rewrite H1, H2, H3. split; [lia|]. split; reflexivity.
Qed.

(** X24. The session does not clear its screen at the last card: when as
    many ratings as there are cards have been given, each after a
    reveal, every card has been reviewed once, in order, and the screen
    still holds the last card as [current_card] and is still revealed,
    the two conditions that [_rate_card] and the rating actions test,
    with no card left to study and [cards_completed] at [total_cards]. *)
Theorem last_card_stays_current (networks : list Network) (app : ASNMemoApp)
    w0 screen w1 (c : Network) (rest : list Network) (ratings : list Rating) :
  mount_session networks StudyScreen_new app w0 = Ok (screen, w1) ->
  load_study_session networks (scheduler app) w0 = Ok (c :: rest, w1) ->
  length ratings = length (c :: rest) ->
  exists screen',
    (forall w,
       study isoformat ratings screen app w =
       match rate_all isoformat (zip (card_ids (c :: rest)) ratings) app w with
       | Ok (app', w') => Ok (screen', app', w')
       | Raise e => Raise e
       end) /\
    current_card screen' = Some (default c (last rest)) /\
    revealed screen' = true /\
    cards_to_study screen' = [] /\
    cards_completed screen' = total_cards screen'.
Proof.
  intros H Hload Hlen. apply mount_session_Ok in H.
  destruct H as (cards & Hload' & ->). rewrite Hload in Hload'.
  injection Hload' as <-. simpl in Hlen.
  exists (screen_after c rest 0 (Z.of_nat (length (c :: rest))) false
            (length ratings)).
  split.
  - intros w. cbn [_show_next_card cards_to_study cards_completed total_cards].
    rewrite study_rated by lia.
    rewrite take_ge by (simpl; lia). reflexivity.
  - destruct (screen_after_fields (length ratings) c rest 0
                (Z.of_nat (length (c :: rest))) false) as (H1 & H2 & H3 & H4);
      [lia|].
    destruct (H4 Hlen) as [Hc Hr]. rewrite H1, H2, H3, Hc, Hr, Hlen.
    split; [reflexivity|]. split; [reflexivity|]. split.
    + apply drop_ge. lia.
    + simpl length. lia.
Qed.

Hypothesis fromisoformat_isoformat : forall t, fromisoformat (isoformat t) = Ok t.
Hypothesis isoformat_nonempty : forall t, isoformat t <> ""%string.

Lemma save_progress_loads (app : ASNMemoApp) w app' w' :
  dict_wf (card_states (scheduler app)) -> keyed (card_states (scheduler app)) ->
  save_progress isoformat app w = Ok (app', w') ->
  scheduler app' = scheduler app /\
  load fromisoformat (progress_file app') = Ok (card_states (scheduler app')).
Proof.
  intros Hwf Hkeyed. unfold save_progress, save, mbind, M_bind, now, lift, mret, M_ret.
  rewrite save_cards_fresh by exact Hwf.
  intros [= <- <-]. split; [reflexivity|]. cbn [progress_file scheduler load].
  simpl. rewrite (load_cards_saved isoformat fromisoformat) by assumption.
  simpl. rewrite with_card_id_keyed by assumption. reflexivity.
Qed.

(** X25. After a rating the progress file holds the store: when the store
    of the application has distinct keys, each state carrying its key,
    [_rate_card] on a revealed card reviews that card, leaves a store of
    the same kind, and leaves a file from which [load] returns exactly
    that store. *)
Theorem rate_card_persists (r : Rating) (self : StudyScreen) (app : ASNMemoApp)
    (card : Network) w self' app' w' :
  dict_wf (card_states (scheduler app)) -> keyed (card_states (scheduler app)) ->
  current_card self = Some card -> revealed self = true ->
  _rate_card isoformat r self app w = Ok (self', app', w') ->
  (exists st w1,
     review_card (scheduler app) (str (asn card)) r w
     = Ok (st, scheduler app', w1)) /\
  dict_wf (card_states (scheduler app')) /\
  keyed (card_states (scheduler app')) /\
  load fromisoformat (progress_file app') = Ok (card_states (scheduler app')) /\
  cards_completed self' = cards_completed self + 1.
Proof.
  intros Hwf Hkeyed Hcard Hshown. unfold _rate_card. rewrite Hcard, Hshown.
  unfold mbind at 1, M_bind at 1.
  destruct (review_card (scheduler app) (str (asn card)) r w)
    as [[[st sch] w1]|e] eqn:Hrev; [|discriminate].
  unfold mbind, M_bind, mret, M_ret.
  destruct (save_progress isoformat _ w1) as [[app1 w2]|e] eqn:Hsave;
    [|discriminate].
  intros [= <- <- <-].
  pose proof Hrev as Hrev'. apply review_card_Ok in Hrev'.
  destruct Hrev' as [Hrun ->].
  assert (Hid : card_id st = str (asn card)).
  { apply sm2_algorithm_Ok in Hrun. destruct Hrun as (ni & nr & t & _ & _ & -> & _).
    simpl. destruct (dict_get (str (asn card)) (card_states (scheduler app))) eqn:E;
      [apply Hkeyed, E|reflexivity]. }
  assert (Hwf' : dict_wf (dict_set (str (asn card)) st (card_states (scheduler app))))
    by apply dict_set_wf, Hwf.
  assert (Hkeyed' : keyed (dict_set (str (asn card)) st (card_states (scheduler app))))
    by (apply dict_set_keyed; assumption).
  apply save_progress_loads in Hsave; [|exact Hwf'|exact Hkeyed'].
  destruct Hsave as [Hsch Hload]. rewrite Hsch in *. simpl in *.
  split; [eexists _, _; reflexivity|]. split; [exact Hwf'|].
  split; [exact Hkeyed'|]. split; [exact Hload|].
  destruct (cards_to_study self); reflexivity.
Qed.

(** X26. The reset of the progress forgets it: whatever the store and the
    file were, [action_confirm] leaves the empty store and no progress
    file, and an application started on what is left has the empty store;
    [reset] removes a file that exists and leaves a missing one missing. *)
Theorem reset_forgets (app : ASNMemoApp) :
  card_states (scheduler (action_confirm app)) = [] /\
  exists_ (progress_file (action_confirm app)) = false /\
  reset (reset (progress_file app)) = reset (progress_file app) /\
  load fromisoformat (progress_file (action_confirm app)) = Ok [] /\
  ASNMemoApp_new fromisoformat (progress_file (action_confirm app))
  = Ok (mkASNMemoApp (mkScheduler []) Missing).
Proof.
  unfold action_confirm. simpl. destruct (progress_file app); repeat split.
Qed.
End SessionFacts.

Lemma study_in_order_witness :
  mount_session two_networks StudyScreen_new fresh_app noon
  = Ok (mkStudyScreen (Some (mkNetwork 3356 "Lumen Technologies" TIER_1))
          [mkNetwork 174 "Cogent Communications" TIER_1] 0 2 false, noon) /\
  exists cards,
    load_study_session two_networks (scheduler fresh_app) noon = Ok (cards, noon) /\
    2 = Z.of_nat (length cards) /\
    ((length [GOOD; AGAIN] <= length cards)%nat ->
     exists screen',
       (forall w,
          study decimal_isoformat [GOOD; AGAIN]
            (mkStudyScreen (Some (mkNetwork 3356 "Lumen Technologies" TIER_1))
               [mkNetwork 174 "Cogent Communications" TIER_1] 0 2 false)
            fresh_app w =
          match rate_all decimal_isoformat
                  (zip (card_ids (take (length [GOOD; AGAIN]) cards))
                     [GOOD; AGAIN]) fresh_app w
          with
          | Ok (app', w') => Ok (screen', app', w')
          | Raise e => Raise e
          end) /\
       cards_completed screen' = Z.of_nat (length [GOOD; AGAIN]) /\
       total_cards screen' = Z.of_nat (length cards) /\
       cards_to_study screen' = drop (S (length [GOOD; AGAIN])) cards).
Proof.
  split; [vm_compute; reflexivity|].
  apply (study_in_order decimal_isoformat two_networks fresh_app noon
           (mkStudyScreen (Some (mkNetwork 3356 "Lumen Technologies" TIER_1))
              [mkNetwork 174 "Cogent Communications" TIER_1] 0 2 false)
           noon [GOOD; AGAIN]).
  vm_compute. reflexivity.
Defined.

Lemma last_card_stays_current_witness :
  mount_session NETWORKS StudyScreen_new fresh_app noon
  = Ok (mkStudyScreen (Some (mkNetwork 3356 "Lumen Technologies" TIER_1))
          (tail first_session) 0 11 false, noon) /\
  load_study_session NETWORKS (scheduler fresh_app) noon
  = Ok (mkNetwork 3356 "Lumen Technologies" TIER_1 :: tail first_session, noon) /\
  length (replicate 11 GOOD)
  = length (mkNetwork 3356 "Lumen Technologies" TIER_1 :: tail first_session) /\
  exists screen',
    (forall w,
       study decimal_isoformat (replicate 11 GOOD)
         (mkStudyScreen (Some (mkNetwork 3356 "Lumen Technologies" TIER_1))
            (tail first_session) 0 11 false)
         fresh_app w =
       match rate_all decimal_isoformat
               (zip (card_ids (mkNetwork 3356 "Lumen Technologies" TIER_1
                                 :: tail first_session))
                  (replicate 11 GOOD))
               fresh_app w
       with
       | Ok (app', w') => Ok (screen', app', w')
       | Raise e => Raise e
       end) /\
    current_card screen'
    = Some (default (mkNetwork 3356 "Lumen Technologies" TIER_1)
              (last (tail first_session))) /\
    revealed screen' = true /\
    cards_to_study screen' = [] /\
    cards_completed screen' = total_cards screen'.
Proof.
  split; [vm_compute; reflexivity|]. split; [vm_compute; reflexivity|].
  split; [reflexivity|].
  apply (last_card_stays_current decimal_isoformat NETWORKS fresh_app noon
           (mkStudyScreen (Some (mkNetwork 3356 "Lumen Technologies" TIER_1))
              (tail first_session) 0 11 false)
           noon (mkNetwork 3356 "Lumen Technologies" TIER_1)
           (tail first_session) (replicate 11 GOOD)).
  - vm_compute. reflexivity.
  - vm_compute. reflexivity.
  - reflexivity.
Defined.

(** The last card of that session is the second entry of the catalog with
    the number 2914. *)
Example last_of_first_session :
  last (tail first_session)
  = Some (mkNetwork 2914 "Japan Network Access Point (JPNAP)" IXP).
Proof. reflexivity. Qed.

Lemma rate_card_persists_witness :
  (forall t, decimal_fromisoformat (decimal_isoformat t) = Ok t) /\
  (forall t, decimal_isoformat t <> ""%string) /\
  dict_wf (card_states (scheduler fresh_app)) /\
  keyed (card_states (scheduler fresh_app)) /\
  exists self' app' w',
    _rate_card decimal_isoformat GOOD
      (mkStudyScreen (Some (mkNetwork 3356 "Lumen Technologies" TIER_1))
         [mkNetwork 174 "Cogent Communications" TIER_1] 0 2 true)
      fresh_app noon
    = Ok (self', app', w') /\
    (exists st w1,
       review_card (scheduler fresh_app)
         (str (asn (mkNetwork 3356 "Lumen Technologies" TIER_1))) GOOD noon
       = Ok (st, scheduler app', w1)) /\
    dict_wf (card_states (scheduler app')) /\
    keyed (card_states (scheduler app')) /\
    load decimal_fromisoformat (progress_file app')
    = Ok (card_states (scheduler app')) /\
    cards_completed self' = 0 + 1.
Proof.
  assert (Hwf : dict_wf (card_states (scheduler fresh_app))) by apply NoDup_nil_2.
  assert (Hkeyed : keyed (card_states (scheduler fresh_app)))
    by (intros k s; discriminate).
  split; [exact decimal_fromisoformat_isoformat|].
  split; [exact decimal_isoformat_nonempty|].
  split; [exact Hwf|]. split; [exact Hkeyed|].
  destruct (_rate_card decimal_isoformat GOOD
              (mkStudyScreen (Some (mkNetwork 3356 "Lumen Technologies" TIER_1))
                 [mkNetwork 174 "Cogent Communications" TIER_1] 0 2 true)
              fresh_app noon) as [[[self' app'] w']|e] eqn:Hrun;
    [|vm_compute in Hrun; discriminate].
  exists self', app', w'. split; [reflexivity|].
  apply (rate_card_persists decimal_isoformat decimal_fromisoformat
           decimal_fromisoformat_isoformat decimal_isoformat_nonempty
           GOOD
           (mkStudyScreen (Some (mkNetwork 3356 "Lumen Technologies" TIER_1))
              [mkNetwork 174 "Cogent Communications" TIER_1] 0 2 true)
           fresh_app (mkNetwork 3356 "Lumen Technologies" TIER_1)
           noon self' app' w' Hwf Hkeyed eq_refl eq_refl Hrun).
Defined.

(** ** No card twice in a session *)

(** The due ids are keys of the store. *)
Lemma get_due_cards_studied (self : Scheduler) w ids w' :
  get_due_cards self w = Ok (ids, w') ->
  forall cid, cid ∈ ids -> cid ∈ dict_keys (card_states self).
Proof.
  intros H.
  destruct (get_due_cards_run self w) as (scanned & w1 & Hscan & Hrun).
  rewrite Hrun in H. injection H as <- <-.
  destruct (due_items_clock _ _ _ _ Hscan) as [Hsub _].
  pose proof (list_sort_perm (fun x : string * CardState => next_review x.2) scanned)
    as Hperm.
  assert (Hsub' : scanned.*1 `sublist_of` dict_keys (card_states self))
    by (apply fmap_sublist; exact Hsub).
  intros cid Hcid. rewrite Hperm in Hcid. eapply elem_of_sublist; eassumption.
Qed.

(** X27. Over a catalog that lists no entry twice, whatever the store, a
    session shows no entry twice: its cards are pairwise distinct
    entries of the catalog, and the cards without a state in the store
    carry at most 10 different ids. They can be more than 10 cards, since
    two entries of the catalog may carry the same id, as "2914" in
    [NETWORKS]. *)
Theorem session_without_repeats (networks : list Network) (scheduler : Scheduler)
    w cards w' :
  NoDup networks ->
  load_study_session networks scheduler w = Ok (cards, w') ->
  NoDup cards /\
  (forall n, n ∈ cards -> n ∈ networks) /\
  (length (remove_dups
             (card_ids (filter (fun n => get_state scheduler (str (asn n)) = None)
                          cards)))
   <= 10)%nat.
Proof.
  intros Hnd. unfold load_study_session, mbind, M_bind, mret, M_ret.
  destruct (get_due_cards scheduler w) as [[due_ids w1]|e] eqn:Hdue; [|discriminate].
  intros [= <- <-]. fold (card_ids networks).
  pose proof (get_due_cards_studied _ _ _ _ Hdue) as Hstudied.
  set (new_ids := get_new_cards scheduler (card_ids networks) 10).
  assert (Hnew : forall cid, cid ∈ new_ids -> get_state scheduler cid = None).
  { intros cid Hin. unfold new_ids in Hin. rewrite get_new_cards_filter in Hin.
    apply slice_to_subseteq, list_elem_of_filter in Hin.
    apply dict_get_None. tauto. }
  assert (Hlen : (length new_ids <= 10)%nat).
  { unfold new_ids. rewrite get_new_cards_filter. unfold slice_to. simpl.
    rewrite length_take. lia. }
  split; [|split].
  - apply NoDup_app. split; [|split].
    + apply NoDup_filter, Hnd.
    + intros n Hd Hn. apply list_elem_of_filter in Hd, Hn.
      destruct Hd as [Hd _]. destruct Hn as [Hn _].
      apply Hstudied in Hd. apply Hnew, dict_get_None in Hn. contradiction.
    + apply NoDup_filter, Hnd.
  - intros n Hn. apply elem_of_app in Hn.
    destruct Hn as [Hn|Hn]; apply list_elem_of_filter in Hn; tauto.
  - etransitivity; [|exact Hlen]. apply submseteq_length, NoDup_submseteq.
    + apply NoDup_remove_dups.
    + intros cid Hcid. rewrite elem_of_remove_dups in Hcid.
      unfold card_ids in Hcid. apply list_elem_of_fmap in Hcid.
      destruct Hcid as (n & -> & Hn).
      apply list_elem_of_filter in Hn. destruct Hn as [Hnone Hn].
      apply elem_of_app in Hn.
      destruct Hn as [Hn|Hn]; apply list_elem_of_filter in Hn;
        destruct Hn as [Hn _]; [|exact Hn].
      apply Hstudied in Hn. apply dict_get_None in Hnone. contradiction.
Qed.

Lemma session_without_repeats_witness :
  NoDup NETWORKS /\
  load_study_session NETWORKS (mkScheduler []) noon = Ok (first_session, noon) /\
  NoDup first_session /\
  (forall n, n ∈ first_session -> n ∈ NETWORKS) /\
  (length (remove_dups
             (card_ids (filter (fun n => get_state (mkScheduler []) (str (asn n)) = None)
                          first_session)))
   <= 10)%nat.
Proof.
  assert (Hnd : NoDup NETWORKS)
    by (apply (bool_decide_unpack _); vm_compute; exact I).
  split; [exact Hnd|]. split; [vm_compute; reflexivity|].
  apply (session_without_repeats NETWORKS (mkScheduler []) noon first_session noon Hnd).
  vm_compute. reflexivity.
Defined.

(** ** The catalog functions *)

(** X28. [get_network_by_asn] returns the first card of the catalog with
    the number asked for, and nothing exactly when no card has it; over a
    catalog whose numbers are pairwise distinct every card is found by
    its number. *)
Theorem network_by_asn_first (networks : list Network) (a : Z) :
  match network_by_asn networks a with
  | Some n =>
      exists i : nat,
        networks !! i = Some n /\ asn n = a /\
        forall (j : nat) m, (j < i)%nat -> networks !! j = Some m -> asn m <> a
  | None => forall n, n ∈ networks -> asn n <> a
  end /\
  (NoDup (asn <$> networks) ->
   forall n, n ∈ networks -> network_by_asn networks (asn n) = Some n).
Proof.
  split.
  - induction networks as [|n networks IH]; simpl.
    + intros n Hn. apply elem_of_nil in Hn. contradiction.
    + destruct (Z.eqb_spec (asn n) a) as [E|E].
      * exists 0%nat. split; [reflexivity|]. split; [exact E|]. intros j m Hj. lia.
      * destruct (network_by_asn networks a) as [n'|].
        -- destruct IH as (i & Hi & Ha & Hfirst). exists (S i).
           split; [exact Hi|]. split; [exact Ha|].
           intros [|j] m Hj; simpl; [intros [= <-]; exact E|].
           apply Hfirst. lia.
        -- intros m Hm. apply elem_of_cons in Hm.
           destruct Hm as [->|Hm]; [exact E|apply IH, Hm].
  - induction networks as [|n networks IH]; intros Hnd m Hm.
    + apply elem_of_nil in Hm. contradiction.
    + rewrite fmap_cons in Hnd. apply NoDup_cons in Hnd. destruct Hnd as [Hn Hnd].
      simpl. apply elem_of_cons in Hm. destruct Hm as [->|Hm].
      * rewrite Z.eqb_refl. reflexivity.
      * destruct (Z.eqb_spec (asn n) (asn m)) as [E|E]; [|apply IH; assumption].
        exfalso. apply Hn. rewrite E. apply list_elem_of_fmap. eauto.
Qed.

(** The catalog has two cards with the number 2914; the second one, the
    exchange JPNAP, is not found by its number. *)
Example get_network_by_asn_2914 :
  get_network_by_asn 2914 = Some (mkNetwork 2914 "NTT Communications" TIER_1) /\
  mkNetwork 2914 "Japan Network Access Point (JPNAP)" IXP ∈ get_all_networks.
Proof.
  split; [reflexivity|]. unfold get_all_networks.
  apply list_elem_of_In. vm_compute. tauto.
Qed.

Lemma networks_by_tier_cons (n : Network) (networks : list Network) (t : Tier) :
  networks_by_tier (n :: networks) t =
  if decide (tier n = t) then n :: networks_by_tier networks t
  else networks_by_tier networks t.
Proof. unfold networks_by_tier. rewrite filter_cons. reflexivity. Qed.

(** X29. The lists of the six tiers divide the catalog: the list of a tier
    holds the cards of that tier and no other, in the order of the
    catalog, and the six lists together hold every card of the catalog
    as often as the catalog does. *)
Theorem networks_by_tier_partition (networks : list Network) :
  (forall t, networks_by_tier networks t `sublist_of` networks) /\
  (forall t n, n ∈ networks_by_tier networks t <-> n ∈ networks /\ tier n = t) /\
  concat (networks_by_tier networks <$> [TIER_1; TIER_2; TIER_3; CDN; CLOUD; IXP])
  ≡ₚ networks.
Proof.
  split; [|split].
  - intros t. apply sublist_filter.
  - intros t n. unfold networks_by_tier. rewrite list_elem_of_filter. tauto.
  - induction networks as [|n networks IH]; [reflexivity|].
    transitivity
      (n :: concat (networks_by_tier networks
                      <$> [TIER_1; TIER_2; TIER_3; CDN; CLOUD; IXP]));
      [|apply perm_skip, IH].
    clear IH. cbn [fmap list_fmap concat]. rewrite !networks_by_tier_cons.
    rewrite !app_nil_r.
    destruct (tier n); simpl.
    + reflexivity.
    + rewrite <- Permutation_middle. reflexivity.
    + rewrite !(app_assoc (networks_by_tier networks TIER_1)).
      rewrite <- Permutation_middle. reflexivity.
    + rewrite !(app_assoc (networks_by_tier networks TIER_1)).
      rewrite !(app_assoc (_ ++ networks_by_tier networks TIER_2)).
      rewrite <- Permutation_middle. reflexivity.
    + rewrite !(app_assoc (networks_by_tier networks TIER_1)).
      rewrite !(app_assoc (_ ++ networks_by_tier networks TIER_2)).
      rewrite !(app_assoc (_ ++ networks_by_tier networks TIER_3)).
      rewrite <- Permutation_middle. reflexivity.
    + rewrite !(app_assoc (networks_by_tier networks TIER_1)).
      rewrite !(app_assoc (_ ++ networks_by_tier networks TIER_2)).
      rewrite !(app_assoc (_ ++ networks_by_tier networks TIER_3)).
      rewrite !(app_assoc (_ ++ networks_by_tier networks CDN)).
      rewrite <- Permutation_middle. reflexivity.
Qed.

(** The sizes of the six lists of [data.py], 60 cards in all. *)
Example tier_sizes :
  length <$> (get_networks_by_tier <$> [TIER_1; TIER_2; TIER_3; CDN; CLOUD; IXP])
  = [14; 10; 7; 7; 17; 5]%nat.
Proof. vm_compute. reflexivity. Qed.
